(** * youtu-thich: the segmenter, the naming helpers and the publishers

    A shallow embedding of the Python scripts

    - [.github/scripts/process_youtube_video.py]
    - [.github/scripts/download_and_upload_to_r2.py]
    - [.github/scripts/download_from_r2.py]
    - [video_manager/github_scripts/upload_shorts_to_r2.py]

    followed by the properties stated for them.

    Conventions.
    - A Python [str] is a sequence of Unicode code points: [pystr] is
      [list N].  The Unicode tables behind [str.isalnum] and
      [str.isspace] are not part of the repository; they are Section
      variables, constrained only where a proof needs it.
    - Durations and timestamps are Python floats.  A finite float is a
      rational number, and [//], [%], [min] and the comparisons are exact
      on the values that occur here, so they are modelled in [Q].  A
      product or a difference of floats is rounded to the nearest double,
      ties to even ([round64]).  Python ints are in [Z].  NaN, the
      infinities and overflow are outside the model.
    - The [videos] table, whose [video_id] column is unique, is a
      [gmap pystr Video]; the SQLAlchemy session is the committed table
      together with its unit of work (rows added or modified since the
      last commit or rollback).
    - The outside world (ffprobe, ffmpeg, S3, the database, the clock)
      answers through explicit oracle arguments; every call made on the
      S3 client or on the session is recorded in a log, so that a
      statement about calls made or not made is a statement about the
      log. *)

From Stdlib Require Import ZArith QArith Qround Qminmax Lqa Lia List Sorted String Ascii.
From Stdlib Require Import Qpower.
From Stdlib Require DecimalZ.
From stdpp Require Import gmap strings list fin_maps.

(** ** Python strings as code points *)

Module PyStr.

Definition char := N.
Definition pystr := list char.

(** A literal of the source, one code point per character. *)
Definition lit (s : string) : pystr :=
  map N_of_ascii (list_ascii_of_string s).

Definition digit_code (d : N) : char := (48 + d)%N.

Fixpoint uint_codes (u : Decimal.uint) : pystr :=
  match u with
  | Decimal.Nil => []
  | Decimal.D0 u' => digit_code 0 :: uint_codes u'
  | Decimal.D1 u' => digit_code 1 :: uint_codes u'
  | Decimal.D2 u' => digit_code 2 :: uint_codes u'
  | Decimal.D3 u' => digit_code 3 :: uint_codes u'
  | Decimal.D4 u' => digit_code 4 :: uint_codes u'
  | Decimal.D5 u' => digit_code 5 :: uint_codes u'
  | Decimal.D6 u' => digit_code 6 :: uint_codes u'
  | Decimal.D7 u' => digit_code 7 :: uint_codes u'
  | Decimal.D8 u' => digit_code 8 :: uint_codes u'
  | Decimal.D9 u' => digit_code 9 :: uint_codes u'
  end.

Definition minus_sign : char := 45%N.
Definition underscore : char := 95%N.
Definition hyphen : char := 45%N.
Definition space : char := 32%N.

(** [str(n)] and the [{n}] of an f-string, for an int. *)
Definition str_int (z : Z) : pystr :=
  match Z.to_int z with
  | Decimal.Pos u => uint_codes u
  | Decimal.Neg u => minus_sign :: uint_codes u
  end.

Definition zfill (width : nat) (s : pystr) : pystr :=
  repeat (digit_code 0) (width - length s) ++ s.

(** The format spec [{n:0Wd}]: sign first, then zeros up to the width. *)
Definition format_d (width : nat) (z : Z) : pystr :=
  match Z.to_int z with
  | Decimal.Pos u => zfill width (uint_codes u)
  | Decimal.Neg u => minus_sign :: zfill (width - 1) (uint_codes u)
  end.

(** [s.replace(c, '')] for a one-character [c]. *)
Definition remove_char (c : char) (s : pystr) : pystr :=
  List.filter (fun x => negb (N.eqb x c)) s.

(** [s.replace(c, d)] for one-character [c] and [d]. *)
Definition replace_char (c d : char) (s : pystr) : pystr :=
  map (fun x => if N.eqb x c then d else x) s.

Fixpoint lstrip (p : char -> bool) (s : pystr) : pystr :=
  match s with
  | [] => []
  | c :: s' => if p c then lstrip p s' else s
  end.

Definition rstrip (p : char -> bool) (s : pystr) : pystr :=
  rev (lstrip p (rev s)).

(** [s.strip(chars)], [p] deciding membership in [chars]. *)
Definition strip (p : char -> bool) (s : pystr) : pystr :=
  lstrip p (rstrip p s).

Fixpoint is_prefix (p s : pystr) : bool :=
  match p, s with
  | [], _ => true
  | _ :: _, [] => false
  | c :: p', d :: s' => N.eqb c d && is_prefix p' s'
  end.

Definition startswith (s p : pystr) : bool := is_prefix p s.
Definition endswith (s p : pystr) : bool := is_prefix (rev p) (rev s).

(** [sub in s]. *)
Fixpoint contains (sub s : pystr) : bool :=
  is_prefix sub s
  || match s with
     | [] => false
     | _ :: s' => contains sub s'
     end.

(** [s.replace(old, new)] for a non-empty [old]: the occurrences are
    replaced from left to right, without overlap; [skip] counts the
    characters of a matched occurrence still to be passed over. *)
Fixpoint replace_from (old new : pystr) (skip : nat) (s : pystr) : pystr :=
  match s with
  | [] => []
  | c :: s' =>
      match skip with
      | S k => replace_from old new k s'
      | O =>
          if is_prefix old s
          then new ++ replace_from old new (length old - 1) s'
          else c :: replace_from old new 0 s'
      end
  end.

Definition replace (old new s : pystr) : pystr := replace_from old new 0 s.

(** Truthiness of a value that is [None] or a [str]. *)
Definition truthy (s : option pystr) : bool :=
  match s with
  | Some (_ :: _) => true
  | _ => false
  end.

#[global] Arguments lit : simpl never.
#[global] Arguments replace : simpl never.

(** [' '.join(parts)]. *)
Fixpoint join_space (parts : list pystr) : pystr :=
  match parts with
  | [] => []
  | [p] => p
  | p :: rest => p ++ space :: join_space rest
  end.

End PyStr.

(** ** Paths, as [os.path] builds them on POSIX *)

Module OsPath.

Import PyStr.

Definition sep : char := 47%N.

(** The full stop that starts an extension ([os.extsep]). *)
Definition extsep : char := 46%N.

(** [os.path.join(a, b)]. *)
Definition join (a b : pystr) : pystr :=
  if startswith b [sep] then b
  else
    match a with
    | [] => b
    | _ :: _ => if endswith a [sep] then a ++ b else a ++ [sep] ++ b
    end.

(** The part of a path that follows its last separator; the path is read
    from its end, [acc] holds the characters passed so far. *)
Fixpoint after_last_sep (reversed acc : pystr) : pystr :=
  match reversed with
  | [] => acc
  | c :: rest => if N.eqb c sep then acc else after_last_sep rest (c :: acc)
  end.

(** [os.path.basename(p)]. *)
Definition basename (p : pystr) : pystr := after_last_sep (rev p) [].

End OsPath.

(** ** Floats as rationals *)

Module PyNum.

Open Scope Q_scope.

(** [int(x)] of a float: truncation towards zero. *)
Definition py_int (x : Q) : Z :=
  if Qle_bool 0 x then Qfloor x else Qceiling x.

(** [x // y] for a positive divisor. *)
Definition floordiv (x y : Q) : Q := inject_Z (Qfloor (x / y)).

(** [x % y] for a positive divisor. *)
Definition pymod (x y : Q) : Q := x - y * inject_Z (Qfloor (x / y)).

(** [range(n)]: empty when [n <= 0]. *)
Definition range (n : Z) : list Z := map Z.of_nat (seq 0 (Z.to_nat n)).

(** *** Rounding to binary64 *)

Definition pow2 (e : Z) : Q := 2 ^ e.

(** The largest [k] with [2^k <= x], for a positive [x]: the difference
    of the bit lengths of numerator and denominator, or one less. *)
Definition floor_log2 (x : Q) : Z :=
  let k := (Z.log2 (Qnum x) - Z.log2 (Zpos (Qden x)))%Z in
  if Qle_bool (pow2 k) x then k else (k - 1)%Z.

(** The nearest whole number, a tie going to the even one. *)
Definition round_half_even (y : Q) : Z :=
  let f := Qfloor y in
  match Qcompare (y - inject_Z f) (1 # 2) with
  | Lt => f
  | Gt => (f + 1)%Z
  | Eq => if Z.even f then f else (f + 1)%Z
  end.

(** A positive number rounded to the nearest double: 53 significant
    bits, on the grid of step [2^e] with [e] at least -1074 (the
    subnormal numbers). *)
Definition round64_pos (x : Q) : Q :=
  let e := Z.max (floor_log2 x - 52) (-1074) in
  inject_Z (round_half_even (x / pow2 e)) * pow2 e.

Definition round64 (x : Q) : Q :=
  match Qcompare x 0 with
  | Eq => 0
  | Gt => round64_pos x
  | Lt => - round64_pos (- x)
  end.

(** [a * b] and [a - b] on floats. *)
Definition fmul (a b : Q) : Q := round64 (a * b).
Definition fsub (a b : Q) : Q := round64 (a - b).

(** The finite doubles: [m * 2^e] with a significand below [2^53]. *)
Definition binary64 (x : Q) : Prop :=
  exists m e : Z,
    (Z.abs m < 2 ^ 53)%Z /\ (-1074 <= e <= 971)%Z /\ x == inject_Z m * pow2 e.

End PyNum.

(** ** The Segmenter *)

Module Segmenter.

Import PyStr PyNum.
Open Scope Q_scope.

(** The dict returned by [get_video_info]. *)
Record VideoInfo := {
  vi_title : pystr;
  vi_description : pystr;
  vi_duration : Q
}.

(** A segment dict of [create_segments]. *)
Record Segment := {
  seg_start : Q;
  seg_end : Q;
  seg_title : pystr;
  seg_description : pystr
}.

Definition segment_duration : Z := 60.

(** The duration [create_segments] works with: the one of [video_info],
    or, when that is 0, what ffprobe printed ([probe = None] stands for
    any exception in the [try] block), with 60 as the fallback. *)
Definition effective_duration (probe : option Q) (video_info : VideoInfo) : Q :=
  if Qeq_bool (vi_duration video_info) 0 then
    match probe with
    | Some d => d
    | None => 60
    end
  else vi_duration video_info.

Definition num_segments_of (duration : Q) : Z :=
  Z.min (py_int (floordiv duration (inject_Z segment_duration))) 10.

Definition make_segment (title : pystr) (duration : Q) (num_segments i : Z) : Segment :=
  let start := (i * segment_duration)%Z in
  let end_ := Qmin (inject_Z (start + segment_duration)) duration in
  {| seg_start := inject_Z start;
     seg_end := end_;
     seg_title := title ++ lit " - Part " ++ str_int (i + 1);
     seg_description :=
       lit "Part " ++ str_int (i + 1) ++ lit " of " ++ str_int num_segments |}.

(** [create_segments(video_id, video_file, video_info)]; the video file
    is seen only through [probe]. *)
Definition create_segments (video_id : pystr) (probe : option Q)
    (video_info : VideoInfo) : list Segment :=
  let duration := effective_duration probe video_info in
  let num_segments := num_segments_of duration in
  let title := vi_title video_info in
  map (make_segment title duration num_segments) (range num_segments).

(** An entry of the transcript: [entry['start']] and [entry['text']]. *)
Record TranscriptEntry := {
  te_start : Q;
  te_text : pystr
}.

(** A segment dict of [create_analysis_json]. *)
Record AnalysisSegment := {
  as_start : Q;
  as_end : Q;
  as_duration : Q;
  as_title : pystr;
  as_description : pystr;
  as_reason : pystr
}.

Record Analysis := {
  an_video_id : pystr;
  an_title : pystr;
  an_description : pystr;
  an_duration : Q;
  an_transcript : list TranscriptEntry;
  an_segments : list AnalysisSegment
}.

Section Analysis.

(** [str.isspace], which decides what [str.strip()] removes. *)
Variable isspace : char -> bool.

Definition in_window (start end_ : Q) (entry : TranscriptEntry) : bool :=
  Qle_bool start (te_start entry) && negb (Qle_bool end_ (te_start entry)).

(** The texts of the entries whose start lies in the window, in order. *)
Definition window_texts (start end_ : Q) (transcript : list TranscriptEntry)
    : list pystr :=
  map te_text (List.filter (in_window start end_) transcript).

(** The inner loop: [segment_text += entry['text'] + " "] for every entry
    of the window. *)
Fixpoint segment_text (start end_ : Q) (transcript : list TranscriptEntry) : pystr :=
  match transcript with
  | [] => []
  | entry :: rest =>
      if in_window start end_ entry
      then (te_text entry ++ [space]) ++ segment_text start end_ rest
      else segment_text start end_ rest
  end.

Definition make_analysis_segment (title : pystr) (duration : Q)
    (transcript : list TranscriptEntry) (i : Z) : AnalysisSegment :=
  let start := (i * segment_duration)%Z in
  let end_ := Qmin (inject_Z (start + segment_duration)) duration in
  let text := segment_text (inject_Z start) end_ transcript in
  {| as_start := inject_Z start;
     as_end := end_;
     as_duration := end_ - inject_Z start;
     as_title := title ++ lit " - Part " ++ str_int (i + 1);
     as_description :=
       match text with
       | [] => lit "Segment " ++ str_int (i + 1)
       | _ :: _ => take 200 (strip isspace text)
       end;
     as_reason := lit "Auto-generated segment" |}.

(** The segments of [create_analysis_json]: none unless the transcript is
    truthy (fetched and not empty) and the duration positive. *)
Definition analysis_segments (title : pystr) (duration : Q)
    (transcript : option (list TranscriptEntry)) : list AnalysisSegment :=
  match transcript with
  | Some ((_ :: _) as entries) =>
      if Qle_bool duration 0 then []
      else
        let num_segments := py_int (floordiv duration (inject_Z segment_duration)) in
        map (make_analysis_segment title duration entries)
            (range (Z.min num_segments 10))
  | _ => []
  end.

(** [create_analysis_json(video_id, video_file, transcript, output_dir)]:
    [probe] is the duration ffprobe printed ([None] for any exception),
    [info] the title and description of the info file when it exists. *)
Definition create_analysis_json (video_id : pystr) (probe : option Q)
    (info : option (pystr * pystr))
    (transcript : option (list TranscriptEntry)) : Analysis :=
  let duration := match probe with Some d => d | None => 0 end in
  let title := match info with Some (t, _) => t | None => video_id end in
  let description := match info with Some (_, d) => d | None => [] end in
  {| an_video_id := video_id;
     an_title := title;
     an_description := description;
     an_duration := duration;
     an_transcript := match transcript with Some es => es | None => [] end;
     an_segments := analysis_segments title duration transcript |}.

End Analysis.

(** *** The windows of a list of segments *)

Definition seg_bounds (s : Segment) : Q * Q := (seg_start s, seg_end s).
Definition as_bounds (s : AnalysisSegment) : Q * Q := (as_start s, as_end s).

(** The moment [t] lies in the half-open window [w]. *)
Definition in_span (t : Q) (w : Q * Q) : Prop := w.1 <= t /\ t < w.2.

Definition in_span_b (t : Q) (w : Q * Q) : bool :=
  Qle_bool w.1 t && negb (Qle_bool w.2 t).

(** The windows [ws] cover exactly the half-open interval from [lo] to [hi]. *)
Definition covers (ws : list (Q * Q)) (lo hi : Q) : Prop :=
  forall t, (exists w, In w ws /\ in_span t w) <-> lo <= t /\ t < hi.

(** An earlier window starts before a later one and ends no later than
    the later one starts. *)
Definition before (w1 w2 : Q * Q) : Prop := w1.1 < w2.1 /\ w1.2 <= w2.1.

(** [n] windows of at most [segment_duration] seconds, in order, without
    overlap, whose union is the interval from 0 to [n * segment_duration]. *)
Definition tiles (n : Z) (ws : list (Q * Q)) : Prop :=
  Z.of_nat (length ws) = n
  /\ StronglySorted before ws
  /\ (forall w, In w ws -> w.2 - w.1 <= inject_Z segment_duration)
  /\ covers ws 0 (inject_Z (n * segment_duration)).

(** The [i]-th full window. *)
Definition full_window (i : Z) : Q * Q :=
  (inject_Z (i * segment_duration), inject_Z (i * segment_duration + segment_duration)).

End Segmenter.

(** ** File names and timestamps *)

Module Naming.

Import PyStr PyNum.
Open Scope Q_scope.

(** The nine characters of [invalid_chars], in source order: less-than,
    greater-than, colon, double quote, slash, backslash, bar, question
    mark, asterisk. *)
Definition invalid_chars : pystr :=
  [60; 62; 58; 34; 47; 92; 124; 63; 42]%N.

Section Sanitize.

(** [str.isalnum] on one character. *)
Variable isalnum : char -> bool.

Definition keep_char (c : char) : bool :=
  isalnum c || N.eqb c underscore || N.eqb c hyphen.

(** [sanitize_filename(title, max_length)]. *)
Definition sanitize_filename (title : pystr) (max_length : nat) : pystr :=
  let title := fold_left (fun t c => remove_char c t) invalid_chars title in
  let title := replace_char space underscore title in
  let title := List.filter keep_char title in
  strip (fun c => N.eqb c underscore) (take max_length title).

(** Not one of [invalid_chars]. *)
Definition valid (c : char) : bool :=
  forallb (fun d => negb (N.eqb c d)) invalid_chars.

(** A character that every step of [sanitize_filename] leaves in place. *)
Definition clean (c : char) : bool :=
  valid c && negb (N.eqb c space) && keep_char c.

End Sanitize.

(** The default of the [max_length] parameter; no caller overrides it. *)
Definition default_max_length : nat := 50.

(** [format_timestamp(seconds)]. *)
Definition format_timestamp (seconds : Q) : pystr :=
  let hours := py_int (floordiv seconds 3600) in
  let minutes := py_int (floordiv (pymod seconds 3600) 60) in
  let secs := py_int (pymod seconds 60) in
  let ms := py_int (fmul (pymod seconds 1) 1000) in
  format_d 2 hours ++ lit ":" ++ format_d 2 minutes ++ lit ":"
    ++ format_d 2 secs ++ lit "." ++ format_d 3 ms.

(** The two decimal digits of a number below 100, and the three of a
    number below 1000, leading zeros included. *)
Definition two_digits (z : Z) : pystr :=
  [digit_code (Z.to_N (z / 10)); digit_code (Z.to_N (z mod 10))].

Definition three_digits (z : Z) : pystr :=
  [digit_code (Z.to_N (z / 100)); digit_code (Z.to_N (z / 10 mod 10));
   digit_code (Z.to_N (z mod 10))].

End Naming.

(** ** The publishers *)

Module Publisher.

Import PyStr PyNum Segmenter.

(** A row of the [videos] table (the class [Video] of both scripts).  The
    unique column [video_id] is the key under which the table holds the
    row; the surrogate key [id] is assigned by the database and read by
    neither script, and is left out. *)
Module Video.
Record t := {
  filename : pystr;
  title : option pystr;
  description : option pystr;
  duration : option Q;
  r2_url : option pystr;
  r2_key : option pystr;
  tiktok_description : option pystr;
  created_at : Z;
  updated_at : Z
}.
End Video.
Abbreviation Video := Video.t.

(** The exceptions the handlers tell apart: botocore's [ClientError], and
    every other [Exception]. *)
Inductive exn := ClientError | OtherError.

(** The calls made on the S3 client and on the session, as they are
    issued; a call that raises is logged as well. *)
Inductive call :=
| PutObject (key : pystr)
| UploadFile (key : pystr)
| HeadObject (key : pystr)
| SessionQuery (id : pystr)
| SessionAdd (id : pystr)
| SessionSet (id : pystr)
| SessionCommit
| SessionRollback
| SessionClose.

(** The committed table, the unit of work of the session, and the calls
    issued so far (oldest first). *)
Record World := {
  db : gmap pystr Video;
  pending : gmap pystr Video;
  log : list call
}.

(** What the outside world answers while one file is handled: the
    exception each call raises, if any, and the clock. *)
Record Faults := {
  upload_fault : option exn;
  head_fault : option exn;
  query_fault : option exn;
  commit_fault : option exn;
  utcnow : Z
}.

Inductive result (A : Type) :=
| Ok (a : A)
| Raised (e : exn).
Arguments Ok {A} a.
Arguments Raised {A} e.

(** Computations on the world that return or raise. *)
Definition M (A : Type) : Type := World -> World * result A.

#[global] Instance M_ret : MRet M := fun A a w => (w, Ok a).

#[global] Instance M_bind : MBind M := fun A B f m w =>
  match m w with
  | (w', Ok a) => f a w'
  | (w', Raised e) => (w', Raised e)
  end.

Definition logged (c : call) (w : World) : World :=
  {| db := db w; pending := pending w; log := log w ++ [c] |}.

(** An external call that touches no table. *)
Definition external (c : call) (fault : option exn) : M unit := fun w =>
  (logged c w, match fault with Some e => Raised e | None => Ok tt end).

(** [try: body except Exception as e: handler]. *)
Definition try_except {A} (body : M A) (handler : exn -> M A) : M A := fun w =>
  match body w with
  | (w', Raised e) => handler e w'
  | r => r
  end.

(** [try: body except ClientError: handler]; anything else propagates. *)
Definition try_except_ClientError {A} (body : M A) (handler : M A) : M A := fun w =>
  match body w with
  | (w', Raised ClientError) => handler w'
  | r => r
  end.

(** [for x in l: s = body x s]. *)
Fixpoint for_each {A S} (l : list A) (body : A -> S -> M S) (s : S) : M S :=
  match l with
  | [] => mret s
  | x :: l' => s' ← body x s; for_each l' body s'
  end.

(** [session.query(Video).filter_by(video_id=id).first()]: the session
    sees its own unit of work on top of the table. *)
Definition session_query (fault : option exn) (id : pystr) : M (option Video) := fun w =>
  (logged (SessionQuery id) w,
   match fault with
   | Some e => Raised e
   | None => Ok ((pending w ∪ db w) !! id)
   end).

(** [session.add(Video(video_id=id, ...))]. *)
Definition session_add (id : pystr) (v : Video) : M unit := fun w =>
  ({| db := db w; pending := <[id := v]> (pending w);
      log := log w ++ [SessionAdd id] |}, Ok tt).

(** Attribute assignments on a row the session has loaded: the row is
    dirty in the unit of work. *)
Definition session_set (id : pystr) (v : Video) : M unit := fun w =>
  ({| db := db w; pending := <[id := v]> (pending w);
      log := log w ++ [SessionSet id] |}, Ok tt).

(** [session.commit()]: the unit of work reaches the table, or the call
    raises and the script is left to roll back.  Until it does, SQLAlchemy
    raises [PendingRollbackError] at every further call on the session:
    those refusals are faults of the later calls ([pending_rollback]
    below), they are not derived here. *)
Definition session_commit (fault : option exn) : M unit := fun w =>
  match fault with
  | Some e => (logged SessionCommit w, Raised e)
  | None =>
      ({| db := pending w ∪ db w; pending := ∅; log := log w ++ [SessionCommit] |},
       Ok tt)
  end.

(** [session.rollback()]. *)
Definition session_rollback : M unit := fun w =>
  ({| db := db w; pending := ∅; log := log w ++ [SessionRollback] |}, Ok tt).

(** [session.close()]. *)
Definition session_close : M unit := fun w =>
  ({| db := db w; pending := ∅; log := log w ++ [SessionClose] |}, Ok tt).

(** [existing.r2_url = url; existing.r2_key = key;
    existing.updated_at = datetime.utcnow()]. *)
Definition with_r2 (v : Video) (url key : pystr) (now : Z) : Video :=
  {| Video.filename := Video.filename v;
     Video.title := Video.title v;
     Video.description := Video.description v;
     Video.duration := Video.duration v;
     Video.r2_url := Some url;
     Video.r2_key := Some key;
     Video.tiktok_description := Video.tiktok_description v;
     Video.created_at := Video.created_at v;
     Video.updated_at := now |}.

(** [os.environ.get]. *)
Definition Environ := pystr -> option pystr.

(** A directory listing, each file with what the world answers while it
    is handled. *)
Definition Listing := list (pystr * Faults).

(** The exit status of the process. *)
Definition exit_code := Z.

(** [all([...])] over values that are [None] or a [str]. *)
Definition all_truthy (values : list (option pystr)) : bool :=
  forallb truthy values.

(** The value of a variable once [all_truthy] has passed. *)
Definition value (v : option pystr) : pystr := default [] v.

(** The identifier a file is published under: [filename.replace('.mp4', '')]. *)
Definition short_id (filename : pystr) : pystr := replace (lit ".mp4") [] filename.

(** A world in which every call succeeds, at time [now]. *)
Definition no_faults (now : Z) : Faults :=
  {| upload_fault := None; head_fault := None; query_fault := None;
     commit_fault := None; utcnow := now |}.

(** The same, except that [session.commit()] raises. *)
Definition commit_fails (now : Z) : Faults :=
  {| upload_fault := None; head_fault := None; query_fault := None;
     commit_fault := Some OtherError; utcnow := now |}.

(** Two clips of one video; the commit of the first one raises. *)
Definition two_clips : Listing :=
  [ (lit "abc_T_1.mp4", commit_fails 100); (lit "abc_T_2.mp4", no_faults 200) ].

(** What a file meets when the session is still in a failed transaction:
    the bucket answers, and the first call on the session, the query,
    raises [PendingRollbackError]. *)
Definition pending_rollback (now : Z) : Faults :=
  {| upload_fault := None; head_fault := None; query_fault := Some OtherError;
     commit_fault := None; utcnow := now |}.

(** The same two clips as a script that does not roll back meets them:
    the commit of the first one raises, and the session refuses the query
    for the second. *)
Definition unrolled_clips : Listing :=
  [ (lit "abc_T_1.mp4", commit_fails 100);
    (lit "abc_T_2.mp4", pending_rollback 200) ].

(** An empty table and a fresh session. *)
Definition empty_world : World := {| db := ∅; pending := ∅; log := [] |}.

(** The number of [session.rollback()] calls. *)
Definition rollbacks (calls : list call) : nat :=
  length
    (List.filter
       (fun c => match c with SessionRollback => true | _ => false end) calls).

(** A clip already published: its row holds a storage URL. *)
Definition published_row : Video :=
  {| Video.filename := lit "abc_T_1.mp4";
     Video.title := Some (lit "T");
     Video.description := Some [];
     Video.duration := Some (185 # 1);
     Video.r2_url := Some (lit "https://cdn.example/videos/abc_T_1.mp4");
     Video.r2_key := Some (lit "videos/abc_T_1.mp4");
     Video.tiktok_description := None;
     Video.created_at := 100;
     Video.updated_at := 100 |}.

Definition published_world : World :=
  {| db := {[ lit "abc_T_1" := published_row ]}; pending := ∅; log := [] |}.

(** The number of uploads attempted for [key], by either client call. *)
Definition uploads_of (key : pystr) (calls : list call) : nat :=
  length
    (List.filter
       (fun c =>
          match c with
          | PutObject k | UploadFile k => bool_decide (k = key)
          | _ => false
          end)
       calls).

End Publisher.

(** ** process_youtube_video.py: the publish stage and [main] *)

Module ProcessYoutubeVideo.

Import PyStr PyNum OsPath Segmenter Naming Publisher.

Record R2Config := {
  access_key : pystr;
  secret_key : pystr;
  endpoint : pystr;
  bucket : pystr;
  public_url : pystr
}.

(** [existing and existing.r2_url]. *)
Definition already_uploaded (existing : option Video) : bool :=
  match existing with
  | Some v => truthy (Video.r2_url v)
  | None => false
  end.

(** The body of the [for filename in shorts] loop.  The query stands
    before the [try]: what it raises leaves the loop.  [upload_fault] is
    what [open] or [put_object] raises; the upload is logged as attempted
    in both cases. *)
Definition upload_short (video_info : VideoInfo) (r2_config : R2Config)
    (item : pystr * Faults) (uploaded : nat) : M nat :=
  let filename := item.1 in
  let faults := item.2 in
  let short_video_id := replace (lit ".mp4") [] filename in
  existing ← session_query (query_fault faults) short_video_id;
  if already_uploaded existing then mret uploaded
  else
    try_except
      (let object_key := lit "videos/" ++ filename in
       _ ← external (PutObject object_key) (upload_fault faults);
       let url := public_url r2_config ++ lit "/" ++ object_key in
       _ ← match existing with
           | Some v =>
               session_set short_video_id
                 (with_r2 v url object_key (utcnow faults))
           | None =>
               session_add short_video_id
                 {| Video.filename := filename;
                    Video.title := Some (vi_title video_info);
                    Video.description := Some (vi_description video_info);
                    Video.duration := Some (vi_duration video_info);
                    Video.r2_url := Some url;
                    Video.r2_key := Some object_key;
                    Video.tiktok_description := None;
                    Video.created_at := utcnow faults;
                    Video.updated_at := utcnow faults |}
           end;
       _ ← session_commit (commit_fault faults);
       mret (S uploaded))
      (fun _ => _ ← session_rollback; mret uploaded).

(** The row for [id] holds a storage URL. *)
Definition published (table : gmap pystr Video) (id : pystr) : Prop :=
  exists v, table !! id = Some v /\ truthy (Video.r2_url v) = true.

(** Neither the upload nor the commit of the file raises. *)
Definition goes_through (item : pystr * Faults) : bool :=
  match upload_fault item.2, commit_fault item.2 with
  | None, None => true
  | _, _ => false
  end.

(** [upload_shorts_to_r2_and_db]: [shorts_dir] is the listing of the
    directory, [connect_ok] whether the session could be opened.  The
    function is modelled from there on: [boto3.client(...)], which stands
    before it and outside any [try], is taken to return a client. *)
Definition upload_shorts_to_r2_and_db (video_id : pystr) (shorts_dir : Listing)
    (video_info : VideoInfo) (r2_config : R2Config) (connect_ok : bool) : M bool :=
  if negb connect_ok then mret false
  else
    let shorts := List.filter (fun item => endswith item.1 (lit ".mp4")) shorts_dir in
    uploaded ← for_each shorts (upload_short video_info r2_config) 0%nat;
    _ ← session_close;
    mret (0 <? uploaded)%nat.

Definition example_info : VideoInfo :=
  {| vi_title := lit "T"; vi_description := []; vi_duration := 185 # 1 |}.

Definition example_config : R2Config :=
  {| access_key := lit "key"; secret_key := lit "secret";
     endpoint := lit "https://r2.example"; bucket := lit "shorts";
     public_url := lit "https://cdn.example" |}.

Section Main.

Variable isalnum : char -> bool.

(** [enumerate(segments, 1)]. *)
Definition enumerate1 {A} (l : list A) : list (Z * A) :=
  zip (map (fun i => Z.of_nat (S i)) (seq 0 (length l))) l.

(** [main]: [downloaded] tells whether [download_youtube_video] returned
    a file, [video_info] is what [get_video_info] read, and
    [cut output_file start_time end_time] is the result of
    [cut_video_segment].  An exception that nothing catches ends the
    process with status 1. *)
Definition main (environ : Environ) (downloaded : bool) (video_info : VideoInfo)
    (probe : option Q) (cut : pystr -> Q -> Q -> bool) (shorts_listing : Listing)
    (connect_ok : bool) (w : World) : World * exit_code :=
  let video_id := environ (lit "VIDEO_ID") in
  let r2_access_key := environ (lit "R2_SHORTS_ACCESS_KEY") in
  let r2_secret_key := environ (lit "R2_SHORTS_SECRET_KEY") in
  let r2_endpoint := environ (lit "R2_SHORTS_ENDPOINT") in
  let r2_bucket := environ (lit "R2_SHORTS_BUCKET") in
  let r2_public_url := environ (lit "R2_SHORTS_PUBLIC_URL") in
  let database_url := environ (lit "DATABASE_URL") in
  if negb (all_truthy [video_id; r2_access_key; r2_secret_key; r2_endpoint;
                       r2_bucket; r2_public_url; database_url])
  then (w, 1%Z)
  else if negb downloaded then (w, 1%Z)
  else
    let segments := create_segments (value video_id) probe video_info in
    let successful :=
      length
        (List.filter
           (fun '(i, segment) =>
              let safe_title :=
                sanitize_filename isalnum (seg_title segment) default_max_length in
              let output_filename :=
                value video_id ++ lit "_" ++ safe_title ++ lit "_" ++ str_int i
                  ++ lit ".mp4" in
              cut (join (lit "shorts") output_filename) (seg_start segment)
                (seg_end segment))
           (enumerate1 segments)) in
    if (successful =? 0)%nat then (w, 1%Z)
    else
      let r2_config :=
        {| access_key := value r2_access_key;
           secret_key := value r2_secret_key;
           endpoint := value r2_endpoint;
           bucket := value r2_bucket;
           public_url := value r2_public_url |} in
      match upload_shorts_to_r2_and_db (value video_id) shorts_listing video_info
              r2_config connect_ok w with
      | (w', Ok true) => (w', 0%Z)
      | (w', Ok false) => (w', 1%Z)
      | (w', Raised _) => (w', 1%Z)
      end.

End Main.

End ProcessYoutubeVideo.

(** ** upload_shorts_to_r2.py: the script *)

Module UploadShortsToR2.

Import PyStr PyNum Publisher.

(** The body of the [for filename in shorts_files] loop, on the pair
    [(success_count, failed_count)].  [os.path.getsize] on a listed file,
    which stands before the [try], is taken to succeed. *)
Definition upload_one (VIDEO_ID R2_PUBLIC_URL : pystr)
    (item : pystr * Faults) (counts : nat * nat) : M (nat * nat) :=
  let filename := item.1 in
  let faults := item.2 in
  let success_count := counts.1 in
  let failed_count := counts.2 in
  let key := VIDEO_ID ++ lit "/" ++ filename in
  try_except
    (_ ← external (UploadFile key) (upload_fault faults);
     try_except_ClientError
       (_ ← external (HeadObject key) (head_fault faults);
        let url := R2_PUBLIC_URL ++ lit "/videos/" ++ filename in
        let short_name := replace (lit ".mp4") [] filename in
        existing ← session_query (query_fault faults) short_name;
        _ ← match existing with
            | Some v => session_set short_name (with_r2 v url key (utcnow faults))
            | None =>
                session_add short_name
                  {| Video.filename := filename;
                     Video.title := None;
                     Video.description := None;
                     Video.duration := None;
                     Video.r2_url := Some url;
                     Video.r2_key := Some key;
                     Video.tiktok_description := None;
                     Video.created_at := utcnow faults;
                     Video.updated_at := utcnow faults |}
            end;
        _ ← session_commit (commit_fault faults);
        mret (S success_count, failed_count))
       (mret (S success_count, failed_count)))
    (fun _ => mret (success_count, S failed_count)).

(** The URL and the key the loop body stores for [filename]. *)
Definition recorded_by (VIDEO_ID R2_PUBLIC_URL filename : pystr) (v : Video) : Prop :=
  Video.r2_url v = Some (R2_PUBLIC_URL ++ lit "/videos/" ++ filename)
  /\ Video.r2_key v = Some (VIDEO_ID ++ lit "/" ++ filename).

(** The loop and the close that follows it. *)
Definition upload_all (VIDEO_ID R2_PUBLIC_URL : pystr) (shorts_files : Listing)
    : M (nat * nat) :=
  counts ← for_each shorts_files (upload_one VIDEO_ID R2_PUBLIC_URL) (0, 0)%nat;
  _ ← session_close;
  mret counts.

(** The checks that stand before the listing of the directory, taken
    together. *)
Definition preflight (environ : Environ) (s3_client_ok connect_ok : bool) : bool :=
  all_truthy [environ (lit "VIDEO_ID"); environ (lit "R2_ACCESS_KEY");
              environ (lit "R2_SECRET_KEY"); environ (lit "R2_ENDPOINT");
              environ (lit "R2_BUCKET"); environ (lit "R2_PUBLIC_URL")]
  && truthy (environ (lit "DATABASE_URL"))
  && negb (contains (lit "localhost") (value (environ (lit "DATABASE_URL")))
           || contains (lit "127.0.0.1") (value (environ (lit "DATABASE_URL")))
           || contains (lit "/var/run/postgresql")
                (value (environ (lit "DATABASE_URL"))))
  && startswith (value (environ (lit "DATABASE_URL"))) (lit "postgresql")
  && s3_client_ok && connect_ok.

(** The whole module: [s3_client_ok] and [connect_ok] tell whether the
    client and the session could be created, [shorts_dir] is the listing
    of the directory when it exists. *)
Definition script (environ : Environ) (s3_client_ok connect_ok : bool)
    (shorts_dir : option Listing) (w : World) : World * exit_code :=
  let R2_ACCESS_KEY_ID := environ (lit "R2_ACCESS_KEY") in
  let R2_SECRET_ACCESS_KEY := environ (lit "R2_SECRET_KEY") in
  let R2_ENDPOINT := environ (lit "R2_ENDPOINT") in
  let R2_BUCKET := environ (lit "R2_BUCKET") in
  let R2_PUBLIC_URL := environ (lit "R2_PUBLIC_URL") in
  let VIDEO_ID := environ (lit "VIDEO_ID") in
  let DATABASE_URL := environ (lit "DATABASE_URL") in
  if negb (all_truthy [VIDEO_ID; R2_ACCESS_KEY_ID; R2_SECRET_ACCESS_KEY;
                       R2_ENDPOINT; R2_BUCKET; R2_PUBLIC_URL])
  then (w, 1%Z)
  else if negb (truthy DATABASE_URL) then (w, 1%Z)
  else if contains (lit "localhost") (value DATABASE_URL)
          || contains (lit "127.0.0.1") (value DATABASE_URL)
          || contains (lit "/var/run/postgresql") (value DATABASE_URL)
  then (w, 1%Z)
  else if negb (startswith (value DATABASE_URL) (lit "postgresql")) then (w, 1%Z)
  else if negb s3_client_ok then (w, 1%Z)
  else if negb connect_ok then (w, 1%Z)
  else
    match shorts_dir with
    | None => (w, 1%Z)
    | Some files =>
        let shorts_files :=
          List.filter
            (fun item => startswith item.1 (value VIDEO_ID)
                         && endswith item.1 (lit ".mp4"))
            files in
        match shorts_files with
        | [] => (w, 1%Z)
        | _ :: _ =>
            match upload_all (value VIDEO_ID) (value R2_PUBLIC_URL) shorts_files w with
            | (w', Ok counts) => (w', if (counts.1 =? 0)%nat then 1%Z else 0%Z)
            | (w', Raised _) => (w', 1%Z)
            end
        end
    end.

End UploadShortsToR2.

(** ** Subprocesses and the file system *)

Module Subprocess.

Import PyStr.

(** What [subprocess.run] does with a command: it returns with a return
    code, or raises ([TimeoutExpired] or anything else). *)
Inductive run_result :=
| Exited (returncode : Z)
| TimeoutExpired
| RunError.

(** The machine a script runs on: [run] answers [subprocess.run],
    [path_exists] answers [os.path.exists] at the moment the script asks. *)
Record Host := {
  run : list pystr -> run_result;
  path_exists : pystr -> bool
}.

(** The first of [paths] that exists ([for path in paths: if
    os.path.exists(path): ...; break]). *)
Definition first_existing (host : Host) (paths : list pystr) : option pystr :=
  List.find (path_exists host) paths.

End Subprocess.

(** ** The Fetcher *)

Module Fetcher.

Import PyStr OsPath Subprocess Segmenter.

Definition format_selector : pystr :=
  lit "bestvideo[ext=mp4]+bestaudio[ext=m4a]/best[ext=mp4]/best".

Definition watch_url (video_id : pystr) : pystr :=
  lit "https://www.youtube.com/watch?v=" ++ video_id.

(** The arguments added [if cookies_file and os.path.exists(cookies_file)]. *)
Definition cookies_args (host : Host) (cookies_file : option pystr) : list pystr :=
  match cookies_file with
  | Some c => if truthy (Some c) && path_exists host c then [lit "--cookies"; c] else []
  | None => []
  end.

(** What both versions of [download_youtube_video] do once the command is
    built: run it, and return the file when the return code is 0 and the
    file is there. *)
Definition fetch (host : Host) (cmd : list pystr) (video_id output_dir : pystr)
    : option pystr :=
  match run host cmd with
  | Exited 0 =>
      let video_file := join output_dir (video_id ++ lit ".mp4") in
      if path_exists host video_file then Some video_file else None
  | _ => None
  end.

(** The command of [download_youtube_video] in process_youtube_video.py. *)
Definition download_command (host : Host) (video_id output_dir : pystr)
    (cookies_file : option pystr) : list pystr :=
  [ lit "yt-dlp"; lit "-f"; format_selector; lit "--merge-output-format"; lit "mp4";
    lit "-o"; join output_dir (video_id ++ lit ".%(ext)s"); lit "--write-info-json" ]
    ++ cookies_args host cookies_file ++ [watch_url video_id].

(** [download_youtube_video(video_id, output_dir, cookies_file)] of
    process_youtube_video.py. *)
Definition download_youtube_video (host : Host) (video_id output_dir : pystr)
    (cookies_file : option pystr) : option pystr :=
  fetch host (download_command host video_id output_dir cookies_file) video_id output_dir.

(** The keys of the info file that [get_video_info] reads, each present
    or not. *)
Record InfoJson := {
  info_title : option pystr;
  info_description : option pystr;
  info_duration : option Q
}.

(** [get_video_info(video_id, downloads_dir)]; [info_file] is the content
    of the info file when it exists. *)
Definition get_video_info (video_id : pystr) (info_file : option InfoJson) : VideoInfo :=
  match info_file with
  | Some info =>
      {| vi_title := default video_id (info_title info);
         vi_description := default [] (info_description info);
         vi_duration := default 0%Q (info_duration info) |}
  | None => {| vi_title := video_id; vi_description := []; vi_duration := 0%Q |}
  end.

End Fetcher.

(** ** The Clip Extractor *)

Module ClipExtractor.

Import PyStr PyNum OsPath Subprocess Segmenter Naming Publisher ProcessYoutubeVideo Fetcher.
Open Scope Q_scope.

(** The command of [cut_video_segment]; the difference of the two times
    is a float subtraction. *)
Definition cut_command (input_file output_file : pystr) (start_time end_time : Q)
    : list pystr :=
  let duration := fsub end_time start_time in
  [ lit "ffmpeg"; lit "-ss"; format_timestamp start_time;
    lit "-i"; input_file;
    lit "-t"; format_timestamp duration;
    lit "-c:v"; lit "libx264"; lit "-c:a"; lit "aac";
    lit "-preset"; lit "fast"; lit "-crf"; lit "23";
    lit "-y"; output_file ].

(** [cut_video_segment(input_file, output_file, start_time, end_time)]. *)
Definition cut_video_segment (host : Host) (input_file output_file : pystr)
    (start_time end_time : Q) : bool :=
  match run host (cut_command input_file output_file start_time end_time) with
  | Exited 0 => path_exists host output_file
  | _ => false
  end.

Section Clips.

Variable isalnum : char -> bool.

(** The file name [main] gives to the [i]-th clip. *)
Definition output_filename (video_id : pystr) (segment : Segment) (i : Z) : pystr :=
  let safe_title := sanitize_filename isalnum (seg_title segment) default_max_length in
  video_id ++ lit "_" ++ safe_title ++ lit "_" ++ str_int i ++ lit ".mp4".

(** The file names of a run, in the order of the segments. *)
Definition clip_names (video_id : pystr) (segments : list Segment) : list pystr :=
  map (fun '(i, segment) => output_filename video_id segment i) (enumerate1 segments).

(** [main] of process_youtube_video.py on a machine: the cookies are
    looked for, the video is fetched and its info file read, and the clips
    are cut by [cut_video_segment]. *)
Definition process_youtube_video (host : Host) (environ : Environ)
    (info_file : option InfoJson) (probe : option Q) (shorts_listing : Listing)
    (connect_ok : bool) (w : World) : World * exit_code :=
  let video_id := value (environ (lit "VIDEO_ID")) in
  let downloads_dir := lit "downloads" in
  let cookies_file :=
    first_existing host [lit "youtube_cookies.txt"; lit ".github/youtube_cookies.txt"] in
  let video_file := download_youtube_video host video_id downloads_dir cookies_file in
  main isalnum environ
    (match video_file with Some _ => true | None => false end)
    (get_video_info video_id info_file) probe
    (cut_video_segment host (default [] video_file))
    shorts_listing connect_ok w.

End Clips.

End ClipExtractor.

(** ** download_and_upload_to_r2.py and download_from_r2.py *)

Module R2Processing.

Import PyStr PyNum OsPath Subprocess Segmenter Publisher Fetcher.

(** What an S3 call raises: botocore's [ClientError] with its error code,
    or another exception. *)
Inductive s3_exn :=
| ClientErrorCode (code : pystr)
| Unexpected.

(** The calls made on the S3 client, with the local path where there is
    one. *)
Inductive s3_call :=
| S3Upload (path key : pystr)
| S3Head (key : pystr)
| S3Download (key path : pystr).

(** The bucket, seen from one run: what each call raises, if anything. *)
Definition Bucket := s3_call -> option s3_exn.

Inductive outcome (A : Type) :=
| Done (a : A)
| Failed (e : s3_exn).
Arguments Done {A} a.
Arguments Failed {A} e.

(** Computations that log their S3 calls and return or raise. *)
Definition S3 (A : Type) : Type := list s3_call -> list s3_call * outcome A.

#[global] Instance S3_ret : MRet S3 := fun A a calls => (calls, Done a).

#[global] Instance S3_bind : MBind S3 := fun A B f m calls =>
  match m calls with
  | (calls', Done a) => f a calls'
  | (calls', Failed e) => (calls', Failed e)
  end.

Definition s3 (bucket : Bucket) (c : s3_call) : S3 unit := fun calls =>
  (calls ++ [c], match bucket c with Some e => Failed e | None => Done tt end).

Definition s3_raise {A} (e : s3_exn) : S3 A := fun calls => (calls, Failed e).

(** [try: body except ClientError as e: ... except Exception as e: ...]. *)
Definition s3_try {A} (body : S3 A) (handler : s3_exn -> S3 A) : S3 A := fun calls =>
  match body calls with
  | (calls', Failed e) => handler e calls'
  | r => r
  end.

(** [try: body except ClientError as e: handler(code)]; anything else
    propagates. *)
Definition s3_try_ClientError {A} (body : S3 A) (handler : pystr -> S3 A) : S3 A :=
  fun calls =>
    match body calls with
    | (calls', Failed (ClientErrorCode code)) => handler code calls'
    | r => r
    end.

Definition zip_key (video_id : pystr) : pystr :=
  video_id ++ lit "/" ++ video_id ++ lit ".zip".

Definition json_key (video_id : pystr) : pystr :=
  video_id ++ lit "/" ++ video_id ++ lit "_analysis.json".

(** [upload_to_r2(video_id, zip_path, analysis_path, r2_config)].
    [client] is what [boto3.client(...)] raises, if anything: the call
    stands before the [try].  [r2_config], which [main] builds with all
    its keys, is seen through [bucket]. *)
Definition upload_to_r2 (client : option s3_exn) (bucket : Bucket)
    (video_id zip_path analysis_path : pystr) : S3 bool :=
  match client with
  | Some e => s3_raise e
  | None =>
      s3_try
        (_ ← s3 bucket (S3Upload zip_path (zip_key video_id));
         _ ← s3 bucket (S3Upload analysis_path (json_key video_id));
         mret true)
        (fun _ => mret false)
  end.

(** How a function ends: it returns, the process exits, or an exception
    leaves the function. *)
Inductive ending :=
| Returned (b : bool)
| SysExit (code : exit_code)
| Uncaught (e : s3_exn).

(** The status of the process: [sys.exit(0 if success else 1)] after a
    return, and 1 after an exception that nothing catches. *)
Definition status (e : ending) : exit_code :=
  match e with
  | Returned true => 0%Z
  | Returned false => 1%Z
  | SysExit code => code
  | Uncaught _ => 1%Z
  end.

(** [download_from_r2()].  [client] and [makedirs] are what
    [boto3.client(...)] and [os.makedirs(temp_dir, exist_ok=True)] raise,
    if anything: both stand before the [try].  [download_file] stands
    also for [os.path.getsize] on the file it wrote, inside the same
    [try]. *)
Definition download_from_r2 (environ : Environ) (client makedirs : option s3_exn)
    (bucket : Bucket) (calls : list s3_call) : list s3_call * ending :=
  let video_id := environ (lit "VIDEO_ID") in
  let r2_access_key := environ (lit "R2_PROCESSING_ACCESS_KEY") in
  let r2_secret_key := environ (lit "R2_PROCESSING_SECRET_KEY") in
  let r2_endpoint := environ (lit "R2_PROCESSING_ENDPOINT") in
  let r2_bucket := environ (lit "R2_PROCESSING_BUCKET") in
  if negb (all_truthy [video_id; r2_access_key; r2_secret_key; r2_endpoint; r2_bucket])
  then (calls, SysExit 1%Z)
  else
    match client, makedirs with
    | Some e, _ => (calls, Uncaught e)
    | None, Some e => (calls, Uncaught e)
    | None, None =>
        let temp_dir := lit "temp/" ++ value video_id in
        let body : S3 bool :=
          s3_try
            (let zip_path := join temp_dir (value video_id ++ lit ".zip") in
             returned ←
               s3_try_ClientError
                 (_ ← s3 bucket (S3Head (zip_key (value video_id))); mret None)
                 (fun code =>
                    if bool_decide (code = lit "404") then mret (Some false)
                    else if bool_decide (code = lit "403") then mret (Some false)
                    else s3_raise (ClientErrorCode code));
             match returned with
             | Some b => mret b
             | None =>
                 _ ← s3 bucket (S3Download (zip_key (value video_id)) zip_path);
                 let json_path :=
                   join temp_dir (value video_id ++ lit "_analysis.json") in
                 _ ← s3 bucket (S3Download (json_key (value video_id)) json_path);
                 mret true
             end)
            (fun _ => mret false) in
        match body calls with
        | (calls', Done b) => (calls', Returned b)
        | (calls', Failed e) => (calls', Uncaught e)
        end
    end.

(** The command of [download_youtube_video] in download_and_upload_to_r2.py. *)
Definition download_command (host : Host) (video_id output_dir : pystr)
    (cookies_file : option pystr) : list pystr :=
  [ lit "yt-dlp"; lit "-f"; format_selector; lit "--merge-output-format"; lit "mp4";
    lit "-o"; join output_dir (video_id ++ lit ".%(ext)s"); lit "--write-info-json";
    lit "--write-description"; lit "--write-thumbnail" ]
    ++ cookies_args host cookies_file ++ [watch_url video_id].

Definition download_youtube_video (host : Host) (video_id output_dir : pystr)
    (cookies_file : option pystr) : option pystr :=
  fetch host (download_command host video_id output_dir cookies_file) video_id output_dir.

(** The transcript service, as [get_video_transcript] uses it: the listing
    may fail, a manual and a generated transcript may be found, and a
    found transcript may fail to be fetched. *)
Record TranscriptApi := {
  listed : bool;
  manual : option nat;
  generated : option nat;
  fetched : nat -> option (list TranscriptEntry)
}.

(** [get_video_transcript(video_id)] of download_and_upload_to_r2.py. *)
Definition get_video_transcript (api : TranscriptApi) : option (list TranscriptEntry) :=
  if listed api then
    match manual api with
    | Some t => fetched api t
    | None =>
        match generated api with
        | Some t => fetched api t
        | None => None
        end
    end
  else None.

Definition sidecar_exts : list pystr :=
  [lit ".info.json"; lit ".description"; lit ".jpg"; lit ".webp"].

(** The members [create_zip_archive] writes, each with the path it is read
    from and the name it gets in the archive. *)
Definition zip_members (host : Host) (video_id video_file output_dir : pystr)
    : list (pystr * pystr) :=
  (video_file, basename video_file)
    :: map (fun info_file => (info_file, basename info_file))
         (List.filter (path_exists host)
            (map (fun ext => join output_dir (video_id ++ ext)) sidecar_exts)).

(** [create_zip_archive(video_id, video_file, output_dir)]: the path of
    the archive. *)
Definition create_zip_archive (video_id video_file output_dir : pystr) : pystr :=
  join output_dir (video_id ++ lit ".zip").

(** The path [create_analysis_json] writes the analysis to. *)
Definition analysis_file (video_id output_dir : pystr) : pystr :=
  join output_dir (video_id ++ lit "_analysis.json").

Definition possible_paths : list pystr :=
  [lit "youtube_cookies.txt"; lit ".github/youtube_cookies.txt";
   lit "../youtube_cookies.txt"].

(** [main] of download_and_upload_to_r2.py.  [makedirs] and [client] are
    what [os.makedirs(temp_dir, exist_ok=True)] and the [boto3.client(...)]
    of [upload_to_r2] raise, if anything; an exception that nothing
    catches ends the process with status 1.  The analysis and the archive
    are taken to be written. *)
Definition main (host : Host) (environ : Environ) (api : TranscriptApi)
    (makedirs client : option s3_exn) (bucket : Bucket) (calls : list s3_call)
    : list s3_call * exit_code :=
  let video_id := environ (lit "VIDEO_ID") in
  let r2_access_key := environ (lit "R2_PROCESSING_ACCESS_KEY") in
  let r2_secret_key := environ (lit "R2_PROCESSING_SECRET_KEY") in
  let r2_endpoint := environ (lit "R2_PROCESSING_ENDPOINT") in
  let r2_bucket := environ (lit "R2_PROCESSING_BUCKET") in
  if negb (all_truthy [video_id; r2_access_key; r2_secret_key; r2_endpoint; r2_bucket])
  then (calls, 1%Z)
  else
    match makedirs with
    | Some _ => (calls, 1%Z)
    | None =>
        let temp_dir := lit "temp/" ++ value video_id in
        let cookies_file := first_existing host possible_paths in
        match download_youtube_video host (value video_id) temp_dir cookies_file with
        | None => (calls, 1%Z)
        | Some video_file =>
            let transcript := get_video_transcript api in
            let analysis_path := analysis_file (value video_id) temp_dir in
            let zip_file := create_zip_archive (value video_id) video_file temp_dir in
            match upload_to_r2 client bucket (value video_id) zip_file analysis_path
                    calls with
            | (calls', Done true) => (calls', 0%Z)
            | (calls', _) => (calls', 1%Z)
            end
        end
    end.

(** The variables both scripts require, and the local paths both build
    for a video: [temp/{video_id}/{video_id}.zip] and
    [temp/{video_id}/{video_id}_analysis.json]. *)
Definition required (environ : Environ) : list (option pystr) :=
  [environ (lit "VIDEO_ID"); environ (lit "R2_PROCESSING_ACCESS_KEY");
   environ (lit "R2_PROCESSING_SECRET_KEY"); environ (lit "R2_PROCESSING_ENDPOINT");
   environ (lit "R2_PROCESSING_BUCKET")].

Definition temp_dir (video_id : pystr) : pystr := lit "temp/" ++ video_id.

Definition zip_path (video_id : pystr) : pystr :=
  join (temp_dir video_id) (video_id ++ lit ".zip").

Definition json_path (video_id : pystr) : pystr :=
  join (temp_dir video_id) (video_id ++ lit "_analysis.json").

(** The keys a list of calls has uploaded and downloaded, in the order of
    the calls. *)
Definition uploaded_keys (calls : list s3_call) : list pystr :=
  omap (fun c => match c with S3Upload _ key => Some key | _ => None end) calls.

Definition downloaded_keys (calls : list s3_call) : list pystr :=
  omap (fun c => match c with S3Download key _ => Some key | _ => None end) calls.

End R2Processing.


(** ** Rows and calls, as the properties of the publishers read them *)

Module Rows.

Import PyStr Segmenter Publisher ProcessYoutubeVideo.

(** The columns that neither publisher assigns on a row it found. *)
Definition same_metadata (v v0 : Video) : Prop :=
  Video.filename v = Video.filename v0
  /\ Video.title v = Video.title v0
  /\ Video.description v = Video.description v0
  /\ Video.duration v = Video.duration v0
  /\ Video.tiktok_description v = Video.tiktok_description v0
  /\ Video.created_at v = Video.created_at v0.

(** The row [upload_shorts_to_r2_and_db] hands to the session for a file:
    the row it found with the three storage columns assigned, or a new
    one. *)
Definition recorded_row (video_info : VideoInfo) (r2_config : R2Config)
    (item : pystr * Faults) (existing : option Video) : Video :=
  let object_key := lit "videos/" ++ item.1 in
  let url := public_url r2_config ++ lit "/" ++ object_key in
  match existing with
  | Some v => with_r2 v url object_key (utcnow item.2)
  | None =>
      {| Video.filename := item.1;
         Video.title := Some (vi_title video_info);
         Video.description := Some (vi_description video_info);
         Video.duration := Some (vi_duration video_info);
         Video.r2_url := Some url;
         Video.r2_key := Some object_key;
         Video.tiktok_description := None;
         Video.created_at := utcnow item.2;
         Video.updated_at := utcnow item.2 |}
  end.

(** The keys of the [put_object] and of the [upload_file] calls of a log,
    in the order of the calls. *)
Definition put_object_keys (calls : list call) : list pystr :=
  omap (fun c => match c with PutObject key => Some key | _ => None end) calls.

Definition upload_file_keys (calls : list call) : list pystr :=
  omap (fun c => match c with UploadFile key => Some key | _ => None end) calls.

End Rows.

(** * Properties *)

(** ** Arithmetic of the float model *)

Section PyNumFacts.

Import PyNum.
Open Scope Q_scope.

Lemma py_int_inject_Z (k : Z) : py_int (inject_Z k) = k.
Proof.
  unfold py_int. destruct (Qle_bool 0 (inject_Z k)).
  - apply Qfloor_Z.
  - apply Qceiling_Z.
Qed.

Lemma py_int_floordiv (x y : Q) : py_int (floordiv x y) = Qfloor (x / y).
Proof. apply py_int_inject_Z. Qed.

Lemma py_int_nonneg (x : Q) : 0 <= x -> py_int x = Qfloor x.
Proof.
  intros H. unfold py_int.
  apply Qle_bool_iff in H. now rewrite H.
Qed.

(** [k] windows of 60 seconds fit in [D] exactly when [k <= D // 60]. *)
Lemma floor_div_60 (D : Q) (k : Z) :
  (k <= Qfloor (D / 60))%Z <-> inject_Z (k * 60) <= D.
Proof.
  assert (HD : D == 60 * (D / 60)) by field.
  rewrite inject_Z_mult. split.
  - intros Hk.
    assert (inject_Z k <= D / 60).
    { eapply Qle_trans; [| apply Qfloor_le]. now rewrite <- Zle_Qle. }
    change (inject_Z 60) with 60. lra.
  - intros Hk. rewrite <- (Qfloor_Z k). apply Qfloor_resp_le.
    change (inject_Z 60) with 60 in Hk. lra.
Qed.

Lemma Qmin_left (x y : Q) : x <= y -> Qmin x y = x.
Proof.
  intros H. unfold Qmin, GenericMinMax.gmin.
  destruct (x ?= y) eqn:E; try reflexivity.
  apply Qgt_alt in E. lra.
Qed.

Lemma range_In (n i : Z) : In i (range n) <-> (0 <= i < n)%Z.
Proof.
  unfold range. rewrite in_map_iff. split.
  - intros (k & <- & Hk). apply in_seq in Hk. lia.
  - intros Hi. exists (Z.to_nat i). split; [lia |]. apply in_seq. lia.
Qed.

Lemma range_length (n : Z) : (0 <= n)%Z -> Z.of_nat (length (range n)) = n.
Proof.
  intros Hn. unfold range. rewrite length_map, length_seq. lia.
Qed.

Lemma range_nonpos (n : Z) : (n <= 0)%Z -> range n = [].
Proof.
  intros Hn. unfold range. now replace (Z.to_nat n) with 0%nat by lia.
Qed.

End PyNumFacts.

(** ** The Segmenter: full windows *)

Section SegmenterFacts.

Import PyStr PyNum Segmenter.
Open Scope Q_scope.

Lemma num_segments_of_eq (D : Q) :
  num_segments_of D = Z.min (Qfloor (D / 60)) 10.
Proof. unfold num_segments_of. now rewrite py_int_floordiv. Qed.

(** Every window the loop visits lies within the duration. *)
Lemma window_fits (D : Q) (i : Z) :
  (0 <= i < Z.min (Qfloor (D / 60)) 10)%Z ->
  inject_Z (i * segment_duration + segment_duration) <= D.
Proof.
  intros Hi. unfold segment_duration.
  replace (i * 60 + 60)%Z with ((i + 1) * 60)%Z by lia.
  apply floor_div_60. lia.
Qed.

Lemma create_segments_bounds (video_id : pystr) (probe : option Q)
    (video_info : VideoInfo) :
  map seg_bounds (create_segments video_id probe video_info)
  = map full_window (range (num_segments_of (effective_duration probe video_info))).
Proof.
  unfold create_segments. rewrite map_map. apply map_ext_in.
  intros i Hi. apply range_In in Hi. rewrite num_segments_of_eq in Hi.
  unfold seg_bounds, make_segment, full_window. cbn [seg_start seg_end].
  f_equal. apply Qmin_left. now apply window_fits.
Qed.

Lemma analysis_segments_bounds (isspace : char -> bool) (title : pystr) (D : Q)
    (entry : TranscriptEntry) (entries : list TranscriptEntry) :
  map as_bounds (analysis_segments isspace title D (Some (entry :: entries)))
  = map full_window (range (Z.min (Qfloor (D / 60)) 10)).
Proof.
  unfold analysis_segments. destruct (Qle_bool D 0) eqn:HD.
  - apply Qle_bool_iff in HD. rewrite range_nonpos; [reflexivity |].
    assert (Qfloor (D / 60) <= 0)%Z; [| lia].
    rewrite <- (Qfloor_Z 0). apply Qfloor_resp_le.
    assert (D == 60 * (D / 60)) by field. change (inject_Z 0) with 0. lra.
  - rewrite py_int_floordiv, map_map. apply map_ext_in.
    intros i Hi. apply range_In in Hi.
    unfold as_bounds, make_analysis_segment, full_window. cbn [as_start as_end].
    f_equal. apply Qmin_left. now apply window_fits.
Qed.

Lemma full_window_length (i : Z) : (full_window i).2 - (full_window i).1 == 60.
Proof.
  unfold full_window, segment_duration. cbn [fst snd].
  rewrite inject_Z_plus. change (inject_Z 60) with 60. ring.
Qed.

Lemma full_window_before (i j : Z) : (i < j)%Z -> before (full_window i) (full_window j).
Proof.
  intros Hij. unfold before, full_window, segment_duration. cbn [fst snd]. split.
  - rewrite <- Zlt_Qlt. lia.
  - rewrite <- Zle_Qle. lia.
Qed.

Lemma full_windows_sorted_from (a k : nat) :
  StronglySorted before (map full_window (map Z.of_nat (seq a k))).
Proof.
  revert a. induction k as [| k IH]; intros a; cbn [seq map].
  - constructor.
  - constructor; [apply IH |].
    apply List.Forall_forall. intros w Hw.
    apply in_map_iff in Hw as (j & <- & Hj).
    apply in_map_iff in Hj as (m & <- & Hm).
    apply in_seq in Hm. apply full_window_before. lia.
Qed.

Lemma full_windows_sorted (n : Z) :
  StronglySorted before (map full_window (range n)).
Proof. apply full_windows_sorted_from. Qed.

Lemma full_windows_cover (n : Z) :
  (0 <= n)%Z ->
  covers (map full_window (range n)) 0 (inject_Z (n * segment_duration)).
Proof.
  intros Hn t. unfold in_span, segment_duration. split.
  - intros (w & Hw & Hlo & Hhi).
    apply in_map_iff in Hw as (i & <- & Hi). apply range_In in Hi.
    unfold full_window, segment_duration in Hlo, Hhi. cbn [fst snd] in Hlo, Hhi.
    split.
    + eapply Qle_trans; [| exact Hlo]. change 0 with (inject_Z 0).
      rewrite <- Zle_Qle. lia.
    + eapply Qlt_le_trans; [exact Hhi |]. rewrite <- Zle_Qle. lia.
  - intros [Hlo Hhi].
    set (i := Qfloor (t / 60)).
    assert (Hi_lo : inject_Z (i * 60) <= t) by (apply floor_div_60; lia).
    assert (Hi_hi : t < inject_Z ((i + 1) * 60)).
    { apply Qnot_le_lt. intros Hge. apply floor_div_60 in Hge. lia. }
    assert (Hi : (0 <= i < n)%Z).
    { split.
      - apply (floor_div_60 t 0). exact Hlo.
      - assert (inject_Z (i * 60) < inject_Z (n * 60)) by lra.
        rewrite <- Zlt_Qlt in H. lia. }
    exists (full_window i). split.
    + apply in_map. now apply range_In.
    + unfold full_window, segment_duration. cbn [fst snd].
      replace (i * 60 + 60)%Z with ((i + 1) * 60)%Z by lia. now split.
Qed.

Lemma full_windows_tile (n : Z) :
  (0 <= n)%Z -> tiles n (map full_window (range n)).
Proof.
  intros Hn. split; [| split; [| split]].
  - rewrite length_map. now apply range_length.
  - apply full_windows_sorted.
  - intros w Hw. apply in_map_iff in Hw as (i & <- & _).
    rewrite full_window_length. apply Qle_refl.
  - now apply full_windows_cover.
Qed.

Lemma in_span_b_spec (t : Q) (w : Q * Q) : in_span_b t w = true <-> in_span t w.
Proof.
  unfold in_span_b, in_span. rewrite andb_true_iff, negb_true_iff, Qle_bool_iff.
  split; intros [H1 H2]; split; trivial.
  - apply Qnot_le_lt. intros H. apply Qle_bool_iff in H. congruence.
  - destruct (Qle_bool w.2 t) eqn:E; [| reflexivity].
    apply Qle_bool_iff in E. lra.
Qed.

Lemma covered_b_spec (t : Q) (ws : list (Q * Q)) :
  existsb (in_span_b t) ws = true <-> exists w, In w ws /\ in_span t w.
Proof.
  rewrite existsb_exists. split; intros (w & Hw & H); exists w; split; trivial;
    now apply in_span_b_spec.
Qed.

Lemma capped_count_nonneg (D : Q) : 0 <= D -> (0 <= Z.min (Qfloor (D / 60)) 10)%Z.
Proof.
  intros HD. apply Z.min_glb; [| lia]. now apply (floor_div_60 D 0).
Qed.

(** C1, as amended: for a duration [D >= 0] and the 60-second window, both
    segmenters produce [n = min(floor(D/60), 10)] segments, ordered by
    start, without overlap, each at most 60 seconds long, and together
    covering the interval from 0 to [n * 60]: the cap of 10 bounds the
    covered interval as well.  [create_analysis_json] does so when the
    transcript is not empty, and produces no segment otherwise. *)
Theorem segmenter_tiles_capped_windows (isspace : char -> bool)
    (video_id title : pystr) (probe : option Q) (video_info : VideoInfo)
    (entry : TranscriptEntry) (entries : list TranscriptEntry) (D : Q) :
  0 <= D ->
  effective_duration probe video_info == D ->
  tiles (Z.min (Qfloor (D / 60)) 10)
        (map seg_bounds (create_segments video_id probe video_info))
  /\ tiles (Z.min (Qfloor (D / 60)) 10)
        (map as_bounds (analysis_segments isspace title D (Some (entry :: entries))))
  /\ analysis_segments isspace title D None = []
  /\ analysis_segments isspace title D (Some []) = [].
Proof.
  intros HD Heff. split; [| split; [| split; reflexivity]].
  - rewrite create_segments_bounds, num_segments_of_eq.
    rewrite (Qfloor_comp (effective_duration probe video_info / 60) (D / 60))
      by now rewrite Heff.
    apply full_windows_tile, capped_count_nonneg, HD.
  - rewrite analysis_segments_bounds.
    apply full_windows_tile, capped_count_nonneg, HD.
Qed.

Lemma segmenter_tiles_capped_windows_witness :
  0 <= 725
  /\ effective_duration None
       {| vi_title := lit "abc123"; vi_description := []; vi_duration := 725 |}
     == 725
  /\ tiles 10
       (map seg_bounds
          (create_segments (lit "abc123") None
             {| vi_title := lit "abc123"; vi_description := []; vi_duration := 725 |})).
Proof.
  assert (H0 : 0 <= 725) by (unfold Qle; cbn; lia).
  assert (H1 : effective_duration None
                 {| vi_title := lit "abc123"; vi_description := [];
                    vi_duration := 725 |} == 725) by reflexivity.
  split; [exact H0 |]. split; [exact H1 |].
  exact (proj1 (segmenter_tiles_capped_windows (fun _ => false) (lit "abc123") []
                  None _ {| te_start := 0; te_text := [] |} [] 725 H0 H1)).
Defined.

(** C1, as stated, fails on the covered interval: for [D = 725] the claimed
    interval ends at [min(12 * 60, 725) = 720], yet the ten segments end at
    600 and the moment 650 lies in none of them.  It fails on the count as
    well in [create_analysis_json] without a transcript: no segment, where
    ten are claimed. *)
Lemma tail_beyond_cap_uncovered :
  length (create_segments (lit "abc123") None
            {| vi_title := lit "abc123"; vi_description := []; vi_duration := 725 |})
  = 10%nat
  /\ (0 <= 650 /\ 650 < Qmin (inject_Z (Qfloor (725 / 60) * 60)) 725)
  /\ ~ (exists w,
          In w (map seg_bounds
                  (create_segments (lit "abc123") None
                     {| vi_title := lit "abc123"; vi_description := [];
                        vi_duration := 725 |}))
          /\ in_span 650 w)
  /\ ~ covers (map seg_bounds
                 (create_segments (lit "abc123") None
                    {| vi_title := lit "abc123"; vi_description := [];
                       vi_duration := 725 |}))
        0 (Qmin (inject_Z (Qfloor (725 / 60) * 60)) 725)
  /\ Z.min (Qfloor (725 / 60)) 10 = 10%Z
  /\ analysis_segments (fun _ => false) (lit "abc123") 725 None = [].
Proof.
  assert (Hin : 0 <= 650 /\ 650 < Qmin (inject_Z (Qfloor (725 / 60) * 60)) 725).
  { split; [unfold Qle; cbn; lia | vm_compute; reflexivity]. }
  assert (Hout : ~ (exists w,
            In w (map seg_bounds
                    (create_segments (lit "abc123") None
                       {| vi_title := lit "abc123"; vi_description := [];
                          vi_duration := 725 |}))
            /\ in_span 650 w)).
  { intros H. apply covered_b_spec in H. vm_compute in H. discriminate. }
  split; [vm_compute; reflexivity |]. split; [exact Hin |].
  split; [exact Hout |]. split; [| split; reflexivity].
  intros Hc. apply Hout. apply Hc. exact Hin.
Qed.

(** C8: for a duration [D >= 60] every segment either segmenter produces
    is exactly 60 seconds long: the bound [min(start + 60, D)] is
    [start + 60] for each of them, and no partial window is emitted. *)
Theorem no_partial_window (isspace : char -> bool) (video_id title : pystr)
    (probe : option Q) (video_info : VideoInfo)
    (transcript : option (list TranscriptEntry)) (D : Q) :
  60 <= D ->
  effective_duration probe video_info == D ->
  create_segments video_id probe video_info <> []
  /\ (forall seg, In seg (create_segments video_id probe video_info) ->
       seg_end seg == seg_start seg + 60)
  /\ (forall seg, In seg (analysis_segments isspace title D transcript) ->
       as_end seg == as_start seg + 60 /\ as_duration seg == 60).
Proof.
  intros HD Heff.
  assert (Hn : (1 <= Z.min (Qfloor (D / 60)) 10)%Z).
  { apply Z.min_glb; [| lia]. apply (floor_div_60 D 1). exact HD. }
  assert (Hfull : forall i, (full_window i).2 == (full_window i).1 + 60).
  { intros i. pose proof (full_window_length i). lra. }
  split; [| split].
  - intros Hnil.
    assert (Hlen : length (map seg_bounds (create_segments video_id probe video_info))
                   = 0%nat) by now rewrite Hnil.
    rewrite create_segments_bounds, num_segments_of_eq in Hlen.
    rewrite (Qfloor_comp (effective_duration probe video_info / 60) (D / 60))
      in Hlen by now rewrite Heff.
    rewrite length_map in Hlen.
    pose proof (range_length (Z.min (Qfloor (D / 60)) 10)). lia.
  - intros seg Hseg.
    assert (Hb : In (seg_bounds seg)
                   (map seg_bounds (create_segments video_id probe video_info)))
      by now apply in_map.
    rewrite create_segments_bounds in Hb.
    apply in_map_iff in Hb as (i & Hi & _).
    change (seg_end seg) with (seg_bounds seg).2.
    change (seg_start seg) with (seg_bounds seg).1.
    rewrite <- Hi. apply Hfull.
  - intros seg Hseg. destruct transcript as [[| entry entries] |];
      try (now destruct Hseg).
    assert (Hd : as_duration seg = as_end seg - as_start seg).
    { unfold analysis_segments in Hseg. destruct (Qle_bool D 0); [now destruct Hseg |].
      apply in_map_iff in Hseg as (i & <- & _). reflexivity. }
    assert (Hb : In (as_bounds seg)
                   (map as_bounds
                      (analysis_segments isspace title D (Some (entry :: entries)))))
      by now apply in_map.
    rewrite analysis_segments_bounds in Hb.
    apply in_map_iff in Hb as (i & Hi & _).
    rewrite Hd.
    change (as_end seg) with (as_bounds seg).2.
    change (as_start seg) with (as_bounds seg).1.
    rewrite <- Hi. pose proof (Hfull i). split; lra.
Qed.

Lemma no_partial_window_witness :
  60 <= 185
  /\ effective_duration None
       {| vi_title := lit "abc123"; vi_description := []; vi_duration := 185 |}
     == 185
  /\ forall seg,
       In seg (create_segments (lit "abc123") None
                 {| vi_title := lit "abc123"; vi_description := [];
                    vi_duration := 185 |}) ->
       seg_end seg == seg_start seg + 60.
Proof.
  assert (H0 : 60 <= 185) by (unfold Qle; cbn; lia).
  assert (H1 : effective_duration None
                 {| vi_title := lit "abc123"; vi_description := [];
                    vi_duration := 185 |} == 185) by reflexivity.
  split; [exact H0 |]. split; [exact H1 |].
  exact (proj1 (proj2 (no_partial_window (fun _ => false) (lit "abc123") [] None _
                         None 185 H0 H1))).
Defined.

(** The two scenarios of the specification: 725 seconds give the ten
    capped windows, the last one from 540 to 600; 185 seconds give three
    windows, the last five seconds being dropped. *)
Example segments_of_725_seconds :
  map seg_bounds
    (create_segments (lit "abc123") None
       {| vi_title := lit "abc123"; vi_description := []; vi_duration := 725 |})
  = [(0, 60); (60, 120); (120, 180); (180, 240); (240, 300); (300, 360);
     (360, 420); (420, 480); (480, 540); (540, 600)].
Proof. vm_compute. reflexivity. Qed.

Example segments_of_185_seconds :
  map seg_bounds
    (create_segments (lit "abc123") None
       {| vi_title := lit "abc123"; vi_description := []; vi_duration := 185 |})
  = [(0, 60); (60, 120); (120, 180)].
Proof. vm_compute. reflexivity. Qed.

End SegmenterFacts.

(** ** Strings *)

Section PyStrFacts.

Import PyStr.

Variable p : char -> bool.

Lemma lstrip_suffix (s : pystr) :
  exists pre, s = pre ++ lstrip p s /\ forallb p pre = true.
Proof.
  induction s as [| c s IH]; [now exists [] |].
  cbn [lstrip]. destruct (p c) eqn:Hc.
  - destruct IH as (pre & Hs & Hpre). exists (c :: pre). split.
    + cbn. now f_equal.
    + cbn. now rewrite Hc.
  - now exists [].
Qed.

Lemma lstrip_length (s : pystr) : (length (lstrip p s) <= length s)%nat.
Proof.
  destruct (lstrip_suffix s) as (pre & Hs & _).
  rewrite Hs at 2. rewrite length_app. lia.
Qed.

Lemma lstrip_In (s : pystr) (c : char) : In c (lstrip p s) -> In c s.
Proof.
  destruct (lstrip_suffix s) as (pre & Hs & _).
  intros H. rewrite Hs. apply in_or_app. now right.
Qed.

Lemma lstrip_idem (s : pystr) : lstrip p (lstrip p s) = lstrip p s.
Proof.
  induction s as [| c s IH]; [reflexivity |].
  cbn [lstrip]. destruct (p c) eqn:Hc; [exact IH |].
  cbn [lstrip]. now rewrite Hc.
Qed.

(** A stripped prefix of a stripped string is stripped. *)
Lemma lstrip_fixed_prefix (a b : pystr) :
  lstrip p (a ++ b) = a ++ b -> lstrip p a = a.
Proof.
  destruct a as [| c a]; [reflexivity |].
  cbn [lstrip app]. destruct (p c); [| reflexivity].
  intros H. pose proof (lstrip_length (a ++ b)) as Hlen.
  rewrite H in Hlen. cbn in Hlen. lia.
Qed.

Lemma rstrip_length (s : pystr) : (length (rstrip p s) <= length s)%nat.
Proof.
  unfold rstrip. rewrite length_rev.
  etransitivity; [apply lstrip_length |]. now rewrite length_rev.
Qed.

Lemma rstrip_In (s : pystr) (c : char) : In c (rstrip p s) -> In c s.
Proof.
  unfold rstrip. intros H. apply in_rev in H. apply lstrip_In in H.
  now apply in_rev.
Qed.

Lemma rstrip_snoc (s : pystr) (c : char) :
  p c = true -> rstrip p (s ++ [c]) = rstrip p s.
Proof.
  intros Hc. unfold rstrip. rewrite rev_app_distr. cbn [rev app lstrip].
  now rewrite Hc.
Qed.

Lemma strip_length (s : pystr) : (length (strip p s) <= length s)%nat.
Proof.
  unfold strip. etransitivity; [apply lstrip_length | apply rstrip_length].
Qed.

Lemma strip_In (s : pystr) (c : char) : In c (strip p s) -> In c s.
Proof. unfold strip. intros H. now apply rstrip_In, lstrip_In. Qed.

Lemma strip_snoc (s : pystr) (c : char) :
  p c = true -> strip p (s ++ [c]) = strip p s.
Proof. intros Hc. unfold strip. now rewrite rstrip_snoc. Qed.

Lemma strip_idem (s : pystr) : strip p (strip p s) = strip p s.
Proof.
  unfold strip.
  assert (Hr : rstrip p (lstrip p (rstrip p s)) = lstrip p (rstrip p s)).
  { destruct (lstrip_suffix (rstrip p s)) as (pre & Hs & _).
    set (z := lstrip p (rstrip p s)) in *.
    unfold rstrip at 1. rewrite <- (rev_involutive z) at 2. f_equal.
    apply (lstrip_fixed_prefix _ (rev pre)).
    rewrite <- rev_app_distr, <- Hs. unfold rstrip.
    now rewrite rev_involutive, lstrip_idem. }
  rewrite Hr. apply lstrip_idem.
Qed.

End PyStrFacts.

(** ** sanitize_filename *)

Section SanitizeFacts.

Import PyStr Naming.

Variable isalnum : char -> bool.

Lemma filter_fixed {A} (f : A -> bool) (l : list A) :
  forallb f l = true -> List.filter f l = l.
Proof.
  induction l as [| x l IH]; [reflexivity |].
  cbn. intros H. apply andb_true_iff in H as [Hx Hl].
  rewrite Hx. f_equal. now apply IH.
Qed.

Lemma filter_filter {A} (f g : A -> bool) (l : list A) :
  List.filter f (List.filter g l) = List.filter (fun x => g x && f x) l.
Proof.
  induction l as [| x l IH]; [reflexivity |].
  cbn. destruct (g x); cbn; [destruct (f x) |]; now rewrite IH.
Qed.

Lemma remove_each_filter (cs s : pystr) :
  fold_left (fun t c => remove_char c t) cs s
  = List.filter (fun x => forallb (fun d => negb (N.eqb x d)) cs) s.
Proof.
  revert s. induction cs as [| c cs IH]; intros s; cbn [fold_left forallb].
  - symmetry. now apply filter_fixed, forallb_forall.
  - rewrite IH. unfold remove_char. apply filter_filter.
Qed.

Lemma take_In {A} (n : nat) (l : list A) (x : A) : In x (take n l) -> In x l.
Proof.
  intros H. rewrite <- (firstn_skipn n l). apply in_or_app. now left.
Qed.

Lemma sanitize_chars_clean (s : pystr) (n : nat) :
  forallb (clean isalnum) (sanitize_filename isalnum s n) = true.
Proof.
  apply forallb_forall. intros c Hc. unfold sanitize_filename in Hc.
  apply strip_In, take_In, filter_In in Hc as [Hc Hkeep].
  unfold replace_char in Hc. apply in_map_iff in Hc as (x & Hx & Hin).
  rewrite remove_each_filter in Hin. apply filter_In in Hin as [_ Hvalid].
  unfold clean. rewrite Hkeep, andb_true_r.
  destruct (N.eqb x space) eqn:Hsp; subst c.
  - reflexivity.
  - fold (valid x) in Hvalid. now rewrite Hvalid, Hsp.
Qed.

Lemma sanitize_length (s : pystr) (n : nat) :
  (length (sanitize_filename isalnum s n) <= n)%nat.
Proof.
  unfold sanitize_filename.
  etransitivity; [apply strip_length |]. apply firstn_le_length.
Qed.

(** A string of clean characters that fits and is already stripped goes
    through [sanitize_filename] unchanged. *)
Lemma sanitize_fixed (r : pystr) (n : nat) :
  forallb (clean isalnum) r = true ->
  (length r <= n)%nat ->
  strip (fun c => N.eqb c underscore) r = r ->
  sanitize_filename isalnum r n = r.
Proof.
  intros Hclean Hlen Hstrip. unfold sanitize_filename.
  assert (H1 : fold_left (fun t c => remove_char c t) invalid_chars r = r).
  { rewrite remove_each_filter. apply filter_fixed, forallb_forall.
    intros c Hc. eapply forallb_forall in Hclean; [| exact Hc].
    unfold clean in Hclean. apply andb_true_iff in Hclean as [H _].
    now apply andb_true_iff in H as [H _]. }
  assert (H2 : replace_char space underscore r = r).
  { unfold replace_char. rewrite <- (map_id r) at 2. apply map_ext_in.
    intros c Hc. eapply forallb_forall in Hclean; [| exact Hc].
    unfold clean in Hclean. apply andb_true_iff in Hclean as [H _].
    apply andb_true_iff in H as [_ H]. apply negb_true_iff in H. now rewrite H. }
  assert (H3 : List.filter (keep_char isalnum) r = r).
  { apply filter_fixed, forallb_forall. intros c Hc.
    eapply forallb_forall in Hclean; [| exact Hc].
    unfold clean in Hclean. now apply andb_true_iff in Hclean as [_ H]. }
  rewrite H1, H2, H3, firstn_all2 by exact Hlen. exact Hstrip.
Qed.

Lemma clean_allowed (c : char) :
  clean isalnum c = true -> ~ In c invalid_chars /\ c <> space.
Proof.
  unfold clean. intros H. apply andb_true_iff in H as [H _].
  apply andb_true_iff in H as [Hvalid Hsp]. split.
  - intros Hin. unfold valid in Hvalid.
    eapply forallb_forall in Hvalid; [| exact Hin].
    now rewrite N.eqb_refl in Hvalid.
  - intros ->. now rewrite N.eqb_refl in Hsp.
Qed.

(** C5: [sanitize_filename] is idempotent, and its result holds none of
    the nine disallowed characters, no space, and at most 50 characters. *)
Theorem sanitize_filename_idempotent (s : pystr) :
  sanitize_filename isalnum
    (sanitize_filename isalnum s default_max_length) default_max_length
  = sanitize_filename isalnum s default_max_length
  /\ Forall (fun c => ~ In c invalid_chars /\ c <> space)
       (sanitize_filename isalnum s default_max_length)
  /\ (length (sanitize_filename isalnum s default_max_length) <= 50)%nat.
Proof.
  split; [| split].
  - apply sanitize_fixed.
    + apply sanitize_chars_clean.
    + apply sanitize_length.
    + unfold sanitize_filename. apply strip_idem.
  - apply List.Forall_forall. intros c Hc. apply clean_allowed.
    pose proof (sanitize_chars_clean s default_max_length) as H.
    eapply forallb_forall in H; [exact H | exact Hc].
  - apply sanitize_length.
Qed.

End SanitizeFacts.

(** ** Rounding to the nearest double *)

Section FloatFacts.

Import PyNum.
Open Scope Q_scope.

Lemma pow2_pos (e : Z) : 0 < pow2 e.
Proof. apply Qpower_0_lt. reflexivity. Qed.

Lemma pow2_le (e e' : Z) : (e <= e')%Z -> pow2 e <= pow2 e'.
Proof. intros H. apply Qpower_le_compat_l; [exact H | discriminate]. Qed.

Lemma pow2_Z (n : Z) : (0 <= n)%Z -> pow2 n == inject_Z (2 ^ n).
Proof. intros H. unfold pow2. now rewrite Zpower_Qpower. Qed.

Lemma pow2_add (a b : Z) : pow2 (a + b) == pow2 a * pow2 b.
Proof. apply Qpower_plus. discriminate. Qed.

Lemma pow2_opp (a : Z) : pow2 (- a) == / pow2 a.
Proof. apply Qpower_opp. Qed.

Lemma pow2_cancel (a : Z) : pow2 (- a) * pow2 a == 1.
Proof.
  rewrite <- pow2_add. replace (- a + a)%Z with 0%Z by lia. reflexivity.
Qed.

(** [floor_log2] does not overshoot. *)
Lemma floor_log2_le (x : Q) : 0 < x -> pow2 (floor_log2 x) <= x.
Proof.
  intros Hx. unfold floor_log2.
  destruct (Qle_bool _ x) eqn:Hle; [now apply Qle_bool_iff |].
  destruct x as [n d]. cbn [Qnum Qden].
  assert (Hn : (0 < n)%Z) by (unfold Qlt in Hx; cbn in Hx; lia).
  pose proof (Z.log2_spec n Hn) as [Hlo _].
  pose proof (Z.log2_spec (Z.pos d) (Pos2Z.is_pos d)) as [_ Hhi].
  pose proof (Z.log2_nonneg n) as Ha. pose proof (Z.log2_nonneg (Z.pos d)) as Hb.
  set (a := Z.log2 n) in *. set (b := Z.log2 (Z.pos d)) in *.
  replace (a - b - 1)%Z with (a + - (b + 1))%Z by lia.
  rewrite pow2_add, pow2_opp, !pow2_Z by lia.
  rewrite (Qmake_Qdiv n d).
  assert (H1 : inject_Z (2 ^ a) <= inject_Z n) by now rewrite <- Zle_Qle.
  assert (H2 : inject_Z (Z.pos d) <= inject_Z (2 ^ (b + 1))).
  { rewrite <- Zle_Qle. unfold Z.succ in Hhi. lia. }
  assert (Hd : 0 < inject_Z (Z.pos d)) by reflexivity.
  assert (Hp : 0 < inject_Z (2 ^ a)).
  { change 0 with (inject_Z 0). rewrite <- Zlt_Qlt. apply Z.pow_pos_nonneg; lia. }
  apply Qle_shift_div_l; [exact Hd |].
  assert (Hp2 : 0 < inject_Z (2 ^ (b + 1))) by lra.
  assert (Hinv : / inject_Z (2 ^ (b + 1)) * inject_Z (2 ^ (b + 1)) == 1)
    by (field; lra).
  assert (Hinvpos : 0 < / inject_Z (2 ^ (b + 1))) by now apply Qinv_lt_0_compat.
  assert (Hstep : / inject_Z (2 ^ (b + 1)) * inject_Z (Z.pos d) <= 1).
  { rewrite <- Hinv. apply Qmult_le_l; assumption. }
  setoid_replace (inject_Z (2 ^ a) * / inject_Z (2 ^ (b + 1)) * inject_Z (Z.pos d))
    with (inject_Z (2 ^ a) * (/ inject_Z (2 ^ (b + 1)) * inject_Z (Z.pos d)))
    using relation Qeq by ring.
  eapply Qle_trans; [| exact H1].
  setoid_replace (inject_Z (2 ^ a)) with (inject_Z (2 ^ a) * 1)
    using relation Qeq at 2 by ring.
  apply Qmult_le_l; assumption.
Qed.

Lemma round_half_even_near (y : Q) :
  (Qfloor y <= round_half_even y <= Qfloor y + 1)%Z
  /\ inject_Z (round_half_even y) <= y + (1 # 2)
  /\ (y == inject_Z (Qfloor y) -> round_half_even y = Qfloor y).
Proof.
  unfold round_half_even.
  pose proof (Qfloor_le y) as Hlo. pose proof (Qlt_floor y) as Hhi.
  rewrite inject_Z_plus in Hhi. change (inject_Z 1) with 1 in Hhi.
  destruct (Qcompare (y - inject_Z (Qfloor y)) (1 # 2)) eqn:Hc.
  - apply Qeq_alt in Hc.
    destruct (Z.even (Qfloor y)); (split; [lia |]); split;
      try (rewrite ?inject_Z_plus; change (inject_Z 1) with 1; lra);
      intros H; lra.
  - apply Qlt_alt in Hc. split; [lia |]. split; [lra | reflexivity].
  - apply Qgt_alt in Hc. split; [lia |]. split.
    + rewrite inject_Z_plus. change (inject_Z 1) with 1. lra.
    + intros H. lra.
Qed.

Lemma round_half_even_ge (y : Q) (N : Z) :
  inject_Z N <= y -> (N <= round_half_even y)%Z.
Proof.
  intros H. destruct (round_half_even_near y) as [[Hlo _] _].
  apply Qfloor_resp_le in H. rewrite Qfloor_Z in H. lia.
Qed.

Lemma round_half_even_le (y : Q) (N : Z) :
  y <= inject_Z N -> (round_half_even y <= N)%Z.
Proof.
  intros H. destruct (round_half_even_near y) as ([_ Hhi] & _ & Hint).
  pose proof (Qfloor_le y) as Hfl.
  destruct (Qlt_le_dec y (inject_Z N)) as [Hlt | Hge].
  - assert (Hf : inject_Z (Qfloor y) < inject_Z N) by lra.
    rewrite <- Zlt_Qlt in Hf. lia.
  - assert (Heq : y == inject_Z N) by lra.
    assert (HN : Qfloor y = N) by (rewrite (Qfloor_comp _ _ Heq); apply Qfloor_Z).
    rewrite Hint; [lia |]. now rewrite HN.
Qed.

(** The exponent of the grid a positive number below [2^10] is rounded on. *)
Lemma grid_exponent (x : Q) (b : Z) :
  0 < x -> x < pow2 b -> (Z.max (floor_log2 x - 52) (-1074) <= Z.max (b - 53) (-1074))%Z.
Proof.
  intros Hx Hb. pose proof (floor_log2_le x Hx) as Hk.
  assert (Hlt : pow2 (floor_log2 x) < pow2 b) by lra.
  apply Qpower_lt_compat_l_inv in Hlt; [lia | reflexivity].
Qed.

(** Below [2^53] the grid holds the whole numbers: rounding does not cross
    one. *)
Lemma round64_pos_whole (x : Q) (n : Z) :
  0 < x -> x < pow2 53 ->
  (inject_Z n <= x -> inject_Z n <= round64_pos x)
  /\ (x <= inject_Z n -> round64_pos x <= inject_Z n).
Proof.
  intros Hx Hb. unfold round64_pos.
  pose proof (grid_exponent x 53 Hx Hb) as He.
  set (e := Z.max (floor_log2 x - 52) (-1074)) in *.
  assert (He0 : (e <= 0)%Z) by lia.
  pose proof (pow2_pos e) as Hpe.
  assert (Hscale : forall z : Z, inject_Z z / pow2 e == inject_Z (z * 2 ^ (- e))).
  { intros z. rewrite inject_Z_mult, <- pow2_Z by lia.
    unfold Qdiv. now rewrite <- pow2_opp. }
  assert (Hback : forall z : Z, inject_Z (z * 2 ^ (- e)) * pow2 e == inject_Z z).
  { intros z. rewrite <- Hscale. field. lra. }
  split; intros Hn.
  - rewrite <- (Hback n). apply Qmult_le_r; [exact Hpe |].
    rewrite <- Zle_Qle. apply round_half_even_ge. rewrite <- Hscale.
    apply Qmult_le_r; [now apply Qinv_lt_0_compat | exact Hn].
  - rewrite <- (Hback n). apply Qmult_le_r; [exact Hpe |].
    rewrite <- Zle_Qle. apply round_half_even_le. rewrite <- Hscale.
    apply Qmult_le_r; [now apply Qinv_lt_0_compat | exact Hn].
Qed.

(** Rounding moves a positive number below [2^b] up by at most half a
    step of its grid. *)
Lemma round64_pos_up (x : Q) (b : Z) :
  0 < x -> x < pow2 b -> (-1021 <= b)%Z ->
  round64_pos x <= x + pow2 (b - 54).
Proof.
  intros Hx Hb Hnormal. unfold round64_pos.
  pose proof (grid_exponent x b Hx Hb) as He.
  set (e := Z.max (floor_log2 x - 52) (-1074)) in *.
  pose proof (pow2_pos e) as Hpe.
  destruct (round_half_even_near (x / pow2 e)) as (_ & Hup & _).
  assert (H1 : inject_Z (round_half_even (x / pow2 e)) * pow2 e
               <= (x / pow2 e + (1 # 2)) * pow2 e)
    by (apply Qmult_le_r; assumption).
  assert (H2 : (x / pow2 e + (1 # 2)) * pow2 e == x + pow2 e * (1 # 2))
    by (field; lra).
  assert (H3 : pow2 e * (1 # 2) == pow2 (e - 1)).
  { replace (e - 1)%Z with (e + - (1))%Z by lia. rewrite pow2_add. reflexivity. }
  assert (H4 : pow2 (e - 1) <= pow2 (b - 54)) by (apply pow2_le; lia).
  lra.
Qed.

(** The fraction of a double stays a whole step of 2^-53 away from 1. *)
Lemma binary64_fraction (x : Q) :
  0 <= x -> binary64 x -> x - inject_Z (Qfloor x) <= 1 - pow2 (-53).
Proof.
  intros Hx (m & e & Hm & He & Heq).
  pose proof (pow2_pos e) as Hpe.
  assert (Hm0 : (0 <= m)%Z).
  { destruct (Z.le_gt_cases 0 m) as [H | H]; [exact H |].
    exfalso. assert (Hneg : inject_Z m <= inject_Z (-1)) by (rewrite <- Zle_Qle; lia).
    change (inject_Z (-1)) with (-1) in Hneg.
    assert (inject_Z m * pow2 e <= (-1) * pow2 e)
      by (apply Qmult_le_r; assumption).
    lra. }
  assert (Hc : pow2 (-53) == 1 # 9007199254740992) by reflexivity.
  destruct (Z.le_gt_cases 0 e) as [Hpos | Hneg].
  - assert (Hint : x == inject_Z (m * 2 ^ e))
      by (rewrite inject_Z_mult, <- pow2_Z; assumption).
    rewrite (Qfloor_comp _ _ Hint), Qfloor_Z, Hint, Hc. lra.
  - set (P := (2 ^ (- e))%Z).
    assert (HP : (0 < P)%Z) by (apply Z.pow_pos_nonneg; lia).
    assert (Hdiv : x == inject_Z m / inject_Z P).
    { rewrite Heq. unfold P. rewrite <- pow2_Z by lia. unfold Qdiv.
      now rewrite <- pow2_opp, Z.opp_involutive. }
    assert (HPq : 0 < inject_Z P)
      by (change 0 with (inject_Z 0); now rewrite <- Zlt_Qlt).
    assert (Hfloor : Qfloor x = (m / P)%Z).
    { rewrite (Qfloor_comp _ _ Hdiv).
      pose proof (Z.mul_div_le m P HP). pose proof (Z.mul_succ_div_gt m P HP).
      assert (Hlo : inject_Z (m / P) <= inject_Z m / inject_Z P).
      { apply Qle_shift_div_l; [exact HPq |].
        rewrite <- inject_Z_mult, <- Zle_Qle. lia. }
      assert (Hhi : inject_Z m / inject_Z P < inject_Z (m / P + 1)).
      { apply Qlt_shift_div_r; [exact HPq |].
        rewrite <- inject_Z_mult, <- Zlt_Qlt. lia. }
      pose proof (Qfloor_le (inject_Z m / inject_Z P)) as Hf1.
      pose proof (Qlt_floor (inject_Z m / inject_Z P)) as Hf2.
      assert (A : inject_Z (Qfloor (inject_Z m / inject_Z P)) < inject_Z (m / P + 1))
        by lra.
      assert (B : inject_Z (m / P)
                  < inject_Z (Qfloor (inject_Z m / inject_Z P) + 1)) by lra.
      rewrite <- Zlt_Qlt in A, B. lia. }
    rewrite Hfloor, Hdiv, Hc.
    assert (Hfrac : inject_Z m / inject_Z P - inject_Z (m / P)
                    == inject_Z (m mod P) / inject_Z P).
    { rewrite (Z.mod_eq m P) by lia. unfold Z.sub.
      rewrite inject_Z_plus, inject_Z_opp, inject_Z_mult. field. lra. }
    rewrite Hfrac. apply Qle_shift_div_r; [exact HPq |].
    pose proof (Z.mod_pos_bound m P HP) as Hr.
    pose proof (Z.mod_le m P Hm0 HP) as Hr2.
    assert (Hz : (m mod P * 9007199254740992 <= 9007199254740991 * P)%Z).
    { change (2 ^ 53)%Z with 9007199254740992%Z in Hm.
      destruct (Z.le_gt_cases P 9007199254740992); lia. }
    rewrite Zle_Qle, !inject_Z_mult in Hz.
    change (inject_Z 9007199254740992) with 9007199254740992 in Hz.
    change (inject_Z 9007199254740991) with 9007199254740991 in Hz.
    lra.
Qed.

End FloatFacts.

(** ** format_timestamp *)

Section TimestampFacts.

Import PyStr PyNum Naming.
Open Scope Q_scope.

Lemma Qfloor_unique (x : Q) (k : Z) :
  inject_Z k <= x -> x < inject_Z (k + 1) -> Qfloor x = k.
Proof.
  intros Hlo Hhi.
  pose proof (Qfloor_le x) as Hf1. pose proof (Qlt_floor x) as Hf2.
  assert (H1 : inject_Z (Qfloor x) < inject_Z (k + 1)) by lra.
  assert (H2 : inject_Z k < inject_Z (Qfloor x + 1)) by lra.
  rewrite <- Zlt_Qlt in H1, H2. lia.
Qed.

Lemma Qfloor_shift (x : Q) (k : Z) : Qfloor (x - inject_Z k) = (Qfloor x - k)%Z.
Proof.
  pose proof (Qfloor_le x) as Hf1. pose proof (Qlt_floor x) as Hf2.
  apply Qfloor_unique.
  - unfold Z.sub. rewrite inject_Z_plus, inject_Z_opp. lra.
  - replace (Qfloor x - k + 1)%Z with (Qfloor x + 1 + - k)%Z by lia.
    rewrite inject_Z_plus, inject_Z_opp. lra.
Qed.

Lemma Qfloor_div_pos (x : Q) (n : Z) :
  (0 < n)%Z -> Qfloor (x / inject_Z n) = (Qfloor x / n)%Z.
Proof.
  intros Hn.
  pose proof (Qfloor_le x) as Hf1. pose proof (Qlt_floor x) as Hf2.
  assert (Hn' : 0 < inject_Z n) by (change 0 with (inject_Z 0); now rewrite <- Zlt_Qlt).
  apply Qfloor_unique.
  - apply Qle_shift_div_l; [exact Hn' |].
    eapply Qle_trans; [| exact Hf1].
    rewrite <- inject_Z_mult, <- Zle_Qle.
    pose proof (Z.mul_div_le (Qfloor x) n Hn). lia.
  - apply Qlt_shift_div_r; [exact Hn' |].
    eapply Qlt_le_trans; [exact Hf2 |].
    rewrite <- inject_Z_mult, <- Zle_Qle.
    pose proof (Z.mul_succ_div_gt (Qfloor x) n Hn). lia.
Qed.

(** [x % n] for a whole positive [n]: what is left after the multiples. *)
Lemma pymod_floor (x : Q) (n : Z) :
  (0 < n)%Z ->
  0 <= pymod x (inject_Z n)
  /\ Qfloor (pymod x (inject_Z n)) = (Qfloor x mod n)%Z.
Proof.
  intros Hn. unfold pymod. rewrite Qfloor_div_pos by exact Hn.
  rewrite <- inject_Z_mult.
  assert (Hfl : Qfloor (x - inject_Z (n * (Qfloor x / n))) = (Qfloor x mod n)%Z).
  { rewrite Qfloor_shift. rewrite Z.mod_eq by lia. reflexivity. }
  split; [| exact Hfl].
  eapply Qle_trans; [| apply Qfloor_le]. rewrite Hfl.
  change 0 with (inject_Z 0). rewrite <- Zle_Qle.
  apply Z.mod_pos_bound. exact Hn.
Qed.

Lemma format_d_two_digits (z : Z) :
  (0 <= z < 100)%Z -> format_d 2 z = two_digits z.
Proof.
  intros Hz.
  assert (H : forallb
                (fun n => bool_decide
                            (format_d 2 (Z.of_nat n) = two_digits (Z.of_nat n)))
                (seq 0 100) = true) by (vm_compute; reflexivity).
  rewrite forallb_forall in H.
  assert (Hin : In (Z.to_nat z) (seq 0 100)) by (apply in_seq; lia).
  apply H in Hin. rewrite Z2Nat.id in Hin by lia.
  now apply bool_decide_eq_true in Hin.
Qed.

Lemma format_d_three_digits (z : Z) :
  (0 <= z < 1000)%Z -> format_d 3 z = three_digits z.
Proof.
  intros Hz.
  assert (H : forallb
                (fun n => bool_decide
                            (format_d 3 (Z.of_nat n) = three_digits (Z.of_nat n)))
                (seq 0 1000) = true) by (vm_compute; reflexivity).
  rewrite forallb_forall in H.
  assert (Hin : In (Z.to_nat z) (seq 0 1000)) by (apply in_seq; lia).
  apply H in Hin. rewrite Z2Nat.id in Hin by lia.
  now apply bool_decide_eq_true in Hin.
Qed.

Lemma format_d_width (width : nat) (z : Z) :
  (width <= length (format_d width z))%nat.
Proof.
  unfold format_d, zfill.
  destruct (Z.to_int z); cbn [length]; rewrite length_app, repeat_length; lia.
Qed.

(** C6: [format_timestamp] turns 3725.125 seconds into [01:02:05.125].
    For every double from 0 up to 100 hours the result has the twelve
    characters of [HH:MM:SS.mmm]: the hours, the minutes and the seconds
    of the whole part on two digits each, and the milliseconds on three.
    The millisecond field is [int((seconds % 1) * 1000)] with the product
    rounded to a double: it is below 1000, and it is the milliseconds of
    the fraction cut off after the third decimal, or one more. *)
Theorem format_timestamp_layout (seconds : Q) :
  0 <= seconds ->
  seconds < 360000 ->
  binary64 seconds ->
  format_timestamp (3725125 # 1000) = lit "01:02:05.125"
  /\ (0 <= py_int (fmul (pymod seconds 1) 1000) < 1000)%Z
  /\ (Qfloor ((seconds - inject_Z (Qfloor seconds)) * 1000)
      <= py_int (fmul (pymod seconds 1) 1000)
      <= Qfloor ((seconds - inject_Z (Qfloor seconds)) * 1000) + 1)%Z
  /\ format_timestamp seconds
     = two_digits (Qfloor seconds / 3600)
         ++ lit ":" ++ two_digits (Qfloor seconds / 60 mod 60)
         ++ lit ":" ++ two_digits (Qfloor seconds mod 60)
         ++ lit "."
         ++ three_digits (py_int (fmul (pymod seconds 1) 1000))
  /\ length (format_timestamp seconds) = 12%nat.
Proof.
  intros Hlo Hhi Hdouble.
  split; [vm_compute; reflexivity |].
  pose proof (Qfloor_le seconds) as Hf1. pose proof (Qlt_floor seconds) as Hf2.
  rewrite inject_Z_plus in Hf2. change (inject_Z 1) with 1 in Hf2.
  pose proof (binary64_fraction seconds Hlo Hdouble) as Hfraction.
  set (whole := Qfloor seconds) in *.
  assert (Hwhole : (0 <= whole < 360000)%Z).
  { split.
    - rewrite <- (Qfloor_Z 0). apply Qfloor_resp_le. exact Hlo.
    - assert (H : inject_Z whole < inject_Z 360000)
        by (change (inject_Z 360000) with 360000; lra).
      now rewrite <- Zlt_Qlt in H. }
  set (frac := (seconds - inject_Z whole) * 1000).
  assert (Hfrac : 0 <= frac /\ frac <= 1000 - 1000 * pow2 (-53))
    by (unfold frac; lra).
  assert (Heq : pymod seconds 1 * 1000 == frac).
  { unfold pymod, frac.
    change (Qfloor (seconds / 1)) with (Qfloor (seconds / inject_Z 1)).
    rewrite Qfloor_div_pos by lia.
    fold whole. rewrite Z.div_1_r. ring. }
  set (y := pymod seconds 1 * 1000) in *.
  assert (Hms : (0 <= py_int (fmul (pymod seconds 1) 1000) < 1000)%Z
                /\ (Qfloor frac <= py_int (fmul (pymod seconds 1) 1000)
                    <= Qfloor frac + 1)%Z).
  { unfold fmul. fold y. unfold round64.
    assert (Hc53 : pow2 (-53) == 1 # 9007199254740992) by reflexivity.
    assert (Hfloor : Qfloor y = Qfloor frac) by now apply Qfloor_comp.
    assert (Hn0 : (0 <= Qfloor frac)%Z).
    { rewrite <- (Qfloor_Z 0). apply Qfloor_resp_le. apply Hfrac. }
    destruct (Qcompare y 0) eqn:Hc.
    - apply Qeq_alt in Hc. change (py_int 0) with 0%Z.
      assert (H0 : Qfloor frac = 0%Z).
      { rewrite <- Hfloor, (Qfloor_comp _ _ Hc). apply Qfloor_Z. }
      lia.
    - exfalso. apply Qlt_alt in Hc. lra.
    - apply Qgt_alt in Hc.
      assert (H10 : pow2 10 == 1024) by reflexivity.
      assert (H53 : pow2 53 == 9007199254740992) by reflexivity.
      assert (H44 : pow2 (10 - 54) == 1 # 17592186044416) by reflexivity.
      destruct (round64_pos_whole y (Qfloor y)) as [Hdown _]; [lra | lra |].
      destruct (round64_pos_whole y (Qfloor y + 1)) as [_ Hup]; [lra | lra |].
      pose proof (round64_pos_up y 10) as Hnear.
      pose proof (Qfloor_le y) as Hy1. pose proof (Qlt_floor y) as Hy2.
      specialize (Hdown Hy1). specialize (Hup (Qlt_le_weak _ _ Hy2)).
      specialize (Hnear ltac:(lra) ltac:(lra) ltac:(lia)).
      set (r := round64_pos y) in *.
      assert (Hr0 : 0 <= r).
      { eapply Qle_trans; [| exact Hdown]. rewrite Hfloor.
        change 0 with (inject_Z 0). now rewrite <- Zle_Qle. }
      rewrite py_int_nonneg by exact Hr0.
      assert (Hge : (Qfloor y <= Qfloor r)%Z).
      { rewrite <- (Qfloor_Z (Qfloor y)) at 1. now apply Qfloor_resp_le. }
      assert (Hle : (Qfloor r <= Qfloor y + 1)%Z).
      { rewrite <- (Qfloor_Z (Qfloor y + 1)). now apply Qfloor_resp_le. }
      assert (Hlt : (Qfloor r < 1000)%Z).
      { assert (H : inject_Z (Qfloor r) < inject_Z 1000).
        { eapply Qle_lt_trans; [apply Qfloor_le |].
          change (inject_Z 1000) with 1000. lra. }
        now rewrite <- Zlt_Qlt in H. }
      lia. }
  destruct Hms as [Hms Hnear].
  split; [exact Hms |]. split; [exact Hnear |].
  assert (Hh : py_int (floordiv seconds 3600) = (whole / 3600)%Z).
  { rewrite py_int_floordiv. apply (Qfloor_div_pos seconds 3600). lia. }
  assert (Hm : py_int (floordiv (pymod seconds 3600) 60) = (whole / 60 mod 60)%Z).
  { rewrite py_int_floordiv.
    change (Qfloor (pymod seconds 3600 / 60))
      with (Qfloor (pymod seconds (inject_Z 3600) / inject_Z 60)).
    rewrite Qfloor_div_pos by lia.
    destruct (pymod_floor seconds 3600) as [_ ->]; [lia |].
    fold whole. Z.div_mod_to_equations. lia. }
  assert (Hs : py_int (pymod seconds 60) = (whole mod 60)%Z).
  { destruct (pymod_floor seconds 60) as [Hnn Hfl]; [lia |].
    rewrite py_int_nonneg by exact Hnn. exact Hfl. }
  assert (Hstamp : format_timestamp seconds
                   = two_digits (whole / 3600)
                       ++ lit ":" ++ two_digits (whole / 60 mod 60)
                       ++ lit ":" ++ two_digits (whole mod 60)
                       ++ lit "."
                       ++ three_digits (py_int (fmul (pymod seconds 1) 1000))).
  { unfold format_timestamp. rewrite Hh, Hm, Hs.
    rewrite (format_d_two_digits (whole / 3600)),
      (format_d_two_digits (whole / 60 mod 60)),
      (format_d_two_digits (whole mod 60)), format_d_three_digits;
      try reflexivity; try exact Hms; Z.div_mod_to_equations; lia. }
  split; [exact Hstamp |]. rewrite Hstamp. reflexivity.
Qed.

Lemma format_timestamp_layout_witness :
  0 <= 3725125 # 1000
  /\ 3725125 # 1000 < 360000
  /\ binary64 (3725125 # 1000)
  /\ format_timestamp (3725125 # 1000) = lit "01:02:05.125"
  /\ format_timestamp (3725125 # 1000)
     = two_digits 1 ++ lit ":" ++ two_digits 2 ++ lit ":" ++ two_digits 5
         ++ lit "." ++ three_digits 125
  /\ length (format_timestamp (3725125 # 1000)) = 12%nat.
Proof.
  assert (H0 : 0 <= 3725125 # 1000) by (unfold Qle; cbn; lia).
  assert (H1 : 3725125 # 1000 < 360000) by (unfold Qlt; cbn; lia).
  assert (H2 : binary64 (3725125 # 1000)).
  { exists 29801%Z, (-3)%Z. split; [reflexivity |]. split; [lia | reflexivity]. }
  split; [exact H0 |]. split; [exact H1 |]. split; [exact H2 |].
  destruct (format_timestamp_layout (3725125 # 1000) H0 H1 H2)
    as (Hexample & _ & _ & Hstamp & Hlen).
  split; [exact Hexample |]. split; [exact Hstamp | exact Hlen].
Defined.

(** Outside these bounds the layout is another one: a negative time has
    a signed hours field, and from 100 hours on the hours take three
    digits.  And the milliseconds are not always those of the time cut
    off after the third decimal: the double nearest 0.009 lies below
    0.009, and is printed with 009. *)
Lemma format_timestamp_outside_layout :
  format_timestamp (-1) = lit "-1:59:59.000"
  /\ format_timestamp 360000 = lit "100:00:00.000"
  /\ binary64 (5188146770730811 # 576460752303423488)
  /\ round64 (9 # 1000) = 5188146770730811 # 576460752303423488
  /\ Qfloor ((5188146770730811 # 576460752303423488) * 1000) = 8%Z
  /\ format_timestamp (5188146770730811 # 576460752303423488) = lit "00:00:00.009".
Proof.
  split; [vm_compute; reflexivity |].
  split; [vm_compute; reflexivity |].
  split.
  { exists 5188146770730811%Z, (-59)%Z.
    split; [reflexivity |]. split; [lia | reflexivity]. }
  split; [vm_compute; reflexivity |].
  split; vm_compute; reflexivity.
Qed.

End TimestampFacts.

(** ** Descriptions from the transcript *)

Section DescriptionFacts.

Import PyStr PyNum Segmenter.
Open Scope Q_scope.

Variable isspace : char -> bool.
Hypothesis isspace_space : isspace space = true.

Lemma segment_text_concat (start end_ : Q) (transcript : list TranscriptEntry) :
  segment_text start end_ transcript
  = concat (map (fun t => t ++ [space]) (window_texts start end_ transcript)).
Proof.
  unfold window_texts.
  induction transcript as [| entry rest IH]; [reflexivity |].
  cbn [segment_text List.filter]. destruct (in_window start end_ entry).
  - cbn [map concat]. now rewrite IH.
  - exact IH.
Qed.

Lemma concat_space_join (t : pystr) (texts : list pystr) :
  concat (map (fun t => t ++ [space]) (t :: texts))
  = join_space (t :: texts) ++ [space].
Proof.
  revert t. induction texts as [| t' texts IH]; intros t.
  - cbn. now rewrite app_nil_r.
  - change (concat (map (fun t => t ++ [space]) (t :: t' :: texts)))
      with ((t ++ [space]) ++ concat (map (fun t => t ++ [space]) (t' :: texts))).
    rewrite IH. cbn [join_space]. now rewrite <- !app_assoc.
Qed.

(** The description of a window, from its texts. *)
Lemma description_of_texts (placeholder : pystr) (start end_ : Q)
    (transcript : list TranscriptEntry) :
  match segment_text start end_ transcript with
  | [] => placeholder
  | _ :: _ => take 200 (strip isspace (segment_text start end_ transcript))
  end
  = match window_texts start end_ transcript with
    | [] => placeholder
    | _ :: _ =>
        take 200 (strip isspace (join_space (window_texts start end_ transcript)))
    end.
Proof.
  rewrite segment_text_concat.
  destruct (window_texts start end_ transcript) as [| t texts]; [reflexivity |].
  rewrite concat_space_join, strip_snoc by exact isspace_space.
  destruct (join_space (t :: texts) ++ [space]) eqn:E; [| reflexivity].
  now apply app_eq_nil in E as [_ E].
Qed.

(** C7, as amended: with a transcript, the description of a segment is
    made of the texts of the entries whose start lies in its window: when
    there is at least one, these texts joined by single spaces, freed of
    leading and trailing whitespace, then cut to 200 characters; when
    there is none, the placeholder [Segment i+1].  Without a transcript
    [create_analysis_json] produces no segment at all, and
    [create_segments], which never reads the transcript, describes every
    segment as [Part i+1 of n]. *)
Theorem description_from_transcript (video_id title : pystr) (D : Q)
    (entries : list TranscriptEntry) (seg : AnalysisSegment)
    (probe : option Q) (video_info : VideoInfo) (part : Segment) :
  In seg (analysis_segments isspace title D (Some entries)) ->
  In part (create_segments video_id probe video_info) ->
  (exists i : Z,
      as_start seg = inject_Z (i * segment_duration)
      /\ as_description seg
         = match window_texts (as_start seg) (as_end seg) entries with
           | [] => lit "Segment " ++ str_int (i + 1)
           | _ :: _ =>
               take 200
                 (strip isspace
                    (join_space (window_texts (as_start seg) (as_end seg) entries)))
           end)
  /\ analysis_segments isspace title D None = []
  /\ (exists i : Z,
        seg_start part = inject_Z (i * segment_duration)
        /\ seg_description part
           = lit "Part " ++ str_int (i + 1) ++ lit " of "
               ++ str_int (num_segments_of (effective_duration probe video_info))).
Proof.
  intros Hseg Hpart. split; [| split; [reflexivity |]].
  - unfold analysis_segments in Hseg.
    destruct entries as [| entry rest]; [now destruct Hseg |].
    destruct (Qle_bool D 0); [now destruct Hseg |].
    apply in_map_iff in Hseg as (i & <- & _). exists i. split; [reflexivity |].
    unfold make_analysis_segment. cbn [as_description as_start as_end].
    apply description_of_texts.
  - unfold create_segments in Hpart.
    apply in_map_iff in Hpart as (i & <- & _). exists i. now split.
Qed.

End DescriptionFacts.

Section DescriptionExamples.

Import PyStr PyNum Segmenter.
Open Scope Q_scope.

Lemma description_from_transcript_witness :
  exists i : Z,
    as_start
      (make_analysis_segment (fun c => N.eqb c space) (lit "T") 125
         [ {| te_start := 70; te_text := lit "good" |};
           {| te_start := 75; te_text := lit "morning" |} ] 1)
    = inject_Z (i * segment_duration)
    /\ as_description
         (make_analysis_segment (fun c => N.eqb c space) (lit "T") 125
            [ {| te_start := 70; te_text := lit "good" |};
              {| te_start := 75; te_text := lit "morning" |} ] 1)
       = lit "good morning".
Proof.
  destruct
    (description_from_transcript (fun c => N.eqb c space) eq_refl
       (lit "abc123") (lit "T") 125
       [ {| te_start := 70; te_text := lit "good" |};
         {| te_start := 75; te_text := lit "morning" |} ]
       (make_analysis_segment (fun c => N.eqb c space) (lit "T") 125
          [ {| te_start := 70; te_text := lit "good" |};
            {| te_start := 75; te_text := lit "morning" |} ] 1)
       None {| vi_title := lit "T"; vi_description := []; vi_duration := 125 |}
       (make_segment (lit "T") 125 2 0)
       (or_intror (or_introl eq_refl)) (or_introl eq_refl))
    as [(i & Hstart & Hdescr) _].
  exists i. split; [exact Hstart |]. rewrite Hdescr. reflexivity.
Defined.

(** C7, as stated, fails twice on a transcript whose only entry, the text
    [" hi"], starts at 70 seconds of a 120-second video.  The first window
    holds no entry: its description is the placeholder ["Segment 1"], not
    the empty join.  The second window holds the entry: its description is
    ["hi"], the leading space stripped, not the joined text [" hi"]. *)
Lemma description_is_not_the_plain_join :
  map as_description
    (analysis_segments (fun c => N.eqb c space) (lit "T") 120
       (Some [ {| te_start := 70; te_text := lit " hi" |} ]))
  = [lit "Segment 1"; lit "hi"]
  /\ take 200
       (join_space
          (window_texts 0 60 [ {| te_start := 70; te_text := lit " hi" |} ]))
     = []
  /\ take 200
       (join_space
          (window_texts 60 120 [ {| te_start := 70; te_text := lit " hi" |} ]))
     = lit " hi"
  /\ lit "Segment 1" <> []
  /\ lit "hi" <> lit " hi".
Proof.
  split; [vm_compute; reflexivity |].
  split; [vm_compute; reflexivity |].
  split; [vm_compute; reflexivity |].
  split; discriminate.
Qed.

End DescriptionExamples.

(** ** The publishers *)

Section UploadScriptFacts.

Import PyStr Publisher UploadShortsToR2.

Ltac run_script :=
  unfold upload_all, upload_one, try_except, try_except_ClientError, external,
    session_query, session_set, session_add, session_commit, session_close,
    logged, mbind, M_bind, mret, M_ret;
  cbn [for_each fst snd db pending log upload_fault head_fault query_fault
       commit_fault utcnow mbind M_bind mret M_ret].

(** C9: in [upload_shorts_to_r2.py], when the upload went through and the
    [head_object] check raises [ClientError], the file is counted as a
    success although only the two S3 calls were made: the table and the
    unit of work are as before, so a run over this one file reports one
    published clip and leaves the table without a row for it. *)
Theorem unverified_upload_counts_as_success (VIDEO_ID R2_PUBLIC_URL filename : pystr)
    (faults : Faults) (counts : nat * nat) (w : World) :
  upload_fault faults = None ->
  head_fault faults = Some ClientError ->
  upload_one VIDEO_ID R2_PUBLIC_URL (filename, faults) counts w
  = ({| db := db w;
        pending := pending w;
        log := (log w ++ [UploadFile (VIDEO_ID ++ lit "/" ++ filename)])
                 ++ [HeadObject (VIDEO_ID ++ lit "/" ++ filename)] |},
     Ok (S counts.1, counts.2))
  /\ (upload_all VIDEO_ID R2_PUBLIC_URL [(filename, faults)] w).2 = Ok (1, 0)%nat
  /\ db (upload_all VIDEO_ID R2_PUBLIC_URL [(filename, faults)] w).1 = db w.
Proof.
  intros Hup Hhead. run_script. rewrite Hup, Hhead. now cbn.
Qed.

Lemma unverified_upload_counts_as_success_witness :
  (upload_all (lit "abc") (lit "https://cdn.example")
     [(lit "abc_T_1.mp4",
       {| upload_fault := None; head_fault := Some ClientError;
          query_fault := None; commit_fault := None; utcnow := 100 |})]
     empty_world).2
  = Ok (1, 0)%nat
  /\ db (upload_all (lit "abc") (lit "https://cdn.example")
           [(lit "abc_T_1.mp4",
             {| upload_fault := None; head_fault := Some ClientError;
                query_fault := None; commit_fault := None; utcnow := 100 |})]
           empty_world).1
     = ∅.
Proof.
  exact (proj2 (unverified_upload_counts_as_success (lit "abc")
                  (lit "https://cdn.example") (lit "abc_T_1.mp4")
                  {| upload_fault := None; head_fault := Some ClientError;
                     query_fault := None; commit_fault := None; utcnow := 100 |}
                  (0, 0)%nat empty_world eq_refl eq_refl)).
Defined.

(** A file whose four calls all succeed is counted as a success, and its
    row, new or updated, is in the table. *)
Lemma upload_one_success (VIDEO_ID R2_PUBLIC_URL filename : pystr)
    (faults : Faults) (counts : nat * nat) (w : World) :
  upload_fault faults = None ->
  head_fault faults = None ->
  query_fault faults = None ->
  commit_fault faults = None ->
  exists w' v,
    upload_one VIDEO_ID R2_PUBLIC_URL (filename, faults) counts w
    = (w', Ok (S counts.1, counts.2))
    /\ db w' !! replace (lit ".mp4") [] filename = Some v
    /\ Video.r2_url v = Some (R2_PUBLIC_URL ++ lit "/videos/" ++ filename)
    /\ Video.r2_key v = Some (VIDEO_ID ++ lit "/" ++ filename)
    /\ In (UploadFile (VIDEO_ID ++ lit "/" ++ filename)) (log w').
Proof.
  intros Hup Hhead Hquery Hcommit. run_script.
  rewrite Hup, Hhead, Hquery.
  destruct ((pending w ∪ db w) !! replace (lit ".mp4") [] filename) as [v0 |];
    cbn; rewrite Hcommit; cbn;
    eexists _, _; (split; [reflexivity |]); cbn;
    (split; [apply lookup_union_Some_l, lookup_insert_eq |]);
    (split; [reflexivity |]); (split; [reflexivity |]);
    rewrite !in_app_iff; cbn; tauto.
Qed.

Lemma url_matches_key_iff (VIDEO_ID R2_PUBLIC_URL filename : pystr) :
  R2_PUBLIC_URL ++ lit "/videos/" ++ filename
  = R2_PUBLIC_URL ++ lit "/" ++ (VIDEO_ID ++ lit "/" ++ filename)
  <-> VIDEO_ID = lit "videos".
Proof.
  split.
  - intros H. apply app_inv_head in H.
    change (lit "/videos/" ++ filename)
      with (lit "/" ++ (lit "videos" ++ lit "/" ++ filename)) in H.
    apply app_inv_head in H. rewrite !app_assoc in H.
    apply app_inv_tail in H. apply app_inv_tail in H. now symmetry.
  - now intros ->.
Qed.

(** A row found in the table or in the unit of work after a file was
    handled was there before, or is the row stored for this file, with its
    URL and its key, after the upload under that key. *)
Lemma upload_one_rows (VIDEO_ID R2_PUBLIC_URL : pystr) (item : pystr * Faults)
    (counts : nat * nat) (w : World) :
  exists w' counts' calls,
    upload_one VIDEO_ID R2_PUBLIC_URL item counts w = (w', Ok counts')
    /\ log w' = log w ++ calls
    /\ forall id v,
         db w' !! id = Some v \/ pending w' !! id = Some v ->
         (db w !! id = Some v \/ pending w !! id = Some v)
         \/ (id = short_id item.1
             /\ recorded_by VIDEO_ID R2_PUBLIC_URL item.1 v
             /\ In (UploadFile (VIDEO_ID ++ lit "/" ++ item.1)) calls).
Proof.
  destruct item as [filename [up head query commit now]].
  destruct counts as [success_count failed_count].
  unfold recorded_by, short_id. run_script.
  destruct up as [[] |], head as [[] |], query as [[] |];
    cbn [fst snd db pending log];
    try destruct ((pending w ∪ db w) !! replace (lit ".mp4") [] filename);
    cbn [fst snd db pending log];
    try destruct commit as [[] |]; cbn [fst snd db pending log];
    eexists _, _, _; (split; [reflexivity |]); cbn [fst snd db pending log];
    (split; [rewrite <- ?app_assoc; reflexivity |]);
    intros id v [Hrow | Hrow]; auto;
    rewrite ?lookup_empty in Hrow; try discriminate;
    try (apply lookup_union_Some_raw in Hrow as [Hrow | [_ Hrow]]; [| now auto]);
    (apply lookup_insert_Some in Hrow as [[<- <-] | [_ Hrow]]; [| now auto]);
    right; cbn; tauto.
Qed.

Lemma upload_loop_rows (VIDEO_ID R2_PUBLIC_URL : pystr) (shorts_files : Listing)
    (counts : nat * nat) (w : World) :
  exists w' counts' calls,
    for_each shorts_files (upload_one VIDEO_ID R2_PUBLIC_URL) counts w
    = (w', Ok counts')
    /\ log w' = log w ++ calls
    /\ forall id v,
         db w' !! id = Some v \/ pending w' !! id = Some v ->
         (db w !! id = Some v \/ pending w !! id = Some v)
         \/ exists filename,
              In filename (map fst shorts_files)
              /\ id = short_id filename
              /\ recorded_by VIDEO_ID R2_PUBLIC_URL filename v
              /\ In (UploadFile (VIDEO_ID ++ lit "/" ++ filename)) calls.
Proof.
  revert counts w. induction shorts_files as [| item rest IH]; intros counts w.
  - exists w, counts, []. cbn. rewrite app_nil_r. auto.
  - destruct (upload_one_rows VIDEO_ID R2_PUBLIC_URL item counts w)
      as (w1 & counts1 & calls1 & Hrun1 & Hlog1 & Hrows1).
    destruct (IH counts1 w1) as (w2 & counts2 & calls2 & Hrun2 & Hlog2 & Hrows2).
    exists w2, counts2, (calls1 ++ calls2).
    cbn [for_each]. unfold mbind, M_bind at 1. rewrite Hrun1, Hrun2.
    split; [reflexivity |]. split; [now rewrite Hlog2, Hlog1, app_assoc |].
    intros id v Hrow.
    destruct (Hrows2 id v Hrow) as [Hrow1 | (filename & Hin & Hid & Hrec & Hup)].
    + destruct (Hrows1 id v Hrow1) as [Hrow0 | (Hid & Hrec & Hup)]; [now left |].
      right. exists item.1. cbn [map In]. rewrite in_app_iff. auto.
    + right. exists filename. cbn [map In]. rewrite in_app_iff. auto.
Qed.

(** C10, as amended: every row [upload_shorts_to_r2.py] writes holds, for
    one of the files [filename] it handled, the URL
    [R2_PUBLIC_URL/videos/filename] and the key [VIDEO_ID/filename], the
    key under which that file was uploaded; the path of the URL is that
    key exactly when [VIDEO_ID] is the word [videos], and differs from it
    for every other identifier. *)
Theorem recorded_url_and_key (VIDEO_ID R2_PUBLIC_URL : pystr)
    (shorts_files : Listing) (w : World) (id : pystr) (v : Video) :
  pending w = ∅ ->
  db (upload_all VIDEO_ID R2_PUBLIC_URL shorts_files w).1 !! id = Some v ->
  db w !! id <> Some v ->
  exists filename,
    In filename (map fst shorts_files)
    /\ id = short_id filename
    /\ Video.r2_url v = Some (R2_PUBLIC_URL ++ lit "/videos/" ++ filename)
    /\ Video.r2_key v = Some (VIDEO_ID ++ lit "/" ++ filename)
    /\ In (UploadFile (VIDEO_ID ++ lit "/" ++ filename))
         (log (upload_all VIDEO_ID R2_PUBLIC_URL shorts_files w).1)
    /\ (Video.r2_url v
        = Some (R2_PUBLIC_URL ++ lit "/" ++ (VIDEO_ID ++ lit "/" ++ filename))
        <-> VIDEO_ID = lit "videos").
Proof.
  intros Hpending Hrow Hnew. unfold upload_all in *.
  destruct (upload_loop_rows VIDEO_ID R2_PUBLIC_URL shorts_files (0, 0)%nat w)
    as (w1 & counts1 & calls & Hrun & Hlog & Hrows).
  unfold mbind, M_bind at 1 in Hrow. unfold mbind, M_bind at 1.
  rewrite Hrun in *. cbn in Hrow |- *.
  destruct (Hrows id v (or_introl Hrow))
    as [[Hold | Hold] | (filename & Hin & Hid & [Hurl Hkey] & Hup)].
  - contradiction.
  - now rewrite Hpending, lookup_empty in Hold.
  - exists filename. repeat (split; [assumption |]). split.
    + rewrite Hlog, !in_app_iff. auto.
    + rewrite Hurl. split.
      * intros [= H]. now apply url_matches_key_iff in H.
      * intros H. f_equal. now apply url_matches_key_iff.
Qed.

Lemma recorded_url_and_key_witness :
  db (upload_all (lit "abc") (lit "https://cdn.example")
        [(lit "abc_T_1.mp4", no_faults 100)] empty_world).1
    !! lit "abc_T_1"
  = Some {| Video.filename := lit "abc_T_1.mp4";
            Video.title := None;
            Video.description := None;
            Video.duration := None;
            Video.r2_url := Some (lit "https://cdn.example/videos/abc_T_1.mp4");
            Video.r2_key := Some (lit "abc/abc_T_1.mp4");
            Video.tiktok_description := None;
            Video.created_at := 100;
            Video.updated_at := 100 |}
  /\ exists filename,
       In filename (map fst [(lit "abc_T_1.mp4", no_faults 100)])
       /\ lit "abc_T_1" = short_id filename
       /\ Some (lit "https://cdn.example/videos/abc_T_1.mp4")
          = Some (lit "https://cdn.example" ++ lit "/videos/" ++ filename)
       /\ Some (lit "abc/abc_T_1.mp4") = Some (lit "abc" ++ lit "/" ++ filename).
Proof.
  assert (Hrow :
    db (upload_all (lit "abc") (lit "https://cdn.example")
          [(lit "abc_T_1.mp4", no_faults 100)] empty_world).1
      !! lit "abc_T_1"
    = Some {| Video.filename := lit "abc_T_1.mp4";
              Video.title := None;
              Video.description := None;
              Video.duration := None;
              Video.r2_url := Some (lit "https://cdn.example/videos/abc_T_1.mp4");
              Video.r2_key := Some (lit "abc/abc_T_1.mp4");
              Video.tiktok_description := None;
              Video.created_at := 100;
              Video.updated_at := 100 |}) by (vm_compute; reflexivity).
  split; [exact Hrow |].
  destruct (recorded_url_and_key (lit "abc") (lit "https://cdn.example")
              [(lit "abc_T_1.mp4", no_faults 100)] empty_world (lit "abc_T_1") _
              eq_refl Hrow ltac:(vm_compute; discriminate))
    as (filename & Hin & Hid & Hurl & Hkey & _).
  exists filename. cbn [Video.r2_url Video.r2_key] in Hurl, Hkey. auto.
Defined.

(** C10, as stated, fails for the identifier [videos]: the row written for
    [videos_T_1.mp4] holds a URL whose path is the very key of the upload. *)
Lemma url_path_is_key_for_videos :
  exists v,
    db (upload_one (lit "videos") (lit "https://cdn.example")
          (lit "videos_T_1.mp4", no_faults 100) (0, 0)%nat empty_world).1
      !! lit "videos_T_1"
    = Some v
    /\ Video.r2_key v = Some (lit "videos/videos_T_1.mp4")
    /\ Video.r2_url v
       = Some (lit "https://cdn.example" ++ lit "/" ++ lit "videos/videos_T_1.mp4")
    /\ In (UploadFile (lit "videos/videos_T_1.mp4"))
         (log (upload_one (lit "videos") (lit "https://cdn.example")
                 (lit "videos_T_1.mp4", no_faults 100) (0, 0)%nat empty_world).1).
Proof.
  eexists. split; [vm_compute; reflexivity |].
  split; [reflexivity |]. split; [reflexivity |].
  vm_compute. tauto.
Qed.

(** Whatever the world answers, a file of [upload_shorts_to_r2.py] is
    counted once, as a success or as a failure, the loop goes on, and no
    rollback is issued. *)
Lemma upload_one_total (VIDEO_ID R2_PUBLIC_URL : pystr) (item : pystr * Faults)
    (counts : nat * nat) (w : World) :
  exists w' counts' calls,
    upload_one VIDEO_ID R2_PUBLIC_URL item counts w = (w', Ok counts')
    /\ (counts'.1 + counts'.2 = S (counts.1 + counts.2))%nat
    /\ (counts.1 <= counts'.1)%nat
    /\ log w' = log w ++ calls
    /\ ~ In SessionRollback calls.
Proof.
  destruct item as [filename [up head query commit now]].
  destruct counts as [success_count failed_count].
  run_script.
  destruct up as [[] |], head as [[] |], query as [[] |];
    cbn [fst snd db pending log];
    try destruct ((pending w ∪ db w) !! replace (lit ".mp4") [] filename);
    cbn [fst snd db pending log];
    try destruct commit as [[] |]; cbn [fst snd db pending log];
    eexists _, _, _; (split; [reflexivity |]); cbn [fst snd db pending log];
    (split; [lia |]); (split; [lia |]);
    (split; [rewrite <- ?app_assoc; reflexivity |]);
    cbn; intuition discriminate.
Qed.

Lemma upload_loop_total (VIDEO_ID R2_PUBLIC_URL : pystr) (shorts_files : Listing)
    (counts : nat * nat) (w : World) :
  exists w' counts' calls,
    for_each shorts_files (upload_one VIDEO_ID R2_PUBLIC_URL) counts w
    = (w', Ok counts')
    /\ (counts'.1 + counts'.2 = length shorts_files + (counts.1 + counts.2))%nat
    /\ (counts.1 <= counts'.1)%nat
    /\ log w' = log w ++ calls
    /\ ~ In SessionRollback calls.
Proof.
  revert counts w. induction shorts_files as [| item rest IH]; intros counts w.
  - exists w, counts, []. cbn. rewrite app_nil_r. repeat split; auto.
  - destruct (upload_one_total VIDEO_ID R2_PUBLIC_URL item counts w)
      as (w1 & counts1 & calls1 & Hrun1 & Hsum1 & Hle1 & Hlog1 & Hno1).
    destruct (IH counts1 w1)
      as (w2 & counts2 & calls2 & Hrun2 & Hsum2 & Hle2 & Hlog2 & Hno2).
    exists w2, counts2, (calls1 ++ calls2).
    cbn [for_each]. unfold mbind, M_bind at 1. rewrite Hrun1, Hrun2.
    split; [reflexivity |]. split; [cbn [length]; lia |]. split; [lia |].
    split; [now rewrite Hlog2, Hlog1, app_assoc |].
    rewrite in_app_iff. tauto.
Qed.

(** The script ends with status 0 or 1, and with 0 only after a loop that
    counted at least one success. *)
Lemma script_exit_status (environ : Environ) (s3_client_ok connect_ok : bool)
    (shorts_dir : option Listing) (w : World) :
  (script environ s3_client_ok connect_ok shorts_dir w).2 = 1%Z
  \/ (script environ s3_client_ok connect_ok shorts_dir w).2 = 0%Z
     /\ exists shorts_files w' counts,
          upload_all (value (environ (lit "VIDEO_ID")))
            (value (environ (lit "R2_PUBLIC_URL"))) shorts_files w
          = (w', Ok counts)
          /\ (0 < counts.1)%nat.
Proof.
  unfold script.
  repeat match goal with
         | |- context [if ?b then (w, 1%Z) else _] => destruct b; [now left |]
         end.
  destruct shorts_dir as [files |]; [| now left].
  destruct (List.filter _ files) as [| item rest] eqn:Hfiles; [now left |].
  destruct (upload_all _ _ (item :: rest) w) as [w' [counts | e]] eqn:Hrun;
    [| now left].
  destruct (counts.1 =? 0)%nat eqn:Hc; [now left |].
  right. split; [reflexivity |].
  exists (item :: rest), w', counts. split; [exact Hrun |].
  apply Nat.eqb_neq in Hc. lia.
Qed.

(** Once the checks have passed and the directory holds a clip of the
    video, the status is 0 when a success was counted and 1 otherwise. *)
Lemma script_exit_code (environ : Environ) (s3_client_ok connect_ok : bool)
    (files : Listing) (w w' : World) (counts : nat * nat) :
  preflight environ s3_client_ok connect_ok = true ->
  List.filter
    (fun item => startswith item.1 (value (environ (lit "VIDEO_ID")))
                 && endswith item.1 (lit ".mp4")) files <> [] ->
  upload_all (value (environ (lit "VIDEO_ID"))) (value (environ (lit "R2_PUBLIC_URL")))
    (List.filter
       (fun item => startswith item.1 (value (environ (lit "VIDEO_ID")))
                    && endswith item.1 (lit ".mp4")) files) w
  = (w', Ok counts) ->
  script environ s3_client_ok connect_ok (Some files) w
  = (w', if (counts.1 =? 0)%nat then 1%Z else 0%Z).
Proof.
  unfold preflight. rewrite !andb_true_iff, negb_true_iff.
  intros [[[[[Henv Hdb] Hlocal] Hscheme] Hs3] Hconn] Hfiles Hrun.
  unfold script. rewrite Henv, Hdb, Hlocal, Hscheme, Hs3, Hconn. cbn [negb].
  destruct (List.filter _ files) as [| item rest]; [contradiction |].
  now rewrite Hrun.
Qed.

(** C2 on [upload_shorts_to_r2.py]: run on a clip whose row already holds a
    storage URL, the script uploads the file once more and rewrites the
    row, where idempotence asks for no upload and an unchanged row. *)
Theorem upload_script_republishes :
  (upload_all (lit "abc") (lit "https://cdn.example")
     [(lit "abc_T_1.mp4", no_faults 200)] published_world).2
  = Ok (1, 0)%nat
  /\ log (upload_all (lit "abc") (lit "https://cdn.example")
            [(lit "abc_T_1.mp4", no_faults 200)] published_world).1
     = [ UploadFile (lit "abc/abc_T_1.mp4"); HeadObject (lit "abc/abc_T_1.mp4");
         SessionQuery (lit "abc_T_1"); SessionSet (lit "abc_T_1");
         SessionCommit; SessionClose ]
  /\ uploads_of (lit "abc/abc_T_1.mp4")
       (log (upload_all (lit "abc") (lit "https://cdn.example")
               [(lit "abc_T_1.mp4", no_faults 200)] published_world).1)
     = 1%nat
  /\ db (upload_all (lit "abc") (lit "https://cdn.example")
           [(lit "abc_T_1.mp4", no_faults 200)] published_world).1
       !! lit "abc_T_1"
     = Some (with_r2 published_row (lit "https://cdn.example/videos/abc_T_1.mp4")
               (lit "abc/abc_T_1.mp4") 200)
  /\ with_r2 published_row (lit "https://cdn.example/videos/abc_T_1.mp4")
       (lit "abc/abc_T_1.mp4") 200
     <> published_row.
Proof.
  split; [vm_compute; reflexivity |].
  split; [vm_compute; reflexivity |].
  split; [vm_compute; reflexivity |].
  split; [vm_compute; reflexivity |].
  discriminate.
Qed.

End UploadScriptFacts.

Section ProcessFacts.

Import PyStr PyNum Segmenter Naming Publisher ProcessYoutubeVideo.

Variable video_info : VideoInfo.
Variable r2_config : R2Config.

Ltac run_publish :=
  unfold upload_short, short_id, try_except, external, session_query,
    session_set, session_add, session_commit, session_rollback, session_close,
    logged, mbind, M_bind, mret, M_ret;
  cbn [fst snd db pending log upload_fault head_fault query_fault
       commit_fault utcnow mbind M_bind mret M_ret].

(** A file whose row already holds a storage URL is skipped: the query is
    the only call, and nothing changes. *)
Lemma upload_short_skips_published (filename : pystr) (faults : Faults)
    (uploaded : nat) (w : World) :
  query_fault faults = None ->
  published (pending w ∪ db w) (short_id filename) ->
  upload_short video_info r2_config (filename, faults) uploaded w
  = ({| db := db w; pending := pending w;
        log := log w ++ [SessionQuery (short_id filename)] |}, Ok uploaded).
Proof.
  intros Hquery (v & Hrow & Hurl). unfold short_id in Hrow. run_publish.
  rewrite Hquery, Hrow. unfold already_uploaded. now rewrite Hurl.
Qed.

(** A file that is not skipped and whose upload or commit raises: the
    session is rolled back, the table is as before, the count is not
    raised, and the loop goes on. *)
Lemma upload_short_failure_rolls_back (filename : pystr) (faults : Faults)
    (uploaded : nat) (w : World) :
  query_fault faults = None ->
  already_uploaded ((pending w ∪ db w) !! short_id filename) = false ->
  goes_through (filename, faults) = false ->
  exists calls,
    upload_short video_info r2_config (filename, faults) uploaded w
    = ({| db := db w; pending := ∅; log := log w ++ calls |}, Ok uploaded)
    /\ last calls = Some SessionRollback
    /\ rollbacks calls = 1%nat.
Proof.
  intros Hquery Hnot Hfail. unfold short_id in Hnot. unfold goes_through in Hfail.
  cbn [snd] in Hfail. run_publish. rewrite Hquery, Hnot.
  destruct (upload_fault faults) as [e |]; cbn.
  - eexists. split; [rewrite <- !app_assoc; reflexivity | split; reflexivity].
  - destruct (commit_fault faults) as [e |]; [| discriminate].
    destruct ((pending w ∪ db w) !! replace (lit ".mp4") [] filename); cbn;
      eexists; (split; [rewrite <- !app_assoc; reflexivity | split; reflexivity]).
Qed.

(** A file that is not skipped and goes through is uploaded under
    [videos/filename], committed, and counted. *)
Lemma upload_short_success (filename : pystr) (faults : Faults)
    (uploaded : nat) (w : World) :
  query_fault faults = None ->
  already_uploaded ((pending w ∪ db w) !! short_id filename) = false ->
  goes_through (filename, faults) = true ->
  exists v calls,
    upload_short video_info r2_config (filename, faults) uploaded w
    = ({| db := <[short_id filename := v]> (pending w) ∪ db w; pending := ∅;
          log := log w ++ calls |},
       Ok (S uploaded))
    /\ rollbacks calls = 0%nat.
Proof.
  intros Hquery Hnot Hok. unfold short_id in *. unfold goes_through in Hok.
  cbn [snd] in Hok. run_publish. rewrite Hquery, Hnot.
  destruct (upload_fault faults) as [e |]; [discriminate |].
  destruct (commit_fault faults) as [e |]; [discriminate |]. cbn.
  destruct ((pending w ∪ db w) !! replace (lit ".mp4") [] filename); cbn;
    eexists _, _; (split; [rewrite <- !app_assoc; reflexivity | reflexivity]).
Qed.

Lemma already_uploaded_published (table : gmap pystr Video) (id : pystr) :
  already_uploaded (table !! id) = true <-> published table id.
Proof.
  unfold already_uploaded, published. destruct (table !! id) as [v |].
  - split; [intros H; now exists v | now intros (v' & [= <-] & H)].
  - split; [discriminate | now intros (v' & [=] & _)].
Qed.

Lemma uploads_of_absent (key : pystr) (calls : list call) :
  ~ In (PutObject key) calls ->
  ~ In (UploadFile key) calls ->
  uploads_of key calls = 0%nat.
Proof.
  unfold uploads_of. induction calls as [| c calls IH]; [reflexivity |].
  cbn [In List.filter]. intros Hput Hup.
  destruct c as [k | k | | | | | | |]; try (apply IH; tauto).
  - rewrite bool_decide_eq_false_2; [apply IH; tauto |].
    intros ->. apply Hput. now left.
  - rewrite bool_decide_eq_false_2; [apply IH; tauto |].
    intros ->. apply Hup. now left.
Qed.

(** One round of the loop, from a session with nothing pending: nothing is
    left pending, a published row is as before, and the only upload there
    can be is the one of this file, made when its row is not published. *)
Lemma upload_short_step (item : pystr * Faults) (uploaded : nat) (w : World) :
  pending w = ∅ ->
  exists w' r calls,
    upload_short video_info r2_config item uploaded w = (w', r)
    /\ log w' = log w ++ calls
    /\ pending w' = ∅
    /\ (forall id, published (db w) id -> db w' !! id = db w !! id)
    /\ (forall key, In (PutObject key) calls ->
         key = lit "videos/" ++ item.1 /\ ~ published (db w) (short_id item.1))
    /\ (forall key, ~ In (UploadFile key) calls).
Proof.
  intros Hpending. destruct item as [filename [up head query commit now]].
  pose proof (already_uploaded_published (db w) (short_id filename)) as Hpub.
  unfold short_id in Hpub. run_publish.
  rewrite Hpending, (left_id_L ∅ (∪)).
  destruct query as [e |]; cbn [fst snd db pending log].
  { eexists _, _, _. split; [reflexivity |]. cbn [log pending db].
    repeat split; auto; intros; cbn [In] in *; intuition discriminate. }
  destruct (already_uploaded (db w !! replace (lit ".mp4") [] filename)) eqn:Hskip.
  { eexists _, _, _. split; [reflexivity |]. cbn [log pending db].
    repeat split; auto; intros; cbn [In] in *; intuition discriminate. }
  assert (Hnot : ~ published (db w) (replace (lit ".mp4") [] filename)).
  { intros H. apply Hpub in H. congruence. }
  destruct up as [e |]; cbn [fst snd db pending log].
  { eexists _, _, _. split; [reflexivity |]. cbn [log pending db].
    split; [rewrite <- !app_assoc; reflexivity |].
    repeat split; auto; intros; cbn [In app] in *; intuition congruence. }
  destruct (db w !! replace (lit ".mp4") [] filename) as [v0 |] eqn:Hrow;
    cbn [fst snd db pending log];
    destruct commit as [e |]; cbn [fst snd db pending log];
    eexists _, _, _; (split; [reflexivity |]); cbn [log pending db];
    (split; [rewrite <- !app_assoc; reflexivity |]);
    (split; [reflexivity |]);
    (split; [| split; [intros key Hin; cbn [In app] in Hin; intuition congruence
                      | intros key Hin; cbn [In app] in Hin;
                        intuition discriminate]]);
    intros id Hid; try reflexivity;
    (rewrite lookup_union_r; [reflexivity |]);
    (apply lookup_insert_None; split; [apply lookup_empty |]);
    intros <-; now apply Hnot.
Qed.

(** The loop of [upload_shorts_to_r2_and_db], from a session with nothing
    pending: every row that holds a storage URL is left as it is, and no
    file whose row is published is uploaded. *)
Lemma upload_loop_keeps_published (shorts : Listing) (uploaded : nat) (w : World) :
  pending w = ∅ ->
  exists w' r calls,
    for_each shorts (upload_short video_info r2_config) uploaded w = (w', r)
    /\ log w' = log w ++ calls
    /\ pending w' = ∅
    /\ (forall id, published (db w) id -> db w' !! id = db w !! id)
    /\ (forall filename, In (PutObject (lit "videos/" ++ filename)) calls ->
         ~ published (db w) (short_id filename))
    /\ (forall key, ~ In (UploadFile key) calls).
Proof.
  revert uploaded w. induction shorts as [| item rest IH]; intros uploaded w Hpending.
  - exists w, (Ok uploaded), []. cbn. rewrite app_nil_r. repeat split; auto.
  - destruct (upload_short_step item uploaded w Hpending)
      as (w1 & r1 & calls1 & Hrun1 & Hlog1 & Hpend1 & Hkeep1 & Hput1 & Hup1).
    cbn [for_each]. unfold mbind, M_bind at 1. rewrite Hrun1.
    destruct r1 as [uploaded1 | e].
    + destruct (IH uploaded1 w1 Hpend1)
        as (w2 & r2 & calls2 & Hrun2 & Hlog2 & Hpend2 & Hkeep2 & Hput2 & Hup2).
      assert (Hpub1 : forall id, published (db w) id -> published (db w1) id).
      { intros id Hid. pose proof (Hkeep1 id Hid) as Heq.
        destruct Hid as (v & Hv & Hurl). exists v. now rewrite Heq. }
      exists w2, r2, (calls1 ++ calls2). split; [exact Hrun2 |].
      split; [now rewrite Hlog2, Hlog1, app_assoc |]. split; [exact Hpend2 |].
      split; [| split].
      * intros id Hid. rewrite (Hkeep2 id (Hpub1 id Hid)). now apply Hkeep1.
      * intros filename Hin. apply in_app_or in Hin as [Hin | Hin].
        -- destruct (Hput1 _ Hin) as [Hkey Hnot].
           apply app_inv_head in Hkey. now subst filename.
        -- intros Hid. now apply (Hput2 filename Hin), Hpub1.
      * intros key Hin. apply in_app_or in Hin as [Hin | Hin];
          [now apply (Hup1 key) | now apply (Hup2 key)].
    + exists w1, (Raised e), calls1. split; [reflexivity |].
      split; [exact Hlog1 |]. split; [exact Hpend1 |].
      split; [exact Hkeep1 |]. split; [| exact Hup1].
      intros filename Hin. destruct (Hput1 _ Hin) as [Hkey Hnot].
      apply app_inv_head in Hkey. now subst filename.
Qed.

(** The whole of [upload_shorts_to_r2_and_db] on a clip that is already
    published: no upload is attempted for it and its row is left as it is,
    whatever else is in the directory. *)
Lemma publisher_skips_published (video_id : pystr) (shorts_dir : Listing)
    (connect_ok : bool) (w : World) (filename : pystr) :
  pending w = ∅ ->
  published (db w) (short_id filename) ->
  exists w' r calls,
    upload_shorts_to_r2_and_db video_id shorts_dir video_info r2_config connect_ok w
    = (w', r)
    /\ log w' = log w ++ calls
    /\ uploads_of (lit "videos/" ++ filename) calls = 0%nat
    /\ db w' !! short_id filename = db w !! short_id filename.
Proof.
  intros Hpending Hpub. unfold upload_shorts_to_r2_and_db.
  destruct connect_ok; cbn [negb].
  - destruct (upload_loop_keeps_published
                (List.filter (fun item => endswith item.1 (lit ".mp4")) shorts_dir)
                0%nat w Hpending)
      as (w1 & r1 & calls1 & Hrun & Hlog & _ & Hkeep & Hput & Hup).
    unfold mbind, M_bind at 1. rewrite Hrun. destruct r1 as [uploaded | e].
    + eexists _, _, (calls1 ++ [SessionClose]).
      split; [reflexivity |]. cbn [log db].
      split; [now rewrite Hlog, app_assoc |]. split; [| now apply Hkeep].
      apply uploads_of_absent; intros Hin; apply in_app_or in Hin as [Hin | Hin].
      * now apply (Hput filename Hin).
      * cbn in Hin. intuition discriminate.
      * now apply (Hup _ Hin).
      * cbn in Hin. intuition discriminate.
    + exists w1, (Raised e), calls1. split; [reflexivity |].
      split; [exact Hlog |]. split; [| now apply Hkeep].
      apply uploads_of_absent; [intros Hin; now apply (Hput filename Hin) | apply Hup].
  - exists w, (Ok false), []. cbn. rewrite app_nil_r. auto.
Qed.

Lemma rollbacks_app (calls1 calls2 : list call) :
  rollbacks (calls1 ++ calls2) = (rollbacks calls1 + rollbacks calls2)%nat.
Proof. unfold rollbacks. now rewrite List.filter_app, length_app. Qed.

(** The loop over files that are handled for the first time (no two share
    an identifier, none has a published row, no query raises): the files
    that go through are counted, every other one is rolled back, and the
    loop reaches the end of the list. *)
Lemma upload_loop_counts (shorts : Listing) (uploaded : nat) (w : World) :
  pending w = ∅ ->
  List.NoDup (map (fun item => short_id item.1) shorts) ->
  (forall item, In item shorts ->
     query_fault item.2 = None /\ ~ published (db w) (short_id item.1)) ->
  exists w' calls,
    for_each shorts (upload_short video_info r2_config) uploaded w
    = (w', Ok (uploaded + length (List.filter goes_through shorts))%nat)
    /\ log w' = log w ++ calls
    /\ pending w' = ∅
    /\ rollbacks calls
       = length (List.filter (fun item => negb (goes_through item)) shorts).
Proof.
  revert uploaded w.
  induction shorts as [| [filename faults] rest IH]; intros uploaded w Hpending Hdup Hnew.
  - exists w, []. cbn. rewrite app_nil_r, Nat.add_0_r. auto.
  - rewrite map_cons in Hdup. apply NoDup_cons_iff in Hdup as [Hfresh Hdup].
    cbn [fst] in Hfresh.
    destruct (Hnew (filename, faults) (or_introl eq_refl)) as [Hquery Hnot].
    cbn [fst snd] in Hquery, Hnot.
    assert (Hskip : already_uploaded ((pending w ∪ db w) !! short_id filename) = false).
    { rewrite Hpending, (left_id_L ∅ (∪)).
      destruct (already_uploaded (db w !! short_id filename)) eqn:E; [| reflexivity].
      now apply already_uploaded_published in E. }
    cbn [for_each List.filter]. unfold mbind, M_bind at 1.
    destruct (goes_through (filename, faults)) eqn:Hgo; cbn [negb].
    + destruct (upload_short_success filename faults uploaded w Hquery Hskip Hgo)
        as (v & calls1 & Hrun & Hroll). rewrite Hrun.
      match type of Hrun with
      | _ = (?w1, _) =>
          destruct (IH (S uploaded) w1 eq_refl Hdup)
            as (w2 & calls2 & Hrun2 & Hlog2 & Hpend2 & Hroll2)
      end.
      * intros item Hitem. destruct (Hnew item (or_intror Hitem)) as [Hq Hn].
        split; [exact Hq |]. cbn [db]. intros (v' & Hv' & Hurl).
        rewrite Hpending in Hv'. apply lookup_union_Some_raw in Hv' as [Hv' | [_ Hv']].
        -- apply lookup_insert_Some in Hv' as [[Hid _] | [_ Hv']].
           ++ apply Hfresh. rewrite Hid. apply in_map_iff. now exists item.
           ++ now rewrite lookup_empty in Hv'.
        -- apply Hn. now exists v'.
      * exists w2, (calls1 ++ calls2). rewrite Hrun2. cbn [length].
        split; [f_equal; f_equal; lia |]. cbn [log] in Hlog2.
        split; [now rewrite Hlog2, app_assoc |]. split; [exact Hpend2 |].
        rewrite rollbacks_app, Hroll, Hroll2. reflexivity.
    + destruct (upload_short_failure_rolls_back filename faults uploaded w
                  Hquery Hskip Hgo)
        as (calls1 & Hrun & _ & Hroll). rewrite Hrun.
      match type of Hrun with
      | _ = (?w1, _) =>
          destruct (IH uploaded w1 eq_refl Hdup)
            as (w2 & calls2 & Hrun2 & Hlog2 & Hpend2 & Hroll2)
      end.
      * intros item Hitem. destruct (Hnew item (or_intror Hitem)) as [Hq Hn].
        split; [exact Hq | exact Hn].
      * exists w2, (calls1 ++ calls2). rewrite Hrun2. cbn [length].
        split; [reflexivity |]. cbn [log] in Hlog2.
        split; [now rewrite Hlog2, app_assoc |]. split; [exact Hpend2 |].
        rewrite rollbacks_app, Hroll, Hroll2. reflexivity.
Qed.

End ProcessFacts.

(** ** The pipeline of process_youtube_video.py *)

Section MainFacts.

Import PyStr PyNum Segmenter Naming Publisher ProcessYoutubeVideo.
Open Scope Q_scope.

Variable isalnum : char -> bool.

Lemma filter_none {A} (f : A -> bool) (l : list A) :
  (forall x, In x l -> f x = false) -> List.filter f l = [].
Proof.
  induction l as [| x l IH]; [reflexivity |].
  intros H. cbn. rewrite (H x (or_introl eq_refl)). apply IH.
  intros y Hy. apply H. now right.
Qed.

(** No clip extracted, whatever the reason: [main] ends with status 1 and
    the publish stage is not entered (the world is untouched). *)
Lemma main_without_clip (environ : Environ) (downloaded : bool)
    (video_info : VideoInfo) (probe : option Q) (cut : pystr -> Q -> Q -> bool)
    (shorts_listing : Listing) (connect_ok : bool) (w : World) :
  (forall segment, In segment (create_segments (value (environ (lit "VIDEO_ID")))
                                 probe video_info) ->
     forall output_file, cut output_file (seg_start segment) (seg_end segment) = false) ->
  main isalnum environ downloaded video_info probe cut shorts_listing connect_ok w
  = (w, 1%Z).
Proof.
  intros Hcut. unfold main.
  destruct (negb (all_truthy _)); [reflexivity |].
  destruct (negb downloaded); [reflexivity |].
  rewrite filter_none; [reflexivity |].
  intros [i segment] Hin. apply Hcut.
  unfold enumerate1 in Hin. apply list_elem_of_In in Hin.
  apply elem_of_zip_r in Hin. now apply list_elem_of_In.
Qed.

Lemma create_segments_zero (video_id : pystr) (probe : option Q)
    (video_info : VideoInfo) :
  effective_duration probe video_info == 0 ->
  create_segments video_id probe video_info = [].
Proof.
  intros HD. unfold create_segments. rewrite num_segments_of_eq.
  rewrite (Qfloor_comp (effective_duration probe video_info / 60) (inject_Z 0))
    by (rewrite HD; reflexivity).
  now rewrite Qfloor_Z.
Qed.

(** [main] ends with status 0 or 1, and with 0 only when the publish stage
    returned [True], that is when it counted at least one upload. *)
Lemma main_exit_status (environ : Environ) (downloaded : bool)
    (video_info : VideoInfo) (probe : option Q) (cut : pystr -> Q -> Q -> bool)
    (shorts_listing : Listing) (connect_ok : bool) (w : World) :
  (main isalnum environ downloaded video_info probe cut shorts_listing connect_ok w).2
  = 1%Z
  \/ (main isalnum environ downloaded video_info probe cut shorts_listing
        connect_ok w).2 = 0%Z
     /\ exists r2_config w1 uploaded,
          for_each (List.filter (fun item => endswith item.1 (lit ".mp4"))
                      shorts_listing)
            (upload_short video_info r2_config) 0%nat w
          = (w1, Ok uploaded)
          /\ (0 < uploaded)%nat.
Proof.
  unfold main.
  destruct (negb (all_truthy _)); [now left |].
  destruct (negb downloaded); [now left |].
  destruct (_ =? 0)%nat; [now left |].
  match goal with
  | |- context [upload_shorts_to_r2_and_db ?v ?l ?i ?c ?k w] =>
      destruct (upload_shorts_to_r2_and_db v l i c k w) as [w' [[] | e]] eqn:Hrun;
        [| now left | now left];
        right; split; [reflexivity |]; exists c
  end.
  unfold upload_shorts_to_r2_and_db in Hrun.
  destruct connect_ok; cbn [negb] in Hrun; [| discriminate].
  unfold mbind, M_bind at 1 in Hrun.
  destruct (for_each _ _ 0%nat w) as [w1 [uploaded | e]] eqn:Hloop; [| discriminate].
  exists w1, uploaded. split; [reflexivity |].
  cbn in Hrun. injection Hrun as _ Hpos. now apply Nat.ltb_lt.
Qed.

(** The publish stage returns whether it counted an upload. *)
Lemma publish_result (video_id : pystr) (shorts_dir : Listing)
    (video_info : VideoInfo) (r2_config : R2Config) (w w1 : World) (uploaded : nat) :
  for_each (List.filter (fun item => endswith item.1 (lit ".mp4")) shorts_dir)
    (upload_short video_info r2_config) 0%nat w
  = (w1, Ok uploaded) ->
  upload_shorts_to_r2_and_db video_id shorts_dir video_info r2_config true w
  = ({| db := db w1; pending := ∅; log := log w1 ++ [SessionClose] |},
     Ok (0 <? uploaded)%nat).
Proof.
  intros Hloop. unfold upload_shorts_to_r2_and_db. cbn [negb].
  unfold mbind, M_bind at 1. now rewrite Hloop.
Qed.

(** With its variables set, the video downloaded and every cut a success,
    [main] ends with the verdict of the publish stage. *)
Lemma main_publishes (environ : Environ) (video_info : VideoInfo)
    (probe : option Q) (cut : pystr -> Q -> Q -> bool) (shorts_listing : Listing)
    (connect_ok : bool) (w : World) :
  all_truthy [environ (lit "VIDEO_ID"); environ (lit "R2_SHORTS_ACCESS_KEY");
              environ (lit "R2_SHORTS_SECRET_KEY");
              environ (lit "R2_SHORTS_ENDPOINT"); environ (lit "R2_SHORTS_BUCKET");
              environ (lit "R2_SHORTS_PUBLIC_URL"); environ (lit "DATABASE_URL")]
  = true ->
  create_segments (value (environ (lit "VIDEO_ID"))) probe video_info <> [] ->
  (forall output_file start_time end_time,
     cut output_file start_time end_time = true) ->
  exists r2_config,
    main isalnum environ true video_info probe cut shorts_listing connect_ok w
    = match upload_shorts_to_r2_and_db (value (environ (lit "VIDEO_ID")))
              shorts_listing video_info r2_config connect_ok w with
      | (w', Ok true) => (w', 0%Z)
      | (w', _) => (w', 1%Z)
      end.
Proof.
  intros Henv Hsegments Hcut. unfold main. rewrite Henv. cbn [negb].
  rewrite filter_fixed.
  - unfold enumerate1. rewrite length_zip_with_r_eq by now rewrite length_map, length_seq.
    destruct (create_segments _ probe video_info) as [| segment rest];
      [contradiction |]. cbn [length Nat.eqb].
    exists {| access_key := value (environ (lit "R2_SHORTS_ACCESS_KEY"));
              secret_key := value (environ (lit "R2_SHORTS_SECRET_KEY"));
              endpoint := value (environ (lit "R2_SHORTS_ENDPOINT"));
              bucket := value (environ (lit "R2_SHORTS_BUCKET"));
              public_url := value (environ (lit "R2_SHORTS_PUBLIC_URL")) |}.
    destruct (upload_shorts_to_r2_and_db _ _ _ _ _ w) as [w' [[] | e]];
      reflexivity.
  - apply forallb_forall. intros [i segment] _. apply Hcut.
Qed.

(** C4, as amended: when the duration [create_segments] works with is 0,
    it produces no segment, and [main] then ends with status 1 before the
    publish stage, as it does whenever no clip was extracted.  A failed
    probe gives duration 0, and no segment, in [create_analysis_json]; in
    [create_segments] a failed probe falls back to 60 seconds, hence to
    the one segment from 0 to 60. *)
Theorem zero_duration_is_fatal (isspace : char -> bool) (environ : Environ)
    (downloaded : bool) (video_info : VideoInfo) (probe : option Q)
    (cut : pystr -> Q -> Q -> bool) (shorts_listing : Listing)
    (connect_ok : bool) (w : World) (video_id title : pystr)
    (info : option (pystr * pystr)) (transcript : option (list TranscriptEntry)) :
  effective_duration probe video_info == 0 ->
  create_segments video_id probe video_info = []
  /\ main isalnum environ downloaded video_info probe cut shorts_listing connect_ok w
     = (w, 1%Z)
  /\ (forall cut0 : pystr -> Q -> Q -> bool,
        (forall output_file start_time end_time,
           cut0 output_file start_time end_time = false) ->
        forall video_info0 probe0,
          main isalnum environ downloaded video_info0 probe0 cut0 shorts_listing
            connect_ok w
          = (w, 1%Z))
  /\ an_segments (create_analysis_json isspace video_id None info transcript) = []
  /\ map seg_bounds
       (create_segments video_id None
          {| vi_title := title; vi_description := []; vi_duration := 0 |})
     = [(0, 60)].
Proof.
  intros HD. split; [now apply create_segments_zero |].
  split; [| split; [| split]].
  - apply main_without_clip. intros segment Hin.
    rewrite create_segments_zero in Hin by exact HD. destruct Hin.
  - intros cut0 Hcut0 video_info0 probe0. apply main_without_clip.
    intros segment _ output_file. apply Hcut0.
  - unfold create_analysis_json, analysis_segments. cbn [an_segments].
    destruct transcript as [[| entry entries] |]; reflexivity.
  - reflexivity.
Qed.

End MainFacts.

Section PipelineExamples.

Import PyStr PyNum Segmenter Naming Publisher ProcessYoutubeVideo UploadShortsToR2.
Open Scope Q_scope.

Lemma zero_duration_is_fatal_witness :
  effective_duration (Some 0)
    {| vi_title := lit "T"; vi_description := []; vi_duration := 0 |}
  == 0
  /\ create_segments (lit "abc123") (Some 0)
       {| vi_title := lit "T"; vi_description := []; vi_duration := 0 |}
     = []
  /\ main (fun _ => true) (fun _ => Some (lit "x")) true
       {| vi_title := lit "T"; vi_description := []; vi_duration := 0 |}
       (Some 0) (fun _ _ _ => true) [] true empty_world
     = (empty_world, 1%Z).
Proof.
  assert (H0 : effective_duration (Some 0)
                 {| vi_title := lit "T"; vi_description := []; vi_duration := 0 |}
               == 0) by reflexivity.
  split; [exact H0 |].
  pose proof (zero_duration_is_fatal (fun _ => true) (fun _ => false)
                (fun _ => Some (lit "x")) true
                {| vi_title := lit "T"; vi_description := []; vi_duration := 0 |}
                (Some 0) (fun _ _ _ => true) [] true empty_world
                (lit "abc123") (lit "T") None None H0) as H.
  split; [exact (proj1 H) | exact (proj1 (proj2 H))].
Defined.

(** C4, as stated, fails in [create_segments] when the probe fails: with
    duration 0 in the metadata and a probe that raises, the fallback of 60
    seconds yields one segment, not none. *)
Lemma failed_probe_yields_one_segment :
  vi_duration {| vi_title := lit "T"; vi_description := []; vi_duration := 0 |} == 0
  /\ map seg_bounds
       (create_segments (lit "abc123") None
          {| vi_title := lit "T"; vi_description := []; vi_duration := 0 |})
     = [(0, 60)]
  /\ length
       (create_segments (lit "abc123") None
          {| vi_title := lit "T"; vi_description := []; vi_duration := 0 |})
     = 1%nat.
Proof. repeat split. Qed.

(** C3 on [upload_shorts_to_r2.py]: the loop never calls
    [session.rollback()], whatever the batch holds and whatever fails.
    Of two clips, the commit of the first raises; the script does not roll
    back, so the session refuses the query for the second clip, which was
    uploaded and verified in the bucket: the script counts two failures,
    records no row and ends with status 1.  On the same failed commit
    [upload_shorts_to_r2_and_db] rolls back, publishes the second clip and
    returns [True]. *)
Theorem upload_script_skips_rollback :
  (forall (VIDEO_ID R2_PUBLIC_URL : pystr) (shorts_files : Listing) (w : World),
     exists calls,
       log (upload_all VIDEO_ID R2_PUBLIC_URL shorts_files w).1 = log w ++ calls
       /\ rollbacks calls = 0%nat)
  /\ (upload_all (lit "abc") (lit "https://cdn.example") unrolled_clips
        empty_world).2
     = Ok (0, 2)%nat
  /\ log (upload_all (lit "abc") (lit "https://cdn.example") unrolled_clips
            empty_world).1
     = [ UploadFile (lit "abc/abc_T_1.mp4"); HeadObject (lit "abc/abc_T_1.mp4");
         SessionQuery (lit "abc_T_1"); SessionAdd (lit "abc_T_1"); SessionCommit;
         UploadFile (lit "abc/abc_T_2.mp4"); HeadObject (lit "abc/abc_T_2.mp4");
         SessionQuery (lit "abc_T_2"); SessionClose ]
  /\ db (upload_all (lit "abc") (lit "https://cdn.example") unrolled_clips
           empty_world).1
     = ∅
  /\ (script
        (fun name =>
           if bool_decide (name = lit "DATABASE_URL")
           then Some (lit "postgresql://db.example/videos")
           else if bool_decide (name = lit "VIDEO_ID") then Some (lit "abc")
           else Some (lit "https://cdn.example"))
        true true (Some unrolled_clips) empty_world).2
     = 1%Z
  /\ (upload_shorts_to_r2_and_db (lit "abc") two_clips example_info example_config
        true empty_world).2
     = Ok true
  /\ log (upload_shorts_to_r2_and_db (lit "abc") two_clips example_info
            example_config true empty_world).1
     = [ SessionQuery (lit "abc_T_1"); PutObject (lit "videos/abc_T_1.mp4");
         SessionAdd (lit "abc_T_1"); SessionCommit; SessionRollback;
         SessionQuery (lit "abc_T_2"); PutObject (lit "videos/abc_T_2.mp4");
         SessionAdd (lit "abc_T_2"); SessionCommit; SessionClose ]
  /\ is_Some
       (db (upload_shorts_to_r2_and_db (lit "abc") two_clips example_info
              example_config true empty_world).1
        !! lit "abc_T_2").
Proof.
  split.
  { intros VIDEO_ID R2_PUBLIC_URL shorts_files w.
    destruct (upload_loop_total VIDEO_ID R2_PUBLIC_URL shorts_files (0, 0)%nat w)
      as (w1 & counts & calls & Hrun & _ & _ & Hlog & Hnone).
    exists (calls ++ [SessionClose]).
    unfold upload_all, mbind, M_bind. rewrite Hrun. cbn [session_close fst log].
    split; [now rewrite Hlog, app_assoc |].
    rewrite rollbacks_app. unfold rollbacks at 1.
    rewrite filter_none; [reflexivity |].
    intros c Hc. destruct c; try reflexivity. now destruct Hnone. }
  split; [vm_compute; reflexivity |].
  split; [vm_compute; reflexivity |].
  split; [vm_compute; reflexivity |].
  split; [vm_compute; reflexivity |].
  split; [vm_compute; reflexivity |].
  split; [vm_compute; reflexivity |].
  vm_compute. eexists. reflexivity.
Qed.

(** On the clip that is already published, [upload_shorts_to_r2_and_db]
    only queries: no upload, the row as it was. *)
Example publisher_skips_published_clip :
  log (upload_shorts_to_r2_and_db (lit "abc") [(lit "abc_T_1.mp4", no_faults 200)]
         example_info example_config true published_world).1
  = [SessionQuery (lit "abc_T_1"); SessionClose]
  /\ db (upload_shorts_to_r2_and_db (lit "abc") [(lit "abc_T_1.mp4", no_faults 200)]
           example_info example_config true published_world).1
       !! lit "abc_T_1"
     = Some published_row.
Proof. split; vm_compute; reflexivity. Qed.

(** The whole script on a clip whose [head_object] check fails: status 0,
    and an empty table. *)
Example script_reports_unrecorded_clip :
  script
    (fun name =>
       if bool_decide (name = lit "DATABASE_URL")
       then Some (lit "postgresql://db.example/videos")
       else if bool_decide (name = lit "VIDEO_ID") then Some (lit "abc")
       else Some (lit "https://cdn.example"))
    true true
    (Some [(lit "abc_T_1.mp4",
            {| upload_fault := None; head_fault := Some ClientError;
               query_fault := None; commit_fault := None; utcnow := 100 |})])
    empty_world
  = ({| db := ∅; pending := ∅;
        log := [ UploadFile (lit "abc/abc_T_1.mp4");
                 HeadObject (lit "abc/abc_T_1.mp4"); SessionClose ] |},
     0%Z).
Proof. vm_compute. reflexivity. Qed.

End PipelineExamples.

(** * Further properties *)

(** * Further properties *)

(** ** The Segmenter: which durations, which numbers, which entries *)

Section SegmenterMore.

Import PyStr PyNum Segmenter Fetcher.
Open Scope Q_scope.

Lemma range_nil_iff (n : Z) : range n = [] <-> (n <= 0)%Z.
Proof.
  split; [| apply range_nonpos].
  intros H. destruct (Z.le_gt_cases n 0) as [Hn | Hn]; [exact Hn |].
  assert (Hin : In 0%Z (range n)) by (apply range_In; lia).
  rewrite H in Hin. destruct Hin.
Qed.

Lemma capped_count_pos_iff (D : Q) :
  (Z.min (Qfloor (D / 60)) 10 <= 0)%Z <-> D < 60.
Proof.
  pose proof (floor_div_60 D 1) as H. change (inject_Z (1 * 60)) with 60 in H.
  split.
  - intros Hn. apply Qnot_le_lt. intros HD. apply H in HD. lia.
  - intros HD. destruct (Z.le_gt_cases (Qfloor (D / 60)) 0) as [Hf | Hf]; [lia |].
    assert (60 <= D) by (apply H; lia). lra.
Qed.

Lemma map_nil_iff {A B} (f : A -> B) (l : list A) : map f l = [] <-> l = [].
Proof. destruct l; split; intros H; try reflexivity; discriminate. Qed.

(** X1: both segmenters produce no segment exactly when the duration is below
    one window of 60 seconds, negative durations included;
    [create_analysis_json] needs a non-empty transcript besides. *)
Theorem no_segment_below_one_window (isspace : char -> bool) (video_id title : pystr)
    (probe : option Q) (video_info : VideoInfo) (D : Q)
    (entry : TranscriptEntry) (entries : list TranscriptEntry) :
  (create_segments video_id probe video_info = []
   <-> effective_duration probe video_info < 60)
  /\ (analysis_segments isspace title D (Some (entry :: entries)) = [] <-> D < 60).
Proof.
  split.
  - rewrite <- (map_nil_iff seg_bounds), create_segments_bounds, map_nil_iff,
      range_nil_iff, num_segments_of_eq. apply capped_count_pos_iff.
  - rewrite <- (map_nil_iff as_bounds), analysis_segments_bounds, map_nil_iff,
      range_nil_iff. apply capped_count_pos_iff.
Qed.

Lemma nth_error_map_some {A B} (f : A -> B) (l : list A) (i : nat) (y : B) :
  nth_error (map f l) i = Some y -> exists x, nth_error l i = Some x /\ f x = y.
Proof.
  rewrite nth_error_map. destruct (nth_error l i) as [x |]; [| discriminate].
  intros [= <-]. now exists x.
Qed.

Lemma range_nth (n : Z) (i : nat) (k : Z) :
  nth_error (range n) i = Some k -> k = Z.of_nat i /\ (Z.of_nat i < n)%Z.
Proof.
  unfold range. intros H. apply nth_error_map_some in H as (j & Hj & <-).
  assert (Hlt : (i < length (seq 0 (Z.to_nat n)))%nat)
    by (apply nth_error_Some; congruence).
  rewrite length_seq in Hlt.
  rewrite nth_error_seq in Hj.
  destruct (Nat.ltb_spec i (Z.to_nat n)); [| lia].
  injection Hj as <-. split; [reflexivity | lia].
Qed.

(** X2: the [i]-th segment of [create_segments], counted from 0, made from
    what [get_video_info] read, starts at [60 * i], is titled with the
    title of the info file, or with the video identifier when the file or
    its title is missing, followed by [Part i+1], and is described as
    [Part i+1 of n], where [n] is the number of segments produced. *)
Theorem segments_are_numbered (video_id : pystr) (info_file : option InfoJson)
    (probe : option Q) (i : nat) (segment : Segment) :
  nth_error (create_segments video_id probe (get_video_info video_id info_file)) i
  = Some segment ->
  seg_start segment = inject_Z (Z.of_nat i * 60)
  /\ seg_title segment
     = default video_id (info_file ≫= info_title)
         ++ lit " - Part " ++ str_int (Z.of_nat i + 1)
  /\ seg_description segment
     = lit "Part " ++ str_int (Z.of_nat i + 1) ++ lit " of "
         ++ str_int
              (Z.of_nat
                 (length
                    (create_segments video_id probe
                       (get_video_info video_id info_file)))).
Proof.
  intros Hnth.
  assert (Hlen : (0 < num_segments_of
                        (effective_duration probe (get_video_info video_id info_file)))%Z
                 -> Z.of_nat (length (create_segments video_id probe
                                        (get_video_info video_id info_file)))
                    = num_segments_of
                        (effective_duration probe (get_video_info video_id info_file))).
  { intros Hpos. unfold create_segments. rewrite length_map. apply range_length. lia. }
  unfold create_segments in Hnth.
  apply nth_error_map_some in Hnth as (k & Hk & <-).
  apply range_nth in Hk as [-> Hi].
  rewrite Hlen by lia.
  unfold make_segment. cbn [seg_start seg_title seg_description].
  split; [reflexivity |]. split; [| reflexivity].
  destruct info_file as [info |]; reflexivity.
Qed.

Lemma segments_are_numbered_witness :
  nth_error
    (create_segments (lit "abc123") None
       (get_video_info (lit "abc123")
          (Some {| info_title := None; info_description := None;
                   info_duration := Some 185 |})))
    2
  = Some (make_segment (lit "abc123") 185 3 2)
  /\ seg_title (make_segment (lit "abc123") 185 3 2) = lit "abc123 - Part 3"
  /\ seg_description (make_segment (lit "abc123") 185 3 2) = lit "Part 3 of 3".
Proof.
  assert (H : nth_error
                (create_segments (lit "abc123") None
                   (get_video_info (lit "abc123")
                      (Some {| info_title := None; info_description := None;
                               info_duration := Some 185 |})))
                2
              = Some (make_segment (lit "abc123") 185 3 2)) by reflexivity.
  split; [exact H |].
  destruct (segments_are_numbered _ _ _ _ _ H) as (_ & Htitle & Hdescr).
  split; [rewrite Htitle | rewrite Hdescr]; vm_compute; reflexivity.
Defined.

Lemma in_window_true (start end_ : Q) (entry : TranscriptEntry) :
  in_window start end_ entry = true <-> start <= te_start entry /\ te_start entry < end_.
Proof.
  unfold in_window. rewrite andb_true_iff, negb_true_iff, Qle_bool_iff.
  split; intros [H1 H2]; split; trivial.
  - apply Qnot_le_lt. intros H. apply Qle_bool_iff in H. congruence.
  - destruct (Qle_bool end_ (te_start entry)) eqn:E; [| reflexivity].
    apply Qle_bool_iff in E. lra.
Qed.

Lemma in_full_window_iff (t : Q) (i : Z) :
  (full_window i).1 <= t /\ t < (full_window i).2 <-> i = Qfloor (t / 60).
Proof.
  unfold full_window, segment_duration. cbn [fst snd].
  replace (i * 60 + 60)%Z with ((i + 1) * 60)%Z by lia.
  pose proof (floor_div_60 t i) as Hi. pose proof (floor_div_60 t (i + 1)) as Hi1.
  split.
  - intros [Hlo Hhi]. apply Hi in Hlo.
    assert (~ (i + 1 <= Qfloor (t / 60))%Z) by (intros H; apply Hi1 in H; lra).
    lia.
  - intros ->. split.
    + apply floor_div_60. lia.
    + apply Qnot_le_lt. intros H. apply floor_div_60 in H. lia.
Qed.

(** X3: a transcript entry is taken into the description of one window only,
    the one numbered [floor(start / 60)]; when that number is negative or
    not below the number of segments, the cap of 10 included, the entry is
    in no description at all. *)
Theorem entry_goes_to_one_window (isspace : char -> bool) (title : pystr) (D : Q)
    (first : TranscriptEntry) (others : list TranscriptEntry)
    (entry : TranscriptEntry) (segment : AnalysisSegment) :
  In segment (analysis_segments isspace title D (Some (first :: others))) ->
  (in_window (as_start segment) (as_end segment) entry = true
   <-> as_start segment = inject_Z (Qfloor (te_start entry / 60) * segment_duration))
  /\ ((exists other,
          In other (analysis_segments isspace title D (Some (first :: others)))
          /\ in_window (as_start other) (as_end other) entry = true)
      <-> (0 <= Qfloor (te_start entry / 60) < Z.min (Qfloor (D / 60)) 10)%Z).
Proof.
  intros Hseg.
  assert (Hbounds : forall s,
             In s (analysis_segments isspace title D (Some (first :: others))) ->
             exists i, (0 <= i < Z.min (Qfloor (D / 60)) 10)%Z
                       /\ as_bounds s = full_window i).
  { intros s Hs. apply (in_map as_bounds) in Hs.
    rewrite analysis_segments_bounds in Hs.
    apply in_map_iff in Hs as (i & Hi & Hr). apply range_In in Hr. now exists i. }
  assert (Hone : forall s i, as_bounds s = full_window i ->
             (in_window (as_start s) (as_end s) entry = true
              <-> i = Qfloor (te_start entry / 60))).
  { intros s i Hs. rewrite in_window_true.
    change (as_start s) with (as_bounds s).1. change (as_end s) with (as_bounds s).2.
    rewrite Hs. apply in_full_window_iff. }
  split.
  - destruct (Hbounds segment Hseg) as (i & Hi & Hb). rewrite (Hone segment i Hb).
    change (as_start segment) with (as_bounds segment).1. rewrite Hb.
    unfold full_window, segment_duration. cbn [fst]. split; [now intros -> |].
    intros H. apply (Z.mul_cancel_r _ _ 60); [lia |].
    apply inject_Z_injective. now rewrite H.
  - split.
    + intros (other & Hother & Hin). destruct (Hbounds other Hother) as (i & Hi & Hb).
      apply (Hone other i Hb) in Hin. now subst i.
    + intros Hrange.
      assert (Hw : In (full_window (Qfloor (te_start entry / 60)))
                     (map as_bounds
                        (analysis_segments isspace title D (Some (first :: others))))).
      { rewrite analysis_segments_bounds. apply in_map. now apply range_In. }
      apply in_map_iff in Hw as (other & Hb & Hother).
      exists other. split; [exact Hother |]. now apply (Hone other _ Hb).
Qed.

Lemma entry_goes_to_one_window_witness :
  In (make_analysis_segment (fun _ => false) (lit "T") 725
        [ {| te_start := 70; te_text := lit "hi" |} ] 1)
     (analysis_segments (fun _ => false) (lit "T") 725
        (Some [ {| te_start := 70; te_text := lit "hi" |} ]))
  /\ (in_window 60 120 {| te_start := 650; te_text := lit "late" |} = true
      <-> 60 = inject_Z (Qfloor (650 / 60) * segment_duration)).
Proof.
  assert (H : In (make_analysis_segment (fun _ => false) (lit "T") 725
                    [ {| te_start := 70; te_text := lit "hi" |} ] 1)
                 (analysis_segments (fun _ => false) (lit "T") 725
                    (Some [ {| te_start := 70; te_text := lit "hi" |} ])))
    by (right; left; reflexivity).
  split; [exact H |].
  exact (proj1 (entry_goes_to_one_window (fun _ => false) (lit "T") 725 _ []
                  {| te_start := 650; te_text := lit "late" |} _ H)).
Defined.

(** X4: the analysis file and the processing stage cut the same clips: when
    [create_analysis_json] has a non-empty transcript, measures the
    duration [create_segments] works with and reads the same title, its
    segments have the windows and the titles of the segments of
    [create_segments], one for one. *)
Theorem segmenters_agree (isspace : char -> bool) (video_id : pystr)
    (probe : option Q) (video_info : VideoInfo) (info : option (pystr * pystr))
    (D : Q) (first : TranscriptEntry) (others : list TranscriptEntry) :
  effective_duration probe video_info = D ->
  vi_title video_info = match info with Some (t, _) => t | None => video_id end ->
  map as_bounds
    (an_segments
       (create_analysis_json isspace video_id (Some D) info (Some (first :: others))))
  = map seg_bounds (create_segments video_id probe video_info)
  /\ map as_title
       (an_segments
          (create_analysis_json isspace video_id (Some D) info (Some (first :: others))))
     = map seg_title (create_segments video_id probe video_info).
Proof.
  intros HD Htitle. unfold create_analysis_json. cbn [an_segments]. split.
  - rewrite analysis_segments_bounds, create_segments_bounds, num_segments_of_eq.
    now rewrite HD.
  - unfold analysis_segments, create_segments. rewrite HD, num_segments_of_eq, <- Htitle.
    rewrite py_int_floordiv.
    destruct (Qle_bool D 0) eqn:Hle.
    + apply Qle_bool_iff in Hle. rewrite range_nonpos; [reflexivity |].
      apply capped_count_pos_iff. lra.
    + rewrite !map_map. reflexivity.
Qed.

Lemma segmenters_agree_witness :
  map as_bounds
    (an_segments
       (create_analysis_json (fun _ => false) (lit "abc123") (Some 185)
          (Some (lit "T", []))
          (Some [ {| te_start := 70; te_text := lit "hi" |} ])))
  = map seg_bounds
      (create_segments (lit "abc123") (Some 185)
         {| vi_title := lit "T"; vi_description := []; vi_duration := 0 |}).
Proof.
  exact (proj1 (segmenters_agree (fun _ => false) (lit "abc123") (Some 185)
                  {| vi_title := lit "T"; vi_description := []; vi_duration := 0 |}
                  (Some (lit "T", [])) 185
                  {| te_start := 70; te_text := lit "hi" |} [] eq_refl eq_refl)).
Defined.

End SegmenterMore.

(** ** File names of the clips *)

Section NamingMore.

Import PyStr PyNum Segmenter Naming Publisher ProcessYoutubeVideo ClipExtractor.

Variable isalnum : char -> bool.

Lemma lstrip_head (p : char -> bool) (s : pystr) (c : char) :
  head (lstrip p s) = Some c -> p c = false.
Proof.
  induction s as [| d s IH]; [discriminate |].
  cbn [lstrip]. destruct (p d) eqn:Hd; [exact IH |].
  cbn. intros [= <-]. exact Hd.
Qed.

Lemma rstrip_fixed_last (p : char -> bool) (s : pystr) (c : char) :
  rstrip p s = s -> last s = Some c -> p c = false.
Proof.
  intros Hfix Hlast.
  destruct (exists_last (l := s)) as (s' & d & ->).
  { intros ->. discriminate. }
  rewrite last_snoc in Hlast. injection Hlast as ->.
  destruct (p c) eqn:Hc; [| reflexivity].
  rewrite (rstrip_snoc p _ _ Hc) in Hfix.
  pose proof (rstrip_length p s') as Hlen. rewrite Hfix in Hlen.
  rewrite length_app in Hlen. cbn in Hlen. lia.
Qed.

Lemma strip_rstrip_fixed (p : char -> bool) (s : pystr) :
  rstrip p (strip p s) = strip p s.
Proof.
  unfold strip.
  destruct (lstrip_suffix p (rstrip p s)) as (pre & Hs & _).
  set (z := lstrip p (rstrip p s)) in *.
  unfold rstrip at 1. rewrite <- (rev_involutive z) at 2. f_equal.
  apply (lstrip_fixed_prefix p _ (rev pre)).
  rewrite <- rev_app_distr, <- Hs. unfold rstrip.
  now rewrite rev_involutive, lstrip_idem.
Qed.

(** X5: whatever the title, [sanitize_filename] returns only characters that
    are alphanumeric, an underscore or a hyphen, and neither its first
    nor its last character is an underscore. *)
Theorem sanitize_filename_shape (title : pystr) (max_length : nat) :
  Forall (fun c => isalnum c = true \/ c = underscore \/ c = hyphen)
    (sanitize_filename isalnum title max_length)
  /\ head (sanitize_filename isalnum title max_length) <> Some underscore
  /\ last (sanitize_filename isalnum title max_length) <> Some underscore.
Proof.
  split; [| split].
  - apply List.Forall_forall. intros c Hc.
    pose proof (sanitize_chars_clean isalnum title max_length) as Hclean.
    rewrite forallb_forall in Hclean. apply Hclean in Hc.
    unfold clean, keep_char in Hc.
    apply andb_true_iff in Hc as [_ Hc].
    apply orb_true_iff in Hc as [Hc | Hc]; [apply orb_true_iff in Hc as [Hc | Hc] |].
    + now left.
    + right; left. now apply N.eqb_eq.
    + right; right. now apply N.eqb_eq.
  - intros H. unfold sanitize_filename, strip in H.
    apply (lstrip_head (fun c => N.eqb c underscore)) in H. discriminate.
  - intros H. unfold sanitize_filename in H.
    apply (rstrip_fixed_last (fun c => N.eqb c underscore)) in H;
      [discriminate | apply strip_rstrip_fixed].
Qed.

(** *** Decimal numerals *)

Lemma uint_codes_inj (u u' : Decimal.uint) : uint_codes u = uint_codes u' -> u = u'.
Proof.
  revert u'. induction u; intros u' H; destruct u'; cbn in H;
    try discriminate; try reflexivity; injection H as H; f_equal; now apply IHu.
Qed.

Lemma uint_codes_digits (u : Decimal.uint) (c : char) :
  In c (uint_codes u) -> (48 <= c <= 57)%N.
Proof.
  induction u; cbn [uint_codes In]; intros H; [destruct H | ..];
    (destruct H as [<- | H]; [unfold digit_code; lia | now apply IHu]).
Qed.

Lemma str_int_inj (z z' : Z) : str_int z = str_int z' -> z = z'.
Proof.
  unfold str_int. intros H.
  rewrite <- (DecimalZ.of_to z), <- (DecimalZ.of_to z').
  destruct (Z.to_int z) as [u | u], (Z.to_int z') as [u' | u'].
  - apply uint_codes_inj in H. now subst.
  - exfalso. assert (Hin : In minus_sign (uint_codes u)) by (rewrite H; now left).
    apply uint_codes_digits in Hin. unfold minus_sign in Hin. lia.
  - exfalso. assert (Hin : In minus_sign (uint_codes u')) by (rewrite <- H; now left).
    apply uint_codes_digits in Hin. unfold minus_sign in Hin. lia.
  - injection H as H. apply uint_codes_inj in H. now subst.
Qed.

Lemma str_int_chars (z : Z) (c : char) :
  In c (str_int z) -> c = minus_sign \/ (48 <= c <= 57)%N.
Proof.
  unfold str_int. destruct (Z.to_int z) as [u | u].
  - intros H. right. now apply uint_codes_digits in H.
  - intros [<- | H]; [now left | right; now apply uint_codes_digits in H].
Qed.

(** *** Splitting at a separator *)

Lemma split_at_first {A} (c : A) (x x' y y' : list A) :
  ~ In c x -> ~ In c x' -> x ++ c :: y = x' ++ c :: y' -> x = x' /\ y = y'.
Proof.
  revert x'. induction x as [| a x IH]; intros x' Hx Hx' H.
  - destruct x' as [| a' x']; cbn in H.
    + injection H as H. now split.
    + injection H as H _. subst a'. exfalso. apply Hx'. now left.
  - destruct x' as [| a' x']; cbn in H.
    + injection H as H _. subst a. exfalso. apply Hx. now left.
    + injection H as Ha H. subst a'.
      assert (Hrec : x = x' /\ y = y').
      { apply IH; [| | exact H].
        - intros Hin. apply Hx. now right.
        - intros Hin. apply Hx'. now right. }
      destruct Hrec as [-> ->]. now split.
Qed.

Lemma split_at_last {A} (c : A) (x x' y y' : list A) :
  ~ In c y -> ~ In c y' -> x ++ c :: y = x' ++ c :: y' -> x = x' /\ y = y'.
Proof.
  intros Hy Hy' H. apply (f_equal (@rev A)) in H.
  rewrite !rev_app_distr in H. cbn [rev] in H. rewrite <- !app_assoc in H.
  cbn [app] in H.
  apply split_at_first in H as [H1 H2]; try (rewrite <- in_rev; assumption).
  apply (f_equal (@rev A)) in H1, H2. rewrite !rev_involutive in H1, H2.
  now split.
Qed.

Lemma output_filename_index (video_id : pystr) (segment segment' : Segment) (i i' : Z) :
  output_filename isalnum video_id segment i
  = output_filename isalnum video_id segment' i' ->
  i = i'.
Proof.
  unfold output_filename. intros H.
  apply app_inv_head in H.
  change (lit "_") with [underscore] in H. cbn [app] in H. injection H as H.
  assert (Hassoc : forall a d m : pystr,
             a ++ underscore :: d ++ m = (a ++ underscore :: d) ++ m)
    by (intros; now rewrite <- app_assoc).
  rewrite !Hassoc in H.
  apply app_inv_tail in H.
  assert (Hnum : forall z, ~ In underscore (str_int z)).
  { intros z Hin. apply str_int_chars in Hin as [Hin | Hin];
      unfold underscore, minus_sign in *; [discriminate | lia]. }
  apply split_at_last in H as [_ H]; [| apply Hnum | apply Hnum].
  now apply str_int_inj.
Qed.

Lemma is_prefix_app (p x : pystr) : is_prefix p (p ++ x) = true.
Proof.
  induction p as [| c p IH]; [reflexivity |].
  cbn. now rewrite N.eqb_refl.
Qed.

Lemma endswith_app (x s : pystr) : endswith (x ++ s) s = true.
Proof. unfold endswith. rewrite rev_app_distr. apply is_prefix_app. Qed.

Lemma output_filename_affixes (video_id : pystr) (segment : Segment) (i : Z) :
  startswith (output_filename isalnum video_id segment i) video_id = true
  /\ endswith (output_filename isalnum video_id segment i) (lit ".mp4") = true.
Proof.
  unfold output_filename. split.
  - apply is_prefix_app.
  - rewrite !app_assoc. apply endswith_app.
Qed.

(** The clips of indices [a+1], [a+2], ... *)
Lemma clip_names_from (video_id : pystr) (segments : list Segment) (a : nat) :
  List.NoDup
    (map (fun '(i, segment) => output_filename isalnum video_id segment i)
       (zip (map (fun i => Z.of_nat (S i)) (seq a (length segments))) segments))
  /\ forall name,
       In name
         (map (fun '(i, segment) => output_filename isalnum video_id segment i)
            (zip (map (fun i => Z.of_nat (S i)) (seq a (length segments))) segments)) ->
       exists i segment,
         (a < i)%nat /\ In segment segments
         /\ name = output_filename isalnum video_id segment (Z.of_nat i).
Proof.
  revert a. induction segments as [| segment segments IH]; intros a.
  - split; [constructor | intros name []].
  - cbn [length seq map zip zip_with].
    destruct (IH (S a)) as [Hnodup Hnames]. split.
    + constructor; [| exact Hnodup].
      intros Hin. apply Hnames in Hin as (i & segment' & Hi & _ & Heq).
      apply output_filename_index in Heq. lia.
    + intros name [<- | Hin].
      * exists (S a), segment. split; [lia |]. split; [now left | reflexivity].
      * apply Hnames in Hin as (i & segment' & Hi & Hseg & Heq).
        exists i, segment'. split; [lia |]. split; [now right | exact Heq].
Qed.

(** X6: the files [main] of process_youtube_video.py writes in one run have
    pairwise different names, one per segment, whatever the titles; every
    name starts with the video identifier and ends with [.mp4], so each is
    among the files that either publisher picks from the directory. *)
Theorem clip_names_distinct (video_id : pystr) (segments : list Segment) :
  List.NoDup (clip_names isalnum video_id segments)
  /\ length (clip_names isalnum video_id segments) = length segments
  /\ Forall (fun name => startswith name video_id = true
                         /\ endswith name (lit ".mp4") = true)
       (clip_names isalnum video_id segments).
Proof.
  unfold clip_names, enumerate1. split; [| split].
  - apply (clip_names_from video_id segments 0).
  - rewrite length_map, length_zip, length_map, length_seq. lia.
  - apply List.Forall_forall. intros name Hin.
    apply (clip_names_from video_id segments 0) in Hin as (i & segment & _ & _ & ->).
    apply output_filename_affixes.
Qed.

(** *** The identifiers of the clips *)

Lemma replace_suffix (x : pystr) :
  ~ In OsPath.extsep x -> replace (lit ".mp4") [] (x ++ lit ".mp4") = x.
Proof.
  unfold replace. induction x as [| c x IH]; intros Hx; [vm_compute; reflexivity |].
  cbn [app replace_from].
  assert (Hc : is_prefix (lit ".mp4") (c :: x ++ lit ".mp4") = false).
  { change (lit ".mp4") with [OsPath.extsep; 109; 112; 52]%N at 1.
    cbn [is_prefix]. destruct (N.eqb_spec OsPath.extsep c) as [<- | _]; [| reflexivity].
    exfalso. apply Hx. now left. }
  rewrite Hc. f_equal. apply IH. intros H. apply Hx. now right.
Qed.

Lemma output_filename_stem (video_id : pystr) (segment : Segment) (i : Z) :
  ~ In OsPath.extsep video_id ->
  isalnum OsPath.extsep = false ->
  short_id (output_filename isalnum video_id segment i)
  = video_id ++ lit "_"
      ++ sanitize_filename isalnum (seg_title segment) default_max_length
      ++ lit "_" ++ str_int i.
Proof.
  intros Hid Halnum. unfold short_id, output_filename.
  rewrite !(app_assoc _ _ (lit ".mp4")), <- !app_assoc.
  rewrite !app_assoc. apply replace_suffix. rewrite <- !app_assoc.
  rewrite !in_app_iff. intros [H | [H | [H | [H | H]]]].
  - now apply Hid.
  - vm_compute in H. intuition discriminate.
  - pose proof (sanitize_chars_clean isalnum (seg_title segment) default_max_length)
      as Hclean.
    rewrite forallb_forall in Hclean. apply Hclean in H.
    unfold clean, keep_char in H. rewrite Halnum in H.
    apply andb_true_iff in H as [_ H]. vm_compute in H. discriminate.
  - vm_compute in H. intuition discriminate.
  - apply str_int_chars in H as [H | H]; unfold OsPath.extsep, minus_sign in *;
      [discriminate | lia].
Qed.

(** X7: when the video identifier holds no full stop (and a full stop is
    not alphanumeric), the identifier a clip is published under is its
    file name without [.mp4], and the clips of one run are published under
    pairwise different identifiers, so that no clip of a run takes the
    row of another. *)
Theorem clip_ids_distinct (video_id : pystr) (segments : list Segment) :
  ~ In OsPath.extsep video_id ->
  isalnum OsPath.extsep = false ->
  Forall (fun name => short_id name ++ lit ".mp4" = name)
    (clip_names isalnum video_id segments)
  /\ List.NoDup (map short_id (clip_names isalnum video_id segments)).
Proof.
  intros Hid Halnum.
  assert (Hstem : forall name, In name (clip_names isalnum video_id segments) ->
                    short_id name ++ lit ".mp4" = name).
  { intros name Hin. unfold clip_names, enumerate1 in Hin.
    apply (clip_names_from video_id segments 0) in Hin as (i & segment & _ & _ & ->).
    rewrite output_filename_stem by assumption.
    unfold output_filename. now rewrite <- !app_assoc. }
  split; [now apply List.Forall_forall |].
  assert (Hnodup : List.NoDup (clip_names isalnum video_id segments))
    by apply (clip_names_from video_id segments 0).
  revert Hstem Hnodup. generalize (clip_names isalnum video_id segments).
  intros names Hstem. induction 1 as [| name names Hname Hnames IH]; [constructor |].
  cbn [map]. constructor.
  - intros Hin. apply in_map_iff in Hin as (name' & Heq & Hin).
    apply Hname.
    rewrite <- (Hstem name) by now left.
    rewrite <- Heq, (Hstem name') by now right. exact Hin.
  - apply IH. intros name' Hin. apply Hstem. now right.
Qed.

End NamingMore.

Section NamingMoreExamples.

Import PyStr PyNum Segmenter Naming Publisher ProcessYoutubeVideo ClipExtractor.

Lemma clip_ids_distinct_witness :
  map short_id
    (clip_names (fun c => negb (N.eqb c OsPath.extsep)) (lit "abc")
       (create_segments (lit "abc") None
          {| vi_title := lit "T"; vi_description := []; vi_duration := 125 |}))
  = [lit "abc_T_-_Part_1_1"; lit "abc_T_-_Part_2_2"]
  /\ List.NoDup
       (map short_id
          (clip_names (fun c => negb (N.eqb c OsPath.extsep)) (lit "abc")
             (create_segments (lit "abc") None
                {| vi_title := lit "T"; vi_description := []; vi_duration := 125 |}))).
Proof.
  split; [vm_compute; reflexivity |].
  apply (clip_ids_distinct (fun c => negb (N.eqb c OsPath.extsep)) (lit "abc")).
  - vm_compute. intuition discriminate.
  - reflexivity.
Defined.

End NamingMoreExamples.

(** ** The ffmpeg command *)

Section CutCommandFacts.

Import PyStr PyNum Segmenter Naming Subprocess ClipExtractor.
Open Scope Q_scope.

(** X9: for every segment [create_segments] produces, [cut_video_segment]
    runs ffmpeg with a seek position [-ss] of [00:0i:00.000], [i] being
    the number of the segment counted from 0 and at most 9, and a length
    [-t] of exactly one minute, re-encoding with libx264 and aac and
    overwriting the output file. *)
Theorem cut_command_of_a_segment (video_id : pystr) (probe : option Q)
    (video_info : VideoInfo) (input_file output_file : pystr) (segment : Segment) :
  In segment (create_segments video_id probe video_info) ->
  exists i,
    (0 <= i < 10)%Z
    /\ seg_start segment = inject_Z (i * 60)
    /\ cut_command input_file output_file (seg_start segment) (seg_end segment)
       = [ lit "ffmpeg"; lit "-ss"; lit "00:0" ++ str_int i ++ lit ":00.000";
           lit "-i"; input_file;
           lit "-t"; lit "00:01:00.000";
           lit "-c:v"; lit "libx264"; lit "-c:a"; lit "aac";
           lit "-preset"; lit "fast"; lit "-crf"; lit "23";
           lit "-y"; output_file ].
Proof.
  intros Hin. apply (in_map seg_bounds) in Hin.
  rewrite create_segments_bounds in Hin.
  apply in_map_iff in Hin as (i & Hb & Hi). apply range_In in Hi.
  rewrite num_segments_of_eq in Hi.
  assert (Hi10 : (0 <= i < 10)%Z) by lia.
  exists i. split; [exact Hi10 |].
  unfold full_window, segment_duration in Hb.
  destruct segment as [start end_ title description].
  unfold seg_bounds in Hb. cbn [seg_start seg_end] in *.
  injection Hb as Hstart Hend. subst start end_.
  split; [reflexivity |].
  unfold cut_command.
  assert (Hcases : (i = 0 \/ i = 1 \/ i = 2 \/ i = 3 \/ i = 4 \/ i = 5 \/ i = 6
                    \/ i = 7 \/ i = 8 \/ i = 9)%Z) by lia.
  destruct Hcases
    as [-> | [-> | [-> | [-> | [-> | [-> | [-> | [-> | [-> | ->]]]]]]]]];
    vm_compute; reflexivity.
Qed.

Lemma cut_command_of_a_segment_witness :
  exists i,
    (0 <= i < 10)%Z
    /\ 120 = inject_Z (i * 60)
    /\ cut_command (lit "in.mp4") (lit "out.mp4") 120 180
       = [ lit "ffmpeg"; lit "-ss"; lit "00:0" ++ str_int i ++ lit ":00.000";
           lit "-i"; lit "in.mp4";
           lit "-t"; lit "00:01:00.000";
           lit "-c:v"; lit "libx264"; lit "-c:a"; lit "aac";
           lit "-preset"; lit "fast"; lit "-crf"; lit "23";
           lit "-y"; lit "out.mp4" ].
Proof.
  apply (cut_command_of_a_segment (lit "abc123") None
           {| vi_title := lit "T"; vi_description := []; vi_duration := 185 |}
           (lit "in.mp4") (lit "out.mp4")
           (make_segment (lit "T") 185 3 2)).
  right; right; left. reflexivity.
Defined.

End CutCommandFacts.

(** ** The publisher of process_youtube_video.py, row by row *)

Section PublisherMore.

Import PyStr PyNum Segmenter Naming Publisher ProcessYoutubeVideo Rows.

Variable video_info : VideoInfo.
Variable r2_config : R2Config.

Ltac run_short :=
  unfold upload_short, short_id, try_except, external, session_query,
    session_set, session_add, session_commit, session_rollback, session_close,
    logged, mbind, M_bind, mret, M_ret;
  cbn [fst snd db pending log upload_fault head_fault query_fault
       commit_fault utcnow mbind M_bind mret M_ret].

Lemma put_object_keys_In (key : pystr) (calls : list call) :
  In key (put_object_keys calls) <-> In (PutObject key) calls.
Proof.
  induction calls as [| c calls IH]; [reflexivity |].
  destruct c; cbn; rewrite ?IH; intuition congruence.
Qed.

Lemma singleton_union_insert (table : gmap pystr Video) (id : pystr) (v : Video) :
  <[id := v]> ∅ ∪ table = <[id := v]> table.
Proof. now rewrite insert_empty, <- insert_union_singleton_l. Qed.

Lemma recorded_row_published (item : pystr * Faults) (existing : option Video) :
  truthy (Video.r2_url (recorded_row video_info r2_config item existing)) = true.
Proof.
  unfold recorded_row. destruct existing; cbn [Video.r2_url with_r2];
    destruct (public_url r2_config); reflexivity.
Qed.

(** What [upload_short] does to one file, from a session with nothing
    pending: the query raises, or the file is skipped, or the attempt
    fails and is rolled back, or the row is committed. *)
Lemma upload_short_outcome (item : pystr * Faults) (uploaded : nat) (w : World) :
  pending w = ∅ ->
  (exists e,
      query_fault item.2 = Some e
      /\ upload_short video_info r2_config item uploaded w
         = ({| db := db w; pending := ∅;
               log := log w ++ [SessionQuery (short_id item.1)] |}, Raised e))
  \/ (query_fault item.2 = None
      /\ published (db w) (short_id item.1)
      /\ upload_short video_info r2_config item uploaded w
         = ({| db := db w; pending := ∅;
               log := log w ++ [SessionQuery (short_id item.1)] |}, Ok uploaded))
  \/ (query_fault item.2 = None
      /\ ~ published (db w) (short_id item.1)
      /\ goes_through item = false
      /\ exists calls,
           upload_short video_info r2_config item uploaded w
           = ({| db := db w; pending := ∅; log := log w ++ calls |}, Ok uploaded)
           /\ put_object_keys calls = [lit "videos/" ++ item.1]
           /\ rollbacks calls = 1%nat)
  \/ (query_fault item.2 = None
      /\ ~ published (db w) (short_id item.1)
      /\ goes_through item = true
      /\ exists calls,
           upload_short video_info r2_config item uploaded w
           = ({| db := <[short_id item.1
                         := recorded_row video_info r2_config item
                              (db w !! short_id item.1)]> (db w);
                 pending := ∅; log := log w ++ calls |}, Ok (S uploaded))
           /\ put_object_keys calls = [lit "videos/" ++ item.1]
           /\ rollbacks calls = 0%nat).
Proof.
  intros Hpending.
  destruct item as [filename [up head query commit now]].
  pose proof (already_uploaded_published (db w) (short_id filename)) as Hpub.
  unfold goes_through, recorded_row. cbn [fst snd upload_fault commit_fault
    query_fault utcnow].
  unfold short_id in *. run_short.
  rewrite Hpending, (left_id_L ∅ (∪)).
  destruct query as [e |]; cbn [fst snd db pending log].
  { left. exists e. now split. }
  right.
  destruct (already_uploaded (db w !! replace (lit ".mp4") [] filename)) eqn:Hskip.
  { left. split; [reflexivity |]. split; [now apply Hpub | reflexivity]. }
  right.
  assert (Hnot : ~ published (db w) (replace (lit ".mp4") [] filename)).
  { intros H. apply Hpub in H. congruence. }
  destruct up as [e |]; cbn [fst snd db pending log].
  { left. split; [reflexivity |]. split; [exact Hnot |]. split; [reflexivity |].
    eexists. split; [rewrite <- !app_assoc; reflexivity |]. now split. }
  destruct (db w !! replace (lit ".mp4") [] filename) as [v0 |] eqn:Hrow;
    cbn [fst snd db pending log];
    destruct commit as [e |]; cbn [fst snd db pending log];
    [left | right | left | right];
    (split; [reflexivity |]); (split; [exact Hnot |]); (split; [reflexivity |]);
    eexists; (split; [rewrite <- !app_assoc, ?singleton_union_insert; reflexivity |]);
    now split.
Qed.

(** The loop of [upload_shorts_to_r2_and_db]: rows that hold a storage URL
    stay published, and every row of the table is as before or is the row
    recorded for a file of the listing that went through. *)
Lemma publish_loop_rows (shorts : Listing) (uploaded : nat) (w : World) :
  pending w = ∅ ->
  exists w' r calls,
    for_each shorts (upload_short video_info r2_config) uploaded w = (w', r)
    /\ log w' = log w ++ calls
    /\ pending w' = ∅
    /\ (forall id, published (db w) id -> published (db w') id)
    /\ (forall id,
          db w' !! id = db w !! id
          \/ exists item,
               In item shorts
               /\ id = short_id item.1
               /\ ~ published (db w) id
               /\ goes_through item = true
               /\ db w' !! id
                  = Some (recorded_row video_info r2_config item (db w !! id))
               /\ In (lit "videos/" ++ item.1) (put_object_keys calls)).
Proof.
  revert uploaded w. induction shorts as [| item rest IH]; intros uploaded w Hpending.
  - exists w, (Ok uploaded), []. cbn. rewrite app_nil_r. repeat split; auto.
  - cbn [for_each]. unfold mbind, M_bind at 1.
    destruct (upload_short_outcome item uploaded w Hpending)
      as [(e & Hq & Hrun) | [(Hq & Hpub & Hrun) | [(Hq & Hnot & Hgo & calls1 & Hrun & Hkeys & Hroll)
         | (Hq & Hnot & Hgo & calls1 & Hrun & Hkeys & Hroll)]]];
      rewrite Hrun.
    + eexists _, _, _. split; [reflexivity |]. cbn [db pending log].
      repeat split; auto.
    + match goal with
      | |- context [for_each rest _ uploaded ?w1] =>
          destruct (IH uploaded w1 eq_refl)
            as (w2 & r2 & calls2 & Hrun2 & Hlog2 & Hpend2 & Hkeep2 & Hrows2)
      end.
      cbn [db pending log] in *.
      exists w2, r2, ([SessionQuery (short_id item.1)] ++ calls2).
      split; [exact Hrun2 |]. split; [now rewrite Hlog2, app_assoc |].
      split; [exact Hpend2 |]. split; [exact Hkeep2 |].
      intros id. destruct (Hrows2 id) as [Heq | (item' & Hin & Hid & Hn & Hg & Hrow & Hput)];
        [now left | right].
      exists item'. repeat split; auto. now right.
    + match goal with
      | |- context [for_each rest _ uploaded ?w1] =>
          destruct (IH uploaded w1 eq_refl)
            as (w2 & r2 & calls2 & Hrun2 & Hlog2 & Hpend2 & Hkeep2 & Hrows2)
      end.
      cbn [db pending log] in *.
      exists w2, r2, (calls1 ++ calls2).
      split; [exact Hrun2 |]. split; [now rewrite Hlog2, app_assoc |].
      split; [exact Hpend2 |]. split; [exact Hkeep2 |].
      intros id. destruct (Hrows2 id) as [Heq | (item' & Hin & Hid & Hn & Hg & Hrow & Hput)];
        [now left | right].
      exists item'. repeat split; auto; [now right |].
      unfold put_object_keys. rewrite omap_app. apply in_or_app. now right.
    + match goal with
      | |- context [for_each rest _ (S uploaded) ?w1] =>
          destruct (IH (S uploaded) w1 eq_refl)
            as (w2 & r2 & calls2 & Hrun2 & Hlog2 & Hpend2 & Hkeep2 & Hrows2)
      end.
      cbn [db pending log] in *.
      set (row := recorded_row video_info r2_config item (db w !! short_id item.1)) in *.
      assert (Hstep : forall id, published (db w) id ->
                 published (<[short_id item.1 := row]> (db w)) id).
      { intros id (v & Hv & Hurl). exists v. split; [| exact Hurl].
        rewrite lookup_insert_ne; [exact Hv |].
        intros <-. apply Hnot. now exists v. }
      exists w2, r2, (calls1 ++ calls2).
      split; [exact Hrun2 |]. split; [now rewrite Hlog2, app_assoc |].
      split; [exact Hpend2 |]. split; [auto |].
      intros id. destruct (decide (id = short_id item.1)) as [-> | Hne].
      * right. exists item.
        assert (Hnow : published (<[short_id item.1 := row]> (db w)) (short_id item.1)).
        { exists row. split; [apply lookup_insert_eq | apply recorded_row_published]. }
        split; [now left |]. split; [reflexivity |]. split; [exact Hnot |].
        split; [exact Hgo |]. split.
        -- destruct (Hrows2 (short_id item.1))
             as [Heq | (item' & _ & _ & Hn & _)]; [| now destruct Hn].
           rewrite Heq. apply lookup_insert_eq.
        -- unfold put_object_keys in *. rewrite omap_app, Hkeys.
           apply in_or_app. left. now left.
      * destruct (Hrows2 id) as [Heq | (item' & Hin & Hid & Hn & Hg & Hrow & Hput)].
        -- left. rewrite Heq. now apply lookup_insert_ne.
        -- right. exists item'. rewrite lookup_insert_ne in Hrow by auto.
           split; [now right |]. split; [exact Hid |]. split; [auto |].
           split; [exact Hg |]. split; [exact Hrow |].
           unfold put_object_keys. rewrite omap_app. apply in_or_app. now right.
Qed.

Lemma publish_loop_publishes (shorts : Listing) (uploaded : nat) (w w' : World)
    (r : result nat) :
  pending w = ∅ ->
  (forall item, In item shorts -> query_fault item.2 = None) ->
  for_each shorts (upload_short video_info r2_config) uploaded w = (w', r) ->
  (exists uploaded', r = Ok uploaded')
  /\ forall item, In item shorts -> goes_through item = true ->
       published (db w') (short_id item.1).
Proof.
  revert uploaded w. induction shorts as [| item rest IH];
    intros uploaded w Hpending Hquery Hrun.
  - cbn in Hrun. injection Hrun as <- <-. split; [now exists uploaded | intros item []].
  - cbn [for_each] in Hrun. unfold mbind, M_bind at 1 in Hrun.
    assert (Hq0 : query_fault item.2 = None) by (apply Hquery; now left).
    assert (Hrest : forall item', In item' rest -> query_fault item'.2 = None)
      by (intros item' Hin; apply Hquery; now right).
    destruct (upload_short_outcome item uploaded w Hpending)
      as [(e & Hq & _) | [(_ & Hpub & Hstep) | [(_ & Hnot & Hgo & calls1 & Hstep & _)
         | (_ & Hnot & Hgo & calls1 & Hstep & _)]]];
      [congruence | ..]; rewrite Hstep in Hrun.
    + match type of Hrun with
      | for_each _ _ ?u ?w1 = _ =>
          destruct (publish_loop_rows rest u w1 eq_refl)
            as (w2 & r2 & calls2 & Hrun2 & _ & _ & Hkeep2 & _);
          pose proof (IH u w1 eq_refl Hrest Hrun) as [Hok Hall]
      end.
      split; [exact Hok |]. intros item' [<- | Hin] Hgo'; [| now apply Hall].
      rewrite Hrun in Hrun2. injection Hrun2 as <- <-. now apply Hkeep2.
    + match type of Hrun with
      | for_each _ _ ?u ?w1 = _ =>
          pose proof (IH u w1 eq_refl Hrest Hrun) as [Hok Hall]
      end.
      split; [exact Hok |]. intros item' [<- | Hin] Hgo'; [congruence | now apply Hall].
    + match type of Hrun with
      | for_each _ _ ?u ?w1 = _ =>
          destruct (publish_loop_rows rest u w1 eq_refl)
            as (w2 & r2 & calls2 & Hrun2 & _ & _ & Hkeep2 & _);
          pose proof (IH u w1 eq_refl Hrest Hrun) as [Hok Hall]
      end.
      split; [exact Hok |]. intros item' [<- | Hin] Hgo'; [| now apply Hall].
      rewrite Hrun in Hrun2. injection Hrun2 as <- <-. apply Hkeep2.
      cbn [db]. eexists. split; [apply lookup_insert_eq | apply recorded_row_published].
Qed.

Lemma publish_loop_skips_all (shorts : Listing) (uploaded : nat) (w : World) :
  pending w = ∅ ->
  (forall item, In item shorts ->
     query_fault item.2 = None /\ published (db w) (short_id item.1)) ->
  exists calls,
    for_each shorts (upload_short video_info r2_config) uploaded w
    = ({| db := db w; pending := ∅; log := log w ++ calls |}, Ok uploaded)
    /\ put_object_keys calls = []
    /\ rollbacks calls = 0%nat
    /\ calls = map (fun item => SessionQuery (short_id item.1)) shorts.
Proof.
  revert w. induction shorts as [| item rest IH]; intros w Hpending Hall.
  - exists []. cbn. rewrite app_nil_r, <- Hpending. now destruct w.
  - cbn [for_each]. unfold mbind, M_bind at 1.
    destruct (Hall item (or_introl eq_refl)) as [Hq Hpub].
    destruct (upload_short_outcome item uploaded w Hpending)
      as [(e & Hq' & _) | [(_ & _ & Hstep) | [(_ & Hnot & _) | (_ & Hnot & _)]]];
      [congruence | | now destruct Hnot | now destruct Hnot].
    rewrite Hstep.
    destruct (IH {| db := db w; pending := ∅;
                    log := log w ++ [SessionQuery (short_id item.1)] |} eq_refl)
      as (calls & Hrun & Hput & Hroll & Hlen).
    { intros item' Hin. apply Hall. now right. }
    cbn [db pending log] in Hrun.
    exists (SessionQuery (short_id item.1) :: calls).
    split; [etransitivity; [exact Hrun |]; now rewrite <- app_assoc |].
    split; [exact Hput |]. split; [exact Hroll |]. cbn [map]. now rewrite Hlen.
Qed.

Lemma publisher_run (video_id : pystr) (shorts_dir : Listing) (w : World) :
  exists w1 r1,
    for_each (List.filter (fun item => endswith item.1 (lit ".mp4")) shorts_dir)
      (upload_short video_info r2_config) 0%nat w = (w1, r1)
    /\ upload_shorts_to_r2_and_db video_id shorts_dir video_info r2_config true w
       = match r1 with
         | Ok uploaded =>
             ({| db := db w1; pending := ∅; log := log w1 ++ [SessionClose] |},
              Ok (0 <? uploaded)%nat)
         | Raised e => (w1, Raised e)
         end.
Proof.
  unfold upload_shorts_to_r2_and_db. cbn [negb].
  unfold mbind, M_bind at 1.
  destruct (for_each _ _ 0%nat w) as [w1 [uploaded | e]]; eexists _, _;
    (split; [reflexivity |]); reflexivity.
Qed.

(** X10: after [upload_shorts_to_r2_and_db], every row of the table is as
    before the run or was written for an [.mp4] file of the directory that
    was not yet published: such a row holds the key [videos/{filename}]
    that was put to the bucket and the URL [{public_url}/{key}]; a row
    that existed keeps its other columns, a new row takes title,
    description and duration from the video the clips were cut from. *)
Theorem publisher_rows (video_id : pystr) (shorts_dir : Listing) (connect_ok : bool)
    (w w' : World) (r : result bool) (id : pystr) :
  pending w = ∅ ->
  upload_shorts_to_r2_and_db video_id shorts_dir video_info r2_config connect_ok w
  = (w', r) ->
  db w' !! id = db w !! id
  \/ exists item v,
       In item shorts_dir
       /\ endswith item.1 (lit ".mp4") = true
       /\ id = short_id item.1
       /\ db w' !! id = Some v
       /\ Video.r2_key v = Some (lit "videos/" ++ item.1)
       /\ Video.r2_url v
          = Some (public_url r2_config ++ lit "/" ++ lit "videos/" ++ item.1)
       /\ In (PutObject (lit "videos/" ++ item.1)) (log w')
       /\ match db w !! id with
          | Some v0 => same_metadata v v0 /\ truthy (Video.r2_url v0) = false
          | None =>
              Video.filename v = item.1
              /\ Video.title v = Some (vi_title video_info)
              /\ Video.description v = Some (vi_description video_info)
              /\ Video.duration v = Some (vi_duration video_info)
          end.
Proof.
  intros Hpending Hrun.
  destruct connect_ok; [| injection Hrun as <- <-; now left].
  destruct (publisher_run video_id shorts_dir w) as (w1 & r1 & Hloop & Hfun).
  rewrite Hfun in Hrun.
  destruct (publish_loop_rows
              (List.filter (fun item => endswith item.1 (lit ".mp4")) shorts_dir)
              0%nat w Hpending)
    as (w2 & r2 & calls & Hloop2 & Hlog & _ & _ & Hrows).
  rewrite Hloop in Hloop2. injection Hloop2 as <- <-.
  assert (Hdb : db w' = db w1 /\ exists tail, log w' = log w1 ++ tail).
  { destruct r1; injection Hrun as <- _; cbn [db log].
    - split; [reflexivity | now eexists].
    - split; [reflexivity | exists []; now rewrite app_nil_r]. }
  destruct Hdb as [Hdb (tail & Htail)]. rewrite Hdb.
  destruct (Hrows id) as [Heq | (item & Hin & Hid & Hnot & Hgo & Hrow & Hput)];
    [now left | right].
  apply filter_In in Hin as [Hin Hext].
  exists item, (recorded_row video_info r2_config item (db w !! id)).
  split; [exact Hin |]. split; [exact Hext |]. split; [exact Hid |].
  split; [exact Hrow |].
  split; [unfold recorded_row; now destruct (db w !! id) |].
  split; [unfold recorded_row; now destruct (db w !! id) |].
  split.
  { rewrite Htail, Hlog. apply in_or_app. left. apply in_or_app. right.
    now apply put_object_keys_In. }
  destruct (db w !! id) as [v0 |] eqn:Hrow0.
  - split; [unfold recorded_row, same_metadata; cbn; tauto |].
    destruct (truthy (Video.r2_url v0)) eqn:Hurl; [| reflexivity].
    exfalso. apply Hnot. now exists v0.
  - unfold recorded_row. cbn. tauto.
Qed.

(** X11: in a run of [upload_shorts_to_r2_and_db] whose session could be
    opened ([connect_ok]) and in which no query raises, every [.mp4] file
    of the directory whose upload and commit go through has a published
    row in the end, whatever happened to the other files and whether or
    not the file had a row before.  Without a session nothing is
    published: the table is left as it is. *)
Theorem publisher_publishes_what_goes_through (video_id : pystr)
    (shorts_dir : Listing) (connect_ok : bool) (w : World) :
  pending w = ∅ ->
  (forall item, In item shorts_dir -> endswith item.1 (lit ".mp4") = true ->
     query_fault item.2 = None) ->
  if connect_ok
  then
    forall item,
      In item shorts_dir -> endswith item.1 (lit ".mp4") = true ->
      goes_through item = true ->
      published
        (db (upload_shorts_to_r2_and_db video_id shorts_dir video_info r2_config
               true w).1)
        (short_id item.1)
  else
    upload_shorts_to_r2_and_db video_id shorts_dir video_info r2_config false w
    = (w, Ok false).
Proof.
  intros Hpending Hquery. destruct connect_ok; [| reflexivity].
  destruct (publisher_run video_id shorts_dir w) as (w1 & r1 & Hloop & Hfun).
  assert (Hq : forall item,
             In item (List.filter (fun item => endswith item.1 (lit ".mp4")) shorts_dir) ->
             query_fault item.2 = None).
  { intros item Hin. apply filter_In in Hin as [Hin Hext]. now apply Hquery. }
  destruct (publish_loop_publishes _ _ _ _ _ Hpending Hq Hloop)
    as [(uploaded & ->) Hall].
  rewrite Hfun. cbn [fst db].
  intros item Hin Hext Hgo. apply Hall; [| exact Hgo].
  apply filter_In. now split.
Qed.

(** X12: when no query raises, a run of [upload_shorts_to_r2_and_db] over a
    directory whose [.mp4] files are all published already changes
    nothing, whether or not the session could be opened: no object is
    put, nothing is rolled back, the table is as before, and the result
    is [False], since skipped files are not counted as uploaded.  With
    the session open the calls are one query for each file and the
    close. *)
Theorem published_directory_is_a_no_op (video_id : pystr) (shorts_dir : Listing)
    (connect_ok : bool) (w : World) :
  pending w = ∅ ->
  (forall item, In item shorts_dir -> endswith item.1 (lit ".mp4") = true ->
     query_fault item.2 = None /\ published (db w) (short_id item.1)) ->
  exists calls,
    upload_shorts_to_r2_and_db video_id shorts_dir video_info r2_config connect_ok w
    = ({| db := db w; pending := ∅; log := log w ++ calls |}, Ok false)
    /\ put_object_keys calls = []
    /\ rollbacks calls = 0%nat
    /\ (connect_ok = true ->
        calls
        = map (fun item => SessionQuery (short_id item.1))
            (List.filter (fun item => endswith item.1 (lit ".mp4")) shorts_dir)
            ++ [SessionClose]).
Proof.
  intros Hpending Hall. destruct connect_ok.
  2: { exists []. unfold upload_shorts_to_r2_and_db. cbn [negb].
       rewrite app_nil_r, <- Hpending. destruct w. now repeat split. }
  destruct (publisher_run video_id shorts_dir w) as (w1 & r1 & Hloop & Hfun).
  destruct (publish_loop_skips_all
              (List.filter (fun item => endswith item.1 (lit ".mp4")) shorts_dir)
              0%nat w Hpending)
    as (calls & Hrun & Hput & Hroll & Hlen).
  { intros item Hin. apply filter_In in Hin as [Hin Hext]. now apply Hall. }
  rewrite Hloop in Hrun. injection Hrun as -> ->. rewrite Hfun. cbn [db log].
  exists (calls ++ [SessionClose]). split; [now rewrite app_assoc |].
  unfold put_object_keys, rollbacks in *. rewrite omap_app, List.filter_app, Hput.
  split; [reflexivity |]. split; [rewrite length_app, Hroll; reflexivity |].
  intros _. now rewrite Hlen.
Qed.

(** X13: a file whose row holds a storage URL is never uploaded again by
    [upload_shorts_to_r2_and_db], and its row is left as it is, whatever
    the other files of the directory are and whatever fails for them. *)
Theorem published_clips_are_skipped (video_id : pystr) (shorts_dir : Listing)
    (connect_ok : bool) (w : World) :
  pending w = ∅ ->
  exists w' r calls,
    upload_shorts_to_r2_and_db video_id shorts_dir video_info r2_config connect_ok w
    = (w', r)
    /\ log w' = log w ++ calls
    /\ forall filename,
         published (db w) (short_id filename) ->
         uploads_of (lit "videos/" ++ filename) calls = 0%nat
         /\ db w' !! short_id filename = db w !! short_id filename.
Proof.
  intros Hpending.
  destruct (upload_shorts_to_r2_and_db video_id shorts_dir video_info r2_config
              connect_ok w) as [w' r] eqn:Hrun.
  assert (Hcalls : exists calls, log w' = log w ++ calls).
  { destruct connect_ok; [| injection Hrun as <- <-; exists []; now rewrite app_nil_r].
    destruct (publisher_run video_id shorts_dir w) as (w1 & r1 & Hloop & Hfun).
    destruct (publish_loop_rows
                (List.filter (fun item => endswith item.1 (lit ".mp4")) shorts_dir)
                0%nat w Hpending) as (w2 & r2 & calls & Hloop2 & Hlog & _).
    rewrite Hloop in Hloop2. injection Hloop2 as <- <-.
    rewrite Hfun in Hrun. destruct r1; injection Hrun as <- _; cbn [log].
    - exists (calls ++ [SessionClose]). now rewrite Hlog, app_assoc.
    - now exists calls. }
  destruct Hcalls as (calls & Hlog).
  exists w', r, calls. split; [reflexivity |]. split; [exact Hlog |].
  intros filename Hpub.
  destruct (publisher_skips_published video_info r2_config video_id shorts_dir
              connect_ok w filename Hpending Hpub)
    as (w1 & r1 & calls1 & Hrun1 & Hlog1 & Hup & Hrow).
  rewrite Hrun in Hrun1. injection Hrun1 as <- <-.
  rewrite Hlog in Hlog1. apply app_inv_head in Hlog1. subst calls1. now split.
Qed.

(** X14: over [.mp4] files that have no published row yet and are
    published under different identifiers, when no query raises: with the
    session open ([connect_ok]) the result of [upload_shorts_to_r2_and_db]
    is [True] exactly when at least one upload and commit go through, the
    session is rolled back once for each file that fails, and is closed
    with nothing pending; without a session the result is [False] and
    nothing is called at all. *)
Theorem fresh_run_counts (video_id : pystr) (shorts_dir : Listing)
    (connect_ok : bool) (w : World) :
  pending w = ∅ ->
  List.NoDup
    (map (fun item => short_id item.1)
       (List.filter (fun item => endswith item.1 (lit ".mp4")) shorts_dir)) ->
  (forall item, In item shorts_dir -> endswith item.1 (lit ".mp4") = true ->
     query_fault item.2 = None /\ ~ published (db w) (short_id item.1)) ->
  if connect_ok
  then
    exists w' calls,
      upload_shorts_to_r2_and_db video_id shorts_dir video_info r2_config true w
      = (w',
         Ok (0 <? length
                    (List.filter goes_through
                       (List.filter (fun item => endswith item.1 (lit ".mp4"))
                          shorts_dir)))%nat)
      /\ log w' = log w ++ calls
      /\ pending w' = ∅
      /\ rollbacks calls
         = length
             (List.filter (fun item => negb (goes_through item))
                (List.filter (fun item => endswith item.1 (lit ".mp4")) shorts_dir))
  else
    upload_shorts_to_r2_and_db video_id shorts_dir video_info r2_config false w
    = (w, Ok false).
Proof.
  intros Hpending Hdup Hfresh. destruct connect_ok; [| reflexivity].
  destruct (upload_loop_counts video_info r2_config
              (List.filter (fun item => endswith item.1 (lit ".mp4")) shorts_dir)
              0%nat w Hpending Hdup)
    as (w1 & calls & Hloop & Hlog & _ & Hroll).
  { intros item Hin. apply filter_In in Hin as [Hin Hext]. now apply Hfresh. }
  rewrite (publish_result video_id shorts_dir video_info r2_config w w1 _ Hloop).
  eexists _, (calls ++ [SessionClose]). split; [reflexivity |]. cbn [log pending].
  split; [now rewrite Hlog, app_assoc |]. split; [reflexivity |].
  rewrite rollbacks_app, Hroll. cbn. lia.
Qed.

End PublisherMore.

Section PublisherMoreExamples.

Import PyStr PyNum Segmenter Naming Publisher ProcessYoutubeVideo Rows.

Lemma publisher_rows_witness :
  exists v,
    db (upload_shorts_to_r2_and_db (lit "abc") [(lit "abc_T_1.mp4", no_faults 100)]
          example_info example_config true empty_world).1
      !! lit "abc_T_1"
    = Some v
    /\ Video.r2_key v = Some (lit "videos/abc_T_1.mp4")
    /\ Video.r2_url v = Some (lit "https://cdn.example/videos/abc_T_1.mp4")
    /\ Video.title v = Some (lit "T").
Proof.
  destruct (publisher_rows example_info example_config (lit "abc")
              [(lit "abc_T_1.mp4", no_faults 100)] true empty_world _ _
              (lit "abc_T_1") eq_refl (surjective_pairing _))
    as [H | (item & v & Hin & _ & _ & Hrow & Hkey & Hurl & _ & Hnew)].
  - vm_compute in H. discriminate.
  - destruct Hin as [<- | []]. exists v. split; [exact Hrow |].
    split; [exact Hkey |]. split; [exact Hurl |].
    change (db empty_world !! lit "abc_T_1") with (@None Video) in Hnew.
    exact (proj1 (proj2 Hnew)).
Defined.

Lemma publisher_publishes_what_goes_through_witness :
  published
    (db (upload_shorts_to_r2_and_db (lit "abc") two_clips example_info
           example_config true empty_world).1)
    (short_id (lit "abc_T_2.mp4")).
Proof.
  assert (Hquery : forall item : pystr * Faults,
             In item two_clips -> endswith item.1 (lit ".mp4") = true ->
             query_fault item.2 = None)
    by (intros item [<- | [<- | []]] _; reflexivity).
  apply (publisher_publishes_what_goes_through example_info example_config
           (lit "abc") two_clips true empty_world eq_refl Hquery
           (lit "abc_T_2.mp4", no_faults 200)).
  - right; now left.
  - reflexivity.
  - reflexivity.
Defined.

Lemma published_directory_is_a_no_op_witness :
  exists calls,
    upload_shorts_to_r2_and_db (lit "abc") [(lit "abc_T_1.mp4", no_faults 200)]
      example_info example_config true published_world
    = ({| db := db published_world; pending := ∅;
          log := log published_world ++ calls |}, Ok false)
    /\ put_object_keys calls = []
    /\ rollbacks calls = 0%nat.
Proof.
  destruct (published_directory_is_a_no_op example_info example_config (lit "abc")
              [(lit "abc_T_1.mp4", no_faults 200)] true published_world eq_refl)
    as (calls & Hrun & Hput & Hroll & _).
  - intros item [<- | []] _. split; [reflexivity |].
    exists published_row. split; vm_compute; reflexivity.
  - now exists calls.
Defined.

Lemma published_clips_are_skipped_witness :
  exists w' r calls,
    upload_shorts_to_r2_and_db (lit "abc")
      [(lit "abc_T_1.mp4", no_faults 200); (lit "abc_T_2.mp4", no_faults 300)]
      example_info example_config true published_world
    = (w', r)
    /\ log w' = log published_world ++ calls
    /\ uploads_of (lit "videos/" ++ lit "abc_T_1.mp4") calls = 0%nat
    /\ db w' !! short_id (lit "abc_T_1.mp4") = Some published_row.
Proof.
  destruct (published_clips_are_skipped example_info example_config (lit "abc")
              [(lit "abc_T_1.mp4", no_faults 200); (lit "abc_T_2.mp4", no_faults 300)]
              true published_world eq_refl)
    as (w' & r & calls & Hrun & Hlog & Hall).
  exists w', r, calls. split; [exact Hrun |]. split; [exact Hlog |].
  destruct (Hall (lit "abc_T_1.mp4")) as [Hup Hrow].
  - exists published_row. split; vm_compute; reflexivity.
  - split; [exact Hup |]. rewrite Hrow. vm_compute. reflexivity.
Defined.

Lemma fresh_run_counts_witness :
  exists w' calls,
    upload_shorts_to_r2_and_db (lit "abc") two_clips example_info example_config
      true empty_world
    = (w', Ok true)
    /\ log w' = log empty_world ++ calls
    /\ pending w' = ∅
    /\ rollbacks calls = 1%nat.
Proof.
  apply (fresh_run_counts example_info example_config (lit "abc") two_clips
           true empty_world eq_refl).
  - vm_compute. repeat constructor; cbn; intuition discriminate.
  - intros item [<- | [<- | []]] _; (split; [reflexivity |]);
      intros (v & Hv & _); vm_compute in Hv; discriminate.
Defined.

End PublisherMoreExamples.

(** ** upload_shorts_to_r2.py, call by call *)

Section ScriptMore.

Import PyStr PyNum Publisher UploadShortsToR2 Rows.

Ltac run_upload :=
  unfold upload_all, upload_one, try_except, try_except_ClientError, external,
    session_query, session_set, session_add, session_commit, session_close,
    logged, mbind, M_bind, mret, M_ret;
  cbn [for_each fst snd db pending log upload_fault head_fault query_fault
       commit_fault utcnow mbind M_bind mret M_ret].

(** One turn of the loop: exactly one [upload_file] call, for the key of
    the file, one more file counted, and no rollback. *)
Lemma upload_one_calls (VIDEO_ID R2_PUBLIC_URL : pystr) (item : pystr * Faults)
    (counts : nat * nat) (w : World) :
  exists w' counts' calls,
    upload_one VIDEO_ID R2_PUBLIC_URL item counts w = (w', Ok counts')
    /\ (counts'.1 + counts'.2 = S (counts.1 + counts.2))%nat
    /\ log w' = log w ++ calls
    /\ upload_file_keys calls = [VIDEO_ID ++ lit "/" ++ item.1]
    /\ rollbacks calls = 0%nat.
Proof.
  destruct item as [filename [up head query commit now]].
  destruct counts as [success_count failed_count].
  run_upload.
  destruct up as [[] |], head as [[] |], query as [[] |];
    cbn [fst snd db pending log];
    try destruct ((pending w ∪ db w) !! replace (lit ".mp4") [] filename);
    cbn [fst snd db pending log];
    try destruct commit as [[] |]; cbn [fst snd db pending log];
    eexists _, _, _; (split; [reflexivity |]); cbn [fst snd db pending log];
    (split; [lia |]);
    (split; [rewrite <- ?app_assoc; reflexivity |]);
    split; reflexivity.
Qed.

Lemma upload_loop_calls (VIDEO_ID R2_PUBLIC_URL : pystr) (shorts_files : Listing)
    (counts : nat * nat) (w : World) :
  exists w' counts' calls,
    for_each shorts_files (upload_one VIDEO_ID R2_PUBLIC_URL) counts w
    = (w', Ok counts')
    /\ (counts'.1 + counts'.2 = length shorts_files + (counts.1 + counts.2))%nat
    /\ log w' = log w ++ calls
    /\ upload_file_keys calls
       = map (fun item => VIDEO_ID ++ lit "/" ++ item.1) shorts_files
    /\ rollbacks calls = 0%nat.
Proof.
  revert counts w. induction shorts_files as [| item rest IH]; intros counts w.
  - exists w, counts, []. cbn. rewrite app_nil_r. repeat split; auto.
  - destruct (upload_one_calls VIDEO_ID R2_PUBLIC_URL item counts w)
      as (w1 & counts1 & calls1 & Hrun1 & Hsum1 & Hlog1 & Hkeys1 & Hroll1).
    destruct (IH counts1 w1)
      as (w2 & counts2 & calls2 & Hrun2 & Hsum2 & Hlog2 & Hkeys2 & Hroll2).
    exists w2, counts2, (calls1 ++ calls2).
    cbn [for_each]. unfold mbind, M_bind at 1. rewrite Hrun1, Hrun2.
    split; [reflexivity |]. split; [cbn [length]; lia |].
    split; [now rewrite Hlog2, Hlog1, app_assoc |].
    split.
    + unfold upload_file_keys in *. rewrite omap_app, Hkeys1, Hkeys2. reflexivity.
    + rewrite rollbacks_app. lia.
Qed.

Lemma script_calls_of (VIDEO_ID R2_PUBLIC_URL : pystr) (shorts_files : Listing)
    (w : World) :
  exists w' counts calls,
    upload_all VIDEO_ID R2_PUBLIC_URL shorts_files w = (w', Ok counts)
    /\ log w' = log w ++ calls
    /\ upload_file_keys calls
       = map (fun item => VIDEO_ID ++ lit "/" ++ item.1) shorts_files.
Proof.
  destruct (upload_loop_calls VIDEO_ID R2_PUBLIC_URL shorts_files (0, 0)%nat w)
    as (w1 & counts & calls & Hrun & _ & Hlog & Hkeys & _).
  exists {| db := db w1; pending := ∅; log := log w1 ++ [SessionClose] |}, counts,
    (calls ++ [SessionClose]).
  unfold upload_all, mbind, M_bind. rewrite Hrun. cbn [session_close].
  split; [reflexivity |]. cbn [log].
  split; [now rewrite Hlog, app_assoc |].
  unfold upload_file_keys in *. rewrite omap_app, Hkeys. cbn. now rewrite app_nil_r.
Qed.

(** X15: in the loop of upload_shorts_to_r2.py, [os.path.getsize] being
    taken to succeed on each listed file, whatever [upload_file],
    [head_object], the query or the commit raise is caught and counted,
    and never answered by a rollback: each file of the batch is counted
    exactly once, as a success or as a failure, and [upload_file] is
    called exactly once for each file, in the order of the listing and
    under the key [{VIDEO_ID}/{filename}], whatever failed for the files
    before it. *)
Theorem script_handles_every_file (VIDEO_ID R2_PUBLIC_URL : pystr)
    (shorts_files : Listing) (w : World) :
  exists w' counts calls,
    upload_all VIDEO_ID R2_PUBLIC_URL shorts_files w = (w', Ok counts)
    /\ (counts.1 + counts.2 = length shorts_files)%nat
    /\ log w' = log w ++ calls
    /\ upload_file_keys calls
       = map (fun item => VIDEO_ID ++ lit "/" ++ item.1) shorts_files
    /\ rollbacks calls = 0%nat
    /\ pending w' = ∅.
Proof.
  destruct (upload_loop_calls VIDEO_ID R2_PUBLIC_URL shorts_files (0, 0)%nat w)
    as (w1 & counts & calls & Hrun & Hsum & Hlog & Hkeys & Hroll).
  exists {| db := db w1; pending := ∅; log := log w1 ++ [SessionClose] |}, counts,
    (calls ++ [SessionClose]).
  unfold upload_all, mbind, M_bind. rewrite Hrun. cbn [session_close].
  split; [reflexivity |]. split; [cbn in Hsum; lia |]. cbn [log pending].
  split; [now rewrite Hlog, app_assoc |].
  split; [unfold upload_file_keys in *; rewrite omap_app, Hkeys; cbn;
          now rewrite app_nil_r |].
  split; [rewrite rollbacks_app, Hroll; reflexivity | reflexivity].
Qed.

(** X16: upload_shorts_to_r2.py touches nothing unless every check before
    the loop passes: with a missing variable, a local or non-PostgreSQL
    [DATABASE_URL], or a client or a session that cannot be created, the
    world is as before and the status is 1.  Once the checks pass, the
    files it uploads are exactly those of the directory whose name starts
    with [VIDEO_ID] and ends with [.mp4]. *)
Theorem script_uploads_matching_files (environ : Environ)
    (s3_client_ok connect_ok : bool) (shorts_dir : option Listing) (w : World) :
  (preflight environ s3_client_ok connect_ok = false ->
   script environ s3_client_ok connect_ok shorts_dir w = (w, 1%Z))
  /\ exists calls,
       log (script environ s3_client_ok connect_ok shorts_dir w).1 = log w ++ calls
       /\ upload_file_keys calls
          = if preflight environ s3_client_ok connect_ok
            then map (fun item => value (environ (lit "VIDEO_ID")) ++ lit "/" ++ item.1)
                   (List.filter
                      (fun item =>
                         startswith item.1 (value (environ (lit "VIDEO_ID")))
                         && endswith item.1 (lit ".mp4"))
                      (default [] shorts_dir))
            else [].
Proof.
  unfold script, preflight.
  destruct (all_truthy _); cbn [negb andb];
    [| split; [reflexivity | exists []; now rewrite app_nil_r]].
  destruct (truthy (environ (lit "DATABASE_URL"))); cbn [negb andb];
    [| split; [reflexivity | exists []; now rewrite app_nil_r]].
  destruct (contains (lit "localhost") _ || contains (lit "127.0.0.1") _
            || contains (lit "/var/run/postgresql") _); cbn [negb andb];
    [split; [reflexivity | exists []; now rewrite app_nil_r] |].
  destruct (startswith _ (lit "postgresql")); cbn [negb andb];
    [| split; [reflexivity | exists []; now rewrite app_nil_r]].
  destruct s3_client_ok; cbn [negb andb];
    [| split; [reflexivity | exists []; now rewrite app_nil_r]].
  destruct connect_ok; cbn [negb andb];
    [| split; [reflexivity | exists []; now rewrite app_nil_r]].
  split; [discriminate |].
  destruct shorts_dir as [files |];
    [change (default [] (Some files)) with files
    | exists []; now rewrite app_nil_r].
  destruct (List.filter _ files) as [| item rest] eqn:Hfiles;
    [exists []; now rewrite app_nil_r |].
  destruct (script_calls_of (value (environ (lit "VIDEO_ID")))
              (value (environ (lit "R2_PUBLIC_URL"))) (item :: rest) w)
    as (w' & counts & calls & Hrun & Hlog & Hkeys).
  rewrite Hrun. cbn [fst]. exists calls. now split.
Qed.

Lemma same_metadata_with_r2 (v v0 : Video) (url key : pystr) (now : Z) :
  same_metadata v v0 -> same_metadata (with_r2 v url key now) v0.
Proof. unfold same_metadata. cbn. tauto. Qed.

Lemma view_lookup (P : Video -> Prop) (table unit_of_work : gmap pystr Video)
    (id : pystr) :
  (forall v, table !! id = Some v -> P v) ->
  (forall v, unit_of_work !! id = Some v -> P v) ->
  forall v, (unit_of_work ∪ table) !! id = Some v -> P v.
Proof.
  intros Ht Hu v Hv. apply lookup_union_Some_raw in Hv as [Hv | [_ Hv]]; auto.
Qed.

Lemma insert_lookup (P : Video -> Prop) (unit_of_work : gmap pystr Video)
    (id key : pystr) (x : Video) :
  (forall v, unit_of_work !! id = Some v -> P v) ->
  (key = id -> P x) ->
  forall v, <[key := x]> unit_of_work !! id = Some v -> P v.
Proof.
  intros Hu Hx v Hv. apply lookup_insert_Some in Hv as [[Hk <-] | [_ Hv]]; auto.
Qed.

(** One turn of the loop keeps a row of the table in the table, and the
    metadata of that row as it is, in the table and in the unit of work. *)
Lemma upload_one_keeps_rows (VIDEO_ID R2_PUBLIC_URL : pystr) (item : pystr * Faults)
    (counts : nat * nat) (w : World) (id : pystr) (v0 : Video) :
  is_Some (db w !! id) ->
  (forall v, db w !! id = Some v -> same_metadata v v0) ->
  (forall v, pending w !! id = Some v -> same_metadata v v0) ->
  is_Some (db (upload_one VIDEO_ID R2_PUBLIC_URL item counts w).1 !! id)
  /\ (forall v, db (upload_one VIDEO_ID R2_PUBLIC_URL item counts w).1 !! id = Some v ->
        same_metadata v v0)
  /\ (forall v,
        pending (upload_one VIDEO_ID R2_PUBLIC_URL item counts w).1 !! id = Some v ->
        same_metadata v v0).
Proof.
  intros Hsome Hdb Hpend.
  destruct item as [filename [up head query commit now]].
  destruct counts as [success_count failed_count].
  run_upload.
  destruct up as [e |]; cbn [fst snd db pending log]; [destruct e; now split |].
  destruct head as [e |]; cbn [fst snd db pending log]; [destruct e; now split |].
  destruct query as [e |]; cbn [fst snd db pending log]; [destruct e; now split |].
  set (short_name := replace (lit ".mp4") [] filename).
  pose proof (view_lookup _ _ _ _ Hdb Hpend) as Hview.
  destruct ((pending w ∪ db w) !! short_name) as [existing |] eqn:Hrow;
    cbn [fst snd db pending log].
  - assert (Hset : forall v,
               <[short_name := with_r2 existing
                                 (R2_PUBLIC_URL ++ lit "/videos/" ++ filename)
                                 (VIDEO_ID ++ lit "/" ++ filename) now]> (pending w)
                 !! id = Some v ->
               same_metadata v v0).
    { apply insert_lookup; [exact Hpend |].
      intros ->. apply same_metadata_with_r2. now apply Hview. }
    destruct commit as [e |]; cbn [fst snd db pending log].
    + destruct e; now split.
    + split; [| split].
      * apply lookup_union_is_Some. now right.
      * now apply view_lookup.
      * intros v Hv. rewrite lookup_empty in Hv. discriminate.
  - assert (Hne : short_name <> id).
    { intros ->. apply lookup_union_None in Hrow as [_ Hrow].
      rewrite Hrow in Hsome. now destruct Hsome. }
    match goal with
    | |- context [<[short_name := ?x]> (pending w)] =>
        assert (Hadd : forall v,
                   <[short_name := x]> (pending w) !! id = Some v ->
                   same_metadata v v0)
          by (apply insert_lookup; [exact Hpend | intros Heq; now destruct Hne])
    end.
    destruct commit as [e |]; cbn [fst snd db pending log].
    + destruct e; now split.
    + split; [| split].
      * apply lookup_union_is_Some. now right.
      * now apply view_lookup.
      * intros v Hv. rewrite lookup_empty in Hv. discriminate.
Qed.

Lemma upload_loop_keeps_rows (VIDEO_ID R2_PUBLIC_URL : pystr) (shorts_files : Listing)
    (counts : nat * nat) (w : World) (id : pystr) (v0 : Video) :
  is_Some (db w !! id) ->
  (forall v, db w !! id = Some v -> same_metadata v v0) ->
  (forall v, pending w !! id = Some v -> same_metadata v v0) ->
  is_Some
    (db (for_each shorts_files (upload_one VIDEO_ID R2_PUBLIC_URL) counts w).1 !! id)
  /\ (forall v,
        db (for_each shorts_files (upload_one VIDEO_ID R2_PUBLIC_URL) counts w).1 !! id
        = Some v ->
        same_metadata v v0).
Proof.
  revert counts w. induction shorts_files as [| item rest IH];
    intros counts w Hsome Hdb Hpend.
  - cbn. now split.
  - cbn [for_each]. unfold mbind, M_bind.
    destruct (upload_one_calls VIDEO_ID R2_PUBLIC_URL item counts w)
      as (w1 & counts1 & calls1 & Hrun1 & _).
    destruct (upload_one_keeps_rows VIDEO_ID R2_PUBLIC_URL item counts w id v0
                Hsome Hdb Hpend) as (Hsome1 & Hdb1 & Hpend1).
    rewrite Hrun1 in *. cbn [fst] in *. now apply IH.
Qed.

(** X17: upload_shorts_to_r2.py never removes a row of the table, and of a
    row that was there before the run it changes at most the storage URL,
    the storage key and the update time: file name, title, description,
    duration, TikTok description and creation time stay as they were,
    whatever the batch holds and whatever fails. *)
Theorem script_keeps_rows (VIDEO_ID R2_PUBLIC_URL : pystr) (shorts_files : Listing)
    (w : World) (id : pystr) (v0 : Video) :
  pending w = ∅ ->
  db w !! id = Some v0 ->
  exists v,
    db (upload_all VIDEO_ID R2_PUBLIC_URL shorts_files w).1 !! id = Some v
    /\ same_metadata v v0.
Proof.
  intros Hpending Hrow.
  destruct (upload_loop_keeps_rows VIDEO_ID R2_PUBLIC_URL shorts_files (0, 0)%nat
              w id v0) as [[v Hv] Hmeta].
  - rewrite Hrow. now eexists.
  - intros v Hv. rewrite Hrow in Hv. injection Hv as <-.
    unfold same_metadata. tauto.
  - intros v Hv. rewrite Hpending, lookup_empty in Hv. discriminate.
  - exists v.
    destruct (upload_loop_calls VIDEO_ID R2_PUBLIC_URL shorts_files (0, 0)%nat w)
      as (w1 & counts & calls & Hrun & _).
    unfold upload_all, mbind, M_bind. rewrite Hrun in *. cbn [fst session_close db] in *.
    split; [exact Hv | now apply Hmeta].
Qed.

End ScriptMore.

Section ScriptMoreExamples.

Import PyStr PyNum Publisher UploadShortsToR2 Rows.

Lemma script_keeps_rows_witness :
  exists v,
    db (upload_all (lit "abc") (lit "https://cdn.example")
          [(lit "abc_T_1.mp4", no_faults 200)] published_world).1
      !! lit "abc_T_1"
    = Some v
    /\ same_metadata v published_row.
Proof.
  apply (script_keeps_rows (lit "abc") (lit "https://cdn.example")
           [(lit "abc_T_1.mp4", no_faults 200)] published_world (lit "abc_T_1")
           published_row eq_refl).
  vm_compute. reflexivity.
Defined.

End ScriptMoreExamples.

(** ** The archive: download_and_upload_to_r2.py and download_from_r2.py *)

Section ArchiveFacts.

Import PyStr PyNum OsPath Subprocess Segmenter Publisher Fetcher R2Processing.

Lemma after_last_sep_clean (r acc : pystr) :
  ~ In sep r -> after_last_sep r acc = rev r ++ acc.
Proof.
  revert acc. induction r as [| c r IH]; intros acc Hr; [reflexivity |].
  cbn [after_last_sep rev]. destruct (N.eqb_spec c sep) as [-> | Hc].
  - exfalso. apply Hr. now left.
  - rewrite IH by (intros H; apply Hr; now right).
    now rewrite <- app_assoc.
Qed.

Lemma after_last_sep_app (r t acc : pystr) :
  ~ In sep r -> after_last_sep (r ++ sep :: t) acc = rev r ++ acc.
Proof.
  revert acc. induction r as [| c r IH]; intros acc Hr.
  - cbn [app after_last_sep rev]. now rewrite N.eqb_refl.
  - cbn [after_last_sep rev app]. destruct (N.eqb_spec c sep) as [-> | Hc].
    + exfalso. apply Hr. now left.
    + rewrite IH by (intros H; apply Hr; now right).
      now rewrite <- app_assoc.
Qed.

Lemma basename_after_sep (x b : pystr) :
  ~ In sep b -> basename (x ++ sep :: b) = b.
Proof.
  intros Hb. unfold basename. rewrite rev_app_distr. cbn [rev].
  rewrite <- app_assoc. cbn [app].
  rewrite after_last_sep_app by (now rewrite <- in_rev).
  now rewrite rev_involutive, app_nil_r.
Qed.

(** The base name of a joined path is the name that was joined, when the
    name holds no separator. *)
Lemma basename_join (a b : pystr) : ~ In sep b -> basename (join a b) = b.
Proof.
  intros Hb. unfold join.
  destruct (startswith b [sep]) eqn:Hstart.
  { destruct b as [| c b]; [discriminate |].
    unfold startswith in Hstart. cbn [is_prefix] in Hstart.
    apply andb_true_iff in Hstart as [Hc _].
    apply N.eqb_eq in Hc. subst c. exfalso. apply Hb. now left. }
  destruct a as [| c a].
  { unfold basename. rewrite after_last_sep_clean by (now rewrite <- in_rev).
    now rewrite rev_involutive, app_nil_r. }
  destruct (endswith (c :: a) [sep]) eqn:Hend.
  - unfold endswith in Hend. cbn [rev app] in Hend.
    destruct (rev a ++ [c]) as [| d t] eqn:Hrev; [discriminate |].
    cbn [is_prefix] in Hend. apply andb_true_iff in Hend as [Hd _].
    apply N.eqb_eq in Hd. subst d.
    assert (Ha : c :: a = rev t ++ [sep]).
    { rewrite <- (rev_involutive (c :: a)). cbn [rev]. rewrite Hrev. reflexivity. }
    rewrite Ha, <- app_assoc. cbn [app]. now apply basename_after_sep.
  - change ((c :: a) ++ [sep] ++ b) with ((c :: a) ++ sep :: b).
    now apply basename_after_sep.
Qed.

Lemma filter_map_comm {A B} (f : A -> B) (p : B -> bool) (l : list A) :
  List.filter p (map f l) = map f (List.filter (fun x => p (f x)) l).
Proof.
  induction l as [| x l IH]; [reflexivity |].
  cbn. destruct (p (f x)); cbn; now rewrite IH.
Qed.

Lemma NoDup_filter_list {A} (p : A -> bool) (l : list A) :
  List.NoDup l -> List.NoDup (List.filter p l).
Proof.
  induction 1 as [| x l Hx Hl IH]; [constructor |].
  cbn. destruct (p x); [| exact IH].
  constructor; [| exact IH]. intros Hin. apply Hx.
  now apply filter_In in Hin as [Hin _].
Qed.

Lemma NoDup_map_inj {A B} (f : A -> B) (l : list A) :
  (forall x y, f x = f y -> x = y) -> List.NoDup l -> List.NoDup (map f l).
Proof.
  intros Hinj. induction 1 as [| x l Hx Hl IH]; [constructor |].
  cbn. constructor; [| exact IH].
  intros Hin. apply in_map_iff in Hin as (y & Hy & Hin).
  apply Hinj in Hy. now subst y.
Qed.

(** X18: the archive [create_zip_archive] writes is flat: the video is
    stored under [{video_id}.mp4] and each of the four side files that
    exists under [{video_id}{ext}], without the directory, whatever the
    directory is; a side file that does not exist is left out, and no two
    members share a name. *)
Theorem archive_members (host : Host) (video_id output_dir : pystr) :
  ~ In sep video_id ->
  map snd
    (zip_members host video_id (join output_dir (video_id ++ lit ".mp4")) output_dir)
  = (video_id ++ lit ".mp4")
      :: map (fun ext => video_id ++ ext)
           (List.filter
              (fun ext => path_exists host (join output_dir (video_id ++ ext)))
              sidecar_exts)
  /\ List.NoDup
       (map snd
          (zip_members host video_id (join output_dir (video_id ++ lit ".mp4"))
             output_dir)).
Proof.
  intros Hid.
  assert (Hname : forall ext,
             In ext (lit ".mp4" :: sidecar_exts) ->
             basename (join output_dir (video_id ++ ext)) = video_id ++ ext).
  { intros ext Hext. apply basename_join. rewrite in_app_iff. intros [H | H]; [auto |].
    revert H. cbn [In] in Hext.
    destruct Hext as [<- | [<- | [<- | [<- | [<- | []]]]]]; vm_compute;
      intuition discriminate. }
  assert (Heq : map snd
                  (zip_members host video_id (join output_dir (video_id ++ lit ".mp4"))
                     output_dir)
                = map (fun ext => video_id ++ ext)
                    (lit ".mp4"
                       :: List.filter
                            (fun ext =>
                               path_exists host (join output_dir (video_id ++ ext)))
                            sidecar_exts)).
  { unfold zip_members. cbn [map snd]. rewrite Hname by now left. f_equal.
    rewrite filter_map_comm, !map_map. cbn [snd].
    apply map_ext_in. intros ext Hext. apply filter_In in Hext as [Hext _].
    apply Hname. now right. }
  split; [exact Heq |].
  rewrite Heq. apply NoDup_map_inj.
  - intros x y H. now apply app_inv_head in H.
  - constructor.
    + intros H. apply filter_In in H as [H _]. vm_compute in H.
      intuition discriminate.
    + apply NoDup_filter_list. unfold sidecar_exts.
      repeat constructor; vm_compute; intuition discriminate.
Qed.

Lemma archive_members_witness :
  map snd
    (zip_members {| run := fun _ => Exited 0;
                    path_exists := fun p => bool_decide (p = lit "temp/abc/abc.jpg") |}
       (lit "abc") (join (lit "temp/abc") (lit "abc" ++ lit ".mp4")) (lit "temp/abc"))
  = [lit "abc.mp4"; lit "abc.jpg"].
Proof.
  destruct (archive_members
              {| run := fun _ => Exited 0;
                 path_exists := fun p => bool_decide (p = lit "temp/abc/abc.jpg") |}
              (lit "abc") (lit "temp/abc")) as [Heq _].
  - vm_compute. intuition discriminate.
  - rewrite Heq. vm_compute. reflexivity.
Defined.

Ltac run_s3 :=
  unfold upload_to_r2, s3_try, s3_try_ClientError, s3, s3_raise, mbind, S3_bind,
    mret, S3_ret.

(** X19: [upload_to_r2] raises only what [boto3.client(...)] raises, before
    any upload.  With the client created it returns whatever the uploads
    raise: [True] exactly when both succeed; it uploads the archive
    before the analysis, under the keys [{video_id}/{video_id}.zip] and
    [{video_id}/{video_id}_analysis.json], and does not attempt the
    analysis once the archive has failed. *)
Theorem upload_to_r2_outcome (client : option s3_exn) (bucket : Bucket)
    (video_id zip_path analysis_path : pystr) (calls : list s3_call) :
  match client with
  | Some e =>
      upload_to_r2 client bucket video_id zip_path analysis_path calls
      = (calls, Failed e)
  | None =>
      exists success new,
        upload_to_r2 client bucket video_id zip_path analysis_path calls
        = (calls ++ new, Done success)
        /\ (success = true
            <-> bucket (S3Upload zip_path (zip_key video_id)) = None
                /\ bucket (S3Upload analysis_path (json_key video_id)) = None)
        /\ uploaded_keys new
           = match bucket (S3Upload zip_path (zip_key video_id)) with
             | None => [zip_key video_id; json_key video_id]
             | Some _ => [zip_key video_id]
             end
  end.
Proof.
  destruct client as [e |]; [reflexivity |].
  run_s3.
  destruct (bucket (S3Upload zip_path (zip_key video_id))) as [e1 |];
    [| destruct (bucket (S3Upload analysis_path (json_key video_id))) as [e2 |]];
    eexists _, _; (split; [rewrite <- ?app_assoc; reflexivity |]);
    (split; [| reflexivity]); intuition congruence.
Qed.

Lemma fetch_some (host : Host) (cmd : list pystr) (video_id output_dir file : pystr) :
  fetch host cmd video_id output_dir = Some file ->
  file = join output_dir (video_id ++ lit ".mp4")
  /\ path_exists host file = true
  /\ run host cmd = Exited 0.
Proof.
  unfold fetch. destruct (run host cmd) as [[| code | code] | |]; try discriminate.
  destruct (path_exists host _) eqn:Hfile; [| discriminate].
  intros [= <-]. now split.
Qed.

Ltac run_download :=
  unfold download_from_r2, s3_try, s3_try_ClientError, s3, s3_raise, mbind, S3_bind,
    mret, S3_ret.

(** X20: with a variable missing, [download_from_r2] exits with status 1
    before any call.  Otherwise the only exceptions that leave it are
    those of [boto3.client(...)] and of [os.makedirs], which stand before
    the [try] and before any S3 call; once both have succeeded it returns
    whatever the bucket raises: [True] exactly when [head_object] and both
    downloads succeed; nothing is downloaded unless [head_object]
    succeeded on the archive, and the analysis is downloaded only after
    the archive. *)
Theorem download_from_r2_outcome (environ : Environ)
    (client makedirs : option s3_exn) (bucket : Bucket) (calls : list s3_call) :
  let video_id := value (environ (lit "VIDEO_ID")) in
  if all_truthy (required environ)
  then
    match client, makedirs with
    | Some e, _ =>
        download_from_r2 environ client makedirs bucket calls = (calls, Uncaught e)
    | None, Some e =>
        download_from_r2 environ client makedirs bucket calls = (calls, Uncaught e)
    | None, None =>
        exists success new,
          download_from_r2 environ client makedirs bucket calls
          = (calls ++ new, Returned success)
          /\ (success = true
              <-> bucket (S3Head (zip_key video_id)) = None
                  /\ bucket (S3Download (zip_key video_id) (zip_path video_id)) = None
                  /\ bucket (S3Download (json_key video_id) (json_path video_id))
                     = None)
          /\ downloaded_keys new
             = match bucket (S3Head (zip_key video_id)),
                     bucket (S3Download (zip_key video_id) (zip_path video_id)) with
               | None, None => [zip_key video_id; json_key video_id]
               | None, Some _ => [zip_key video_id]
               | Some _, _ => []
               end
    end
  else
    download_from_r2 environ client makedirs bucket calls = (calls, SysExit 1%Z).
Proof.
  intros video_id. unfold required, zip_path, json_path, temp_dir. subst video_id.
  unfold download_from_r2.
  destruct (all_truthy _); cbn [negb]; [| reflexivity].
  destruct client as [e |]; [reflexivity |].
  destruct makedirs as [e |]; [reflexivity |].
  unfold s3_try, s3_try_ClientError, s3, s3_raise, mbind, S3_bind, mret, S3_ret.
  destruct (bucket (S3Head _)) as [[code |] |].
  - destruct (bool_decide (code = lit "404")); [| destruct (bool_decide (code = lit "403"))];
      eexists _, _; (split; [reflexivity |]); (split; [| reflexivity]);
      intuition congruence.
  - eexists _, _. split; [reflexivity |]. split; [| reflexivity]. intuition congruence.
  - destruct (bucket (S3Download (zip_key _) _)) as [e1 |];
      [| destruct (bucket (S3Download (json_key _) _)) as [e2 |]];
      eexists _, _; (split; [rewrite <- ?app_assoc; reflexivity |]);
      (split; [| reflexivity]); intuition congruence.
Qed.

(** X21: what [upload_to_r2] of download_and_upload_to_r2.py has uploaded
    for a video is what [download_from_r2] asks for: when the upload
    returned [True] and, in the run of [download_from_r2] with the same
    [VIDEO_ID], the client is created, the directory made and the bucket
    serves the uploaded keys, [download_from_r2] returns [True], and the
    keys it downloads are the uploaded keys, in the same order. *)
Theorem uploaded_archive_can_be_fetched (environ : Environ)
    (client_up : option s3_exn) (bucket_up bucket_down : Bucket)
    (zip_file analysis_file : pystr) (uploaded calls : list s3_call) :
  all_truthy (required environ) = true ->
  upload_to_r2 client_up bucket_up (value (environ (lit "VIDEO_ID"))) zip_file
    analysis_file []
  = (uploaded, Done true) ->
  (forall key, In key (uploaded_keys uploaded) ->
     bucket_down (S3Head key) = None
     /\ forall path, bucket_down (S3Download key path) = None) ->
  exists new,
    download_from_r2 environ None None bucket_down calls
    = (calls ++ new, Returned true)
    /\ downloaded_keys new = uploaded_keys uploaded.
Proof.
  intros Henv Hup Hserved. unfold required in Henv.
  revert Hup. destruct client_up as [e |]; [discriminate |]. run_s3.
  destruct (bucket_up (S3Upload zip_file _)) as [e1 |]; [discriminate |].
  destruct (bucket_up (S3Upload analysis_file _)) as [e2 |]; [discriminate |].
  intros [= <-]. cbn [app uploaded_keys omap] in Hserved.
  destruct (Hserved (zip_key (value (environ (lit "VIDEO_ID")))))
    as [Hhead Hzip]; [now left |].
  destruct (Hserved (json_key (value (environ (lit "VIDEO_ID")))))
    as [_ Hjson]; [right; now left |].
  run_download. rewrite Henv. cbn [negb]. rewrite Hhead, Hzip, Hjson.
  eexists. split; [rewrite <- ?app_assoc; reflexivity | reflexivity].
Qed.

(** X22: [main] of download_and_upload_to_r2.py ends with status 0 or 1,
    and with 0 only if the five variables are set, the directory was
    made, yt-dlp left the video at [temp/{VIDEO_ID}/{VIDEO_ID}.mp4], the
    client was created and both uploads succeeded; when a variable is
    missing or the download fails, no S3 call is made. *)
Theorem archive_run_status (host : Host) (environ : Environ) (api : TranscriptApi)
    (makedirs client : option s3_exn) (bucket : Bucket) (calls : list s3_call) :
  let video_id := value (environ (lit "VIDEO_ID")) in
  let video_file :=
    download_youtube_video host video_id (temp_dir video_id)
      (first_existing host possible_paths) in
  ((main host environ api makedirs client bucket calls).2 = 0%Z
   \/ (main host environ api makedirs client bucket calls).2 = 1%Z)
  /\ ((main host environ api makedirs client bucket calls).2 = 0%Z ->
      all_truthy (required environ) = true
      /\ video_file = Some (join (temp_dir video_id) (video_id ++ lit ".mp4"))
      /\ path_exists host (join (temp_dir video_id) (video_id ++ lit ".mp4")) = true
      /\ bucket (S3Upload (zip_path video_id) (zip_key video_id)) = None
      /\ bucket (S3Upload (json_path video_id) (json_key video_id)) = None
      /\ makedirs = None
      /\ client = None)
  /\ (all_truthy (required environ) = false \/ video_file = None ->
      main host environ api makedirs client bucket calls = (calls, 1%Z)).
Proof.
  intros video_id video_file.
  unfold main, required, zip_path, json_path, temp_dir, create_zip_archive,
    R2Processing.analysis_file.
  destruct (all_truthy _); cbn [negb];
    [| split; [now right |]; split; [discriminate | reflexivity]].
  fold video_id.
  change (download_youtube_video host video_id (lit "temp/" ++ video_id)
            (first_existing host possible_paths)) with video_file.
  destruct makedirs as [e |].
  { split; [now right |]. split; [discriminate |].
    intros [H | H]; [discriminate | reflexivity]. }
  destruct video_file as [file |] eqn:Hfile;
    [| split; [now right |]; split; [discriminate | reflexivity]].
  apply fetch_some in Hfile as (Hpath & Hexists & _). subst file.
  destruct client as [e |].
  { cbn. split; [now right |]. split; [discriminate |].
    intros [H | H]; discriminate. }
  run_s3.
  destruct (bucket (S3Upload _ (zip_key _))) as [e1 |];
    [| destruct (bucket (S3Upload _ (json_key _))) as [e2 |]];
    cbn [snd]; (split; [auto |]); (split; [| intros [H | H]; discriminate]);
    intros H; try discriminate; repeat split; auto.
Qed.

End ArchiveFacts.

Section ArchiveExamples.

Import PyStr PyNum OsPath Subprocess Segmenter Publisher Fetcher R2Processing.

Lemma uploaded_archive_can_be_fetched_witness :
  exists new,
    download_from_r2 (fun _ => Some (lit "abc")) None None (fun _ => None) []
    = ([] ++ new, Returned true)
    /\ downloaded_keys new = [lit "abc/abc.zip"; lit "abc/abc_analysis.json"].
Proof.
  apply (uploaded_archive_can_be_fetched (fun _ => Some (lit "abc")) None
           (fun _ => None) (fun _ => None) (lit "temp/abc/abc.zip")
           (lit "temp/abc/abc_analysis.json")
           [ S3Upload (lit "temp/abc/abc.zip") (lit "abc/abc.zip");
             S3Upload (lit "temp/abc/abc_analysis.json")
               (lit "abc/abc_analysis.json") ]
           []).
  - reflexivity.
  - reflexivity.
  - intros key _. now split.
Defined.

End ArchiveExamples.

(** ** The whole of process_youtube_video.py *)

Section PipelineMore.

Import PyStr PyNum OsPath Subprocess Segmenter Naming Publisher ProcessYoutubeVideo
  Fetcher ClipExtractor Rows.
Open Scope Q_scope.

Variable isalnum : char -> bool.

(** The count of [upload_shorts_to_r2_and_db] grows only with a file whose
    upload and commit go through. *)
Lemma publish_loop_progress (video_info : VideoInfo) (r2_config : R2Config)
    (shorts : Listing) (uploaded uploaded' : nat) (w w' : World) :
  pending w = ∅ ->
  for_each shorts (upload_short video_info r2_config) uploaded w = (w', Ok uploaded') ->
  (uploaded < uploaded')%nat ->
  exists item, In item shorts /\ goes_through item = true.
Proof.
  revert uploaded w. induction shorts as [| item rest IH];
    intros uploaded w Hpending Hrun Hlt.
  - cbn in Hrun. injection Hrun as _ Hu. lia.
  - cbn [for_each] in Hrun. unfold mbind, M_bind at 1 in Hrun.
    destruct (upload_short_outcome video_info r2_config item uploaded w Hpending)
      as [(e & _ & Hstep) | [(_ & _ & Hstep) | [(_ & _ & _ & calls & Hstep & _)
         | (_ & _ & Hgo & calls & Hstep & _)]]];
      rewrite Hstep in Hrun; [discriminate | | |].
    + match type of Hrun with
      | for_each _ _ ?u ?w1 = _ =>
          destruct (IH u w1 eq_refl Hrun Hlt) as (item' & Hin & Hgo)
      end.
      exists item'. split; [now right | exact Hgo].
    + match type of Hrun with
      | for_each _ _ ?u ?w1 = _ =>
          destruct (IH u w1 eq_refl Hrun Hlt) as (item' & Hin & Hgo)
      end.
      exists item'. split; [now right | exact Hgo].
    + exists item. split; [now left | exact Hgo].
Qed.

Lemma filter_nonempty {A} (f : A -> bool) (l : list A) :
  List.filter f l <> [] -> exists x, In x l /\ f x = true.
Proof.
  intros H. destruct (List.filter f l) as [| x rest] eqn:Hf; [now destruct H |].
  exists x. apply filter_In. rewrite Hf. now left.
Qed.

(** X23: process_youtube_video.py, started with a session that has nothing
    pending, ends with status 0 only if every stage did its part: the
    seven variables are set; yt-dlp exited with 0 and left the video at
    [downloads/{VIDEO_ID}.mp4]; for at least one segment ffmpeg, run with
    the command of [cut_video_segment] on that video, exited with 0 and
    left its clip in [shorts] under the name the run gives to that
    segment; the session could be opened; and the upload and the commit
    went through for at least one [.mp4] file of [shorts]. *)
Theorem pipeline_success (host : Host) (environ : Environ)
    (info_file : option InfoJson) (probe : option Q) (shorts_listing : Listing)
    (connect_ok : bool) (w : World) :
  pending w = ∅ ->
  (process_youtube_video isalnum host environ info_file probe shorts_listing
     connect_ok w).2 = 0%Z ->
  let video_id := value (environ (lit "VIDEO_ID")) in
  let video_file := join (lit "downloads") (video_id ++ lit ".mp4") in
  let segments := create_segments video_id probe (get_video_info video_id info_file) in
  all_truthy [environ (lit "VIDEO_ID"); environ (lit "R2_SHORTS_ACCESS_KEY");
              environ (lit "R2_SHORTS_SECRET_KEY");
              environ (lit "R2_SHORTS_ENDPOINT"); environ (lit "R2_SHORTS_BUCKET");
              environ (lit "R2_SHORTS_PUBLIC_URL"); environ (lit "DATABASE_URL")]
  = true
  /\ run host
       (Fetcher.download_command host video_id (lit "downloads")
          (first_existing host
             [lit "youtube_cookies.txt"; lit ".github/youtube_cookies.txt"]))
     = Exited 0
  /\ path_exists host video_file = true
  /\ (exists i segment,
         In (i, segment) (enumerate1 segments)
         /\ In (output_filename isalnum video_id segment i)
              (clip_names isalnum video_id segments)
         /\ run host
              (cut_command video_file
                 (join (lit "shorts") (output_filename isalnum video_id segment i))
                 (seg_start segment) (seg_end segment))
            = Exited 0
         /\ path_exists host
              (join (lit "shorts") (output_filename isalnum video_id segment i))
            = true)
  /\ connect_ok = true
  /\ exists item,
       In item shorts_listing
       /\ endswith item.1 (lit ".mp4") = true
       /\ goes_through item = true.
Proof.
  intros Hpending Hexit video_id video_file segments.
  unfold process_youtube_video, main in Hexit. fold video_id in Hexit.
  destruct (all_truthy _) eqn:Henv; cbn [negb] in Hexit; [| discriminate].
  split; [reflexivity |].
  destruct (Fetcher.download_youtube_video host video_id (lit "downloads") _)
    as [file |] eqn:Hfile; cbn [negb] in Hexit; [| discriminate].
  apply fetch_some in Hfile as (Hpath & Hexists & Hrun).
  fold video_file in Hpath. subst file.
  split; [exact Hrun |]. split; [exact Hexists |].
  fold segments in Hexit.
  destruct (length _ =? 0)%nat eqn:Hclips; [discriminate |].
  apply Nat.eqb_neq in Hclips.
  split.
  { destruct (filter_nonempty _ _ (fun H => Hclips (f_equal (@length _) H)))
      as ([i segment] & Hin & Hcut).
    exists i, segment. split; [exact Hin |]. split.
    - unfold clip_names. apply in_map_iff. now exists (i, segment).
    - unfold cut_video_segment in Hcut. cbn [default from_option id] in Hcut.
      unfold output_filename.
      match goal with
      | |- ?r = _ /\ ?q = _ =>
          change (match r with Exited 0%Z => q | _ => false end = true) in Hcut;
          destruct r as [[| code | code] | |]; try discriminate Hcut
      end.
      now split. }
  destruct connect_ok.
  2: { unfold upload_shorts_to_r2_and_db in Hexit. cbn in Hexit. discriminate. }
  split; [reflexivity |].
  match type of Hexit with
  | context [upload_shorts_to_r2_and_db ?v ?d ?i ?c true w] =>
      destruct (publisher_run i c v d w) as (w1 & r1 & Hloop & Hfun);
      rewrite Hfun in Hexit
  end.
  destruct r1 as [uploaded | e]; [| discriminate].
  destruct (0 <? uploaded)%nat eqn:Hup; [| discriminate].
  apply Nat.ltb_lt in Hup.
  destruct (publish_loop_progress _ _ _ _ _ _ _ Hpending Hloop Hup)
    as (item & Hin & Hgo).
  apply filter_In in Hin as [Hin Hext]. now exists item.
Qed.

End PipelineMore.

Section PipelineMoreExamples.

Import PyStr PyNum OsPath Subprocess Segmenter Naming Publisher ProcessYoutubeVideo
  Fetcher ClipExtractor Rows.
Open Scope Q_scope.

Lemma pipeline_success_witness :
  exists item,
    In item [(lit "abc_T_-_Part_1_1.mp4", no_faults 100)]
    /\ endswith item.1 (lit ".mp4") = true
    /\ goes_through item = true.
Proof.
  apply (pipeline_success (fun _ => true)
           {| run := fun _ => Exited 0; path_exists := fun _ => true |}
           (fun _ => Some (lit "abc"))
           (Some {| info_title := Some (lit "T"); info_description := None;
                    info_duration := Some 185 |})
           None [(lit "abc_T_-_Part_1_1.mp4", no_faults 100)] true empty_world
           eq_refl).
  vm_compute. reflexivity.
Defined.

End PipelineMoreExamples.
